(** * AB-signup: the challenge brokers (captcha_solver.py, sms_service.py)

    A shallow embedding of the two provider-broker modules:

    - [captcha_solver.py]: [CapSolverClient], [TwoCaptchaClient] and the
      broker [CaptchaSolver];
    - [sms_service.py]: [SMSActivateClient], [FiveSimClient] and the broker
      [SMSService].

    Python objects are records, [self] is threaded explicitly, exceptions
    are an error monad, and everything the code does to the outside (HTTP
    requests, [asyncio.sleep]) is recorded in a trace kept in the [World].
    The remote providers are an oracle of the world: it answers every
    request from the history of what happened so far. *)

From Stdlib Require Import ZArith String Ascii List Lia Bool DecimalString.
Import ListNotations.
Open Scope string_scope.
Open Scope Z_scope.

Set Warnings "-register-all".

(* ================================================================== *)
(** ** Python values *)
(* ================================================================== *)

(** What [resp.json()] yields, and what the code stores in its dicts.
    A Python float is carried by its [repr] (["0.0021"], ["0.7"]): the code
    copies floats around and prints them, it never computes with them. *)
Inductive json : Type :=
| JNull
| JBool (b : bool)
| JInt (n : Z)
| JFloat (repr : string)
| JStr (s : string)
| JList (l : list json)
| JObj (d : list (string * json)).

Definition dict := list (string * json).

(** [bool(v)] *)
Definition truthy (v : json) : bool :=
  match v with
  | JNull => false
  | JBool b => b
  | JInt n => negb (n =? 0)
  | JFloat r => negb (String.eqb r "0.0" || String.eqb r "-0.0")
  | JStr s => negb (String.eqb s "")
  | JList l => match l with [] => false | _ => true end
  | JObj d => match d with [] => false | _ => true end
  end.

(** [a or b] *)
Definition py_or (a b : json) : json := if truthy a then a else b.

(** [d.get(k)] on a dict already known to be one; a missing key reads as
    [None]. *)
Fixpoint dict_lookup (d : dict) (k : string) : option json :=
  match d with
  | [] => None
  | (k', v) :: d' => if String.eqb k' k then Some v else dict_lookup d' k
  end.

Definition dict_get (d : dict) (k : string) : json :=
  match dict_lookup d k with Some v => v | None => JNull end.

(** [d.get(k, dflt)] *)
Definition dict_get_default (d : dict) (k : string) (dflt : json) : json :=
  match dict_lookup d k with Some v => v | None => dflt end.

(** [str(n)] for an int. *)
Definition string_of_Z (n : Z) : string := NilZero.string_of_int (Z.to_int n).

(** [v == n] for an int literal [n]: ints, bools (which are ints) and the
    float equal to [n] compare equal, nothing else does. *)
Definition py_eq_int (v : json) (n : Z) : bool :=
  match v with
  | JInt m => m =? n
  | JBool b => (if b then 1 else 0) =? n
  | JFloat r =>
      String.eqb r (string_of_Z n ++ ".0") || ((n =? 0) && String.eqb r "-0.0")
  | _ => false
  end.

(** [v == s] for a str literal [s]. *)
Definition py_eq_str (v : json) (s : string) : bool :=
  match v with
  | JStr t => String.eqb t s
  | _ => false
  end.

(** [str(v)], as an f-string renders [{v}].  The rendering of lists and
    dicts (Python's [repr] of their elements) is not modelled: [None]. *)
Definition py_str (v : json) : option string :=
  match v with
  | JNull => Some "None"
  | JBool true => Some "True"
  | JBool false => Some "False"
  | JInt n => Some (string_of_Z n)
  | JFloat r => Some r
  | JStr s => Some s
  | JList _ | JObj _ => None
  end.

(** [s.lower()] for an ASCII [s].  Python also maps letters outside ASCII
    (the Kelvin sign to [k], say), and this function leaves them alone:
    what is stated of a name through its [lower] assumes [is_ascii]
    wherever the name is not a constant of the code. *)
Definition lower_ascii (c : ascii) : ascii :=
  let n := nat_of_ascii c in
  if (Nat.leb 65 n && Nat.leb n 90)%bool then ascii_of_nat (n + 32) else c.

Fixpoint lower (s : string) : string :=
  match s with
  | EmptyString => EmptyString
  | String c s' => String (lower_ascii c) (lower s')
  end.

(** [s.split(":")]: the fields between the colons, at least one. *)
Fixpoint split_colon_aux (s : string) (cur : string) : list string :=
  match s with
  | EmptyString => [cur]
  | String c s' =>
      if Ascii.eqb c ":"%char then cur :: split_colon_aux s' ""
      else split_colon_aux s' (cur ++ String c "")
  end.

Definition split_colon (s : string) : list string := split_colon_aux s "".

(** [s.startswith(p)] *)
Definition startswith (s p : string) : bool := String.prefix p s.

(** [s.isascii()]: on such strings [lower] and [upper] are Python's
    [str.lower] and [str.upper]. *)
Fixpoint is_ascii (s : string) : bool :=
  match s with
  | EmptyString => true
  | String c s' => Nat.ltb (nat_of_ascii c) 128 && is_ascii s'
  end.

(* ================================================================== *)
(** ** Exceptions, outcomes and the monad *)
(* ================================================================== *)

(** The exceptions the two modules raise or let through.  [PyException]
    is the plain [Exception(msg)] of the source. *)
Inductive exn : Type :=
| ValueError (msg : string)
| PyException (msg : string)
| TimeoutError (msg : string)
| NotImplementedError (msg : string)
| KeyError (key : string)
| IndexError
| AttributeError (msg : string)
| TypeError
| OverflowError (msg : string)
| ClientError            (* aiohttp: the transport failed *)
| ContentTypeError       (* aiohttp: the Content-Type is not JSON *)
| JSONDecodeError.       (* json: the body does not parse; a [ValueError] *)

(** Why a run of the model stops without a Python result. *)
Inductive stuck : Type :=
| OutOfFuel              (* the loop was cut by the model's fuel *)
| Unsupported.           (* [str()] of a list or dict, and what depends
                            on the version of Python or of a library *)

Inductive outcome (A : Type) : Type :=
| Ok (a : A)
| Raise (e : exn)
| Stuck (s : stuck).
Arguments Ok {A} a.
Arguments Raise {A} e.
Arguments Stuck {A} s.

(** State-and-exception monad over a state [St]. *)
Definition M (St A : Type) : Type := St -> outcome A * St.

Definition ret {St A} (a : A) : M St A := fun s => (Ok a, s).

Definition bind {St A B} (m : M St A) (k : A -> M St B) : M St B :=
  fun s =>
    match m s with
    | (Ok a, s') => k a s'
    | (Raise e, s') => (Raise e, s')
    | (Stuck r, s') => (Stuck r, s')
    end.

Definition raise {St A} (e : exn) : M St A := fun s => (Raise e, s).

Definition stop {St A} (r : stuck) : M St A := fun s => (Stuck r, s).

(** [try: m except ValueError: h] *)
Definition except_ValueError {St A} (m : M St A) (h : M St A) : M St A :=
  fun s =>
    match m s with
    | (Raise (ValueError _), s') => h s'
    | (Raise JSONDecodeError, s') => h s'
    | r => r
    end.

(** [type(v).__name__] *)
Definition type_name (v : json) : string :=
  match v with
  | JNull => "NoneType"
  | JBool _ => "bool"
  | JInt _ => "int"
  | JFloat _ => "float"
  | JStr _ => "str"
  | JList _ => "list"
  | JObj _ => "dict"
  end.

(** The [AttributeError] of [x.attr] on an object of type [type] that has
    no such attribute. *)
Definition no_attribute (type attr : string) : exn :=
  AttributeError ("'" ++ type ++ "' object has no attribute '" ++ attr ++ "'").

Declare Scope py_scope.
Delimit Scope py_scope with py.
Notation "x <- m ;; k" := (bind m (fun x => k))
  (at level 61, m at next level, right associativity) : py_scope.
Notation "m ;;; k" := (bind m (fun _ => k))
  (at level 61, right associativity) : py_scope.
Open Scope py_scope.

(** A method that only touches the world, run inside a method that also
    owns a [self]. *)
Definition lift {Self St A} (m : M St A) : M (Self * St) A :=
  fun '(self, s) => let '(r, s') := m s in (r, (self, s')).

Definition get_self {Self St} : M (Self * St) Self :=
  fun '(self, s) => (Ok self, (self, s)).

Definition set_self {Self St} (self' : Self) : M (Self * St) unit :=
  fun '(_, s) => (Ok tt, (self', s)).

(* ================================================================== *)
(** ** The world: environment, remote providers, trace, clock *)
(* ================================================================== *)

Inductive verb : Type := GET | POST.

(** One HTTP request as the code hands it to aiohttp. *)
Record Request : Type := mkRequest {
  rq_verb : verb;
  rq_url : string;
  rq_headers : list (string * string);  (* the session's default headers *)
  rq_params : dict;                     (* [params=] *)
  rq_json : option json                 (* [json=] *)
}.

(** Why [resp.json()] fails: the Content-Type is not JSON
    ([ContentTypeError]), or it is and the body does not parse
    ([JSONDecodeError]). *)
Inductive json_failure : Type := WrongContentType | Malformed.

(** What comes back: the HTTP status, the body as [resp.text()] reads it
    and as [resp.json()] reads it ([None]: it fails, for the reason in
    [rs_json_failure]). *)
Record Response : Type := mkResponse {
  rs_status : Z;
  rs_text : string;
  rs_json : option json;
  rs_json_failure : json_failure
}.

(** The remote side's answer: how long the round trip took and, unless
    the transport failed, the response. *)
Record Reply : Type := mkReply {
  latency : Z;
  response : option Response
}.

Inductive action : Type :=
| Slept (seconds : Z)
| Sent (r : Request).

(** An action and the time it started at. *)
Definition Event : Type := (Z * action)%type.

Record World : Type := mkWorld {
  environ : string -> option string;           (* [os.getenv] *)
  remote : list Event -> Request -> Reply;     (* the providers *)
  trace : list Event;                          (* newest first *)
  clock : Z
}.

Definition record (a : action) (dt : Z) (w : World) : World :=
  {| environ := environ w; remote := remote w;
     trace := (clock w, a) :: trace w; clock := clock w + dt |}.

(** [os.getenv(name)] *)
Definition getenv (name : string) : M World (option string) :=
  fun w => (Ok (environ w name), w).

(** [await asyncio.sleep(d)] *)
Definition sleep (d : Z) : M World unit :=
  fun w => (Ok tt, record (Slept d) (Z.max 0 d) w).

(** A float that is neither an infinity nor a NaN, by its [repr]. *)
Definition finite_float (r : string) : bool :=
  negb (String.eqb r "inf" || String.eqb r "-inf" || String.eqb r "nan").

(** A query parameter must be a str, an int or a finite float; anything
    else is refused while the URL is built, before the request is sent. *)
Definition valid_param (v : json) : bool :=
  match v with
  | JStr _ | JInt _ => true
  | JFloat r => finite_float r
  | _ => false
  end.

(** How a query parameter is refused: [ValueError] for an infinity and
    for a NaN, [TypeError] for [None], a bool and a dict.  A list is a
    sequence of values to some versions of the library and a [TypeError]
    to others. *)
Definition refuse_param {A} (v : json) : M World A :=
  match v with
  | JFloat r =>
      if String.eqb r "nan"
      then raise (ValueError "float('nan') is not supported")
      else raise (ValueError "float('inf') is not supported")
  | JList _ => stop Unsupported
  | _ => raise TypeError
  end.

(** The parameters are rendered in order: the first one that is not valid
    decides. *)
Fixpoint refuse_params {A} (params : dict) : M World A :=
  match params with
  | [] => raise TypeError
  | (_, v) :: params' =>
      if valid_param v then refuse_params params' else refuse_param v
  end.

Definition session := option (list (string * string)).

(** [self._session.get(url, params=...)] / [self._session.post(url,
    json=...)], up to the response headers.  Without a session the
    attribute access on [None] fails. *)
Definition send (s : session) (v : verb) (url : string) (params : dict)
    (body : option json) : M World Response :=
  match s with
  | None =>
      raise (no_attribute "NoneType"
               match v with GET => "get" | POST => "post" end)
  | Some headers =>
      if forallb (fun kv => valid_param (snd kv)) params then
        fun w =>
          let r := mkRequest v url headers params body in
          let reply := remote w (trace w) r in
          let w' := record (Sent r) (latency reply) w in
          match response reply with
          | Some resp => (Ok resp, w')
          | None => (Raise ClientError, w')
          end
      else refuse_params params
  end.

(** [await resp.json()] *)
Definition resp_json {St} (r : Response) : M St json :=
  match rs_json r with
  | Some j => ret j
  | None =>
      match rs_json_failure r with
      | WrongContentType => raise ContentTypeError
      | Malformed => raise JSONDecodeError
      end
  end.

(** [v.get(k)] *)
Definition py_get {St} (v : json) (k : string) : M St json :=
  match v with
  | JObj d => ret (dict_get d k)
  | _ => raise (no_attribute (type_name v) "get")
  end.

(** [v.get(k, dflt)] *)
Definition py_get_default {St} (v : json) (k : string) (dflt : json)
    : M St json :=
  match v with
  | JObj d => ret (dict_get_default d k dflt)
  | _ => raise (no_attribute (type_name v) "get")
  end.

(** [v[k]] for a str key. *)
Definition py_item {St} (v : json) (k : string) : M St json :=
  match v with
  | JObj d =>
      match dict_lookup d k with
      | Some x => ret x
      | None => raise (KeyError k)
      end
  | _ => raise TypeError
  end.

(** [v[0]] *)
Definition py_item0 {St} (v : json) : M St json :=
  match v with
  | JList (x :: _) => ret x
  | JList [] => raise IndexError
  | JStr (String c _) => ret (JStr (String c ""))
  | JStr EmptyString => raise IndexError
  | JObj _ => raise (KeyError "0")
  | _ => raise TypeError
  end.

(** [a or b], [b] evaluated only when [a] is falsy. *)
Definition or_else {St} (a b : M St json) : M St json :=
  x <- a ;; if truthy x then ret x else b.

(** [f"{prefix}{v}"] *)
Definition fmt {St} (prefix : string) (v : json) : M St string :=
  match py_str v with
  | Some s => ret (prefix ++ s)
  | None => stop Unsupported
  end.

(* ================================================================== *)
(** ** captcha_solver.py *)
(* ================================================================== *)

(** [@dataclass CaptchaSolution]; the fields hold whatever the provider's
    JSON held. *)
Record CaptchaSolution : Type := mkCaptchaSolution {
  token : json;
  task_id : json;
  provider : string;
  cost : json
}.

(** The dataclass default [cost: float = 0.0]. *)
Definition default_cost : json := JFloat "0.0".

(** The attributes of a provider client: [self.api_key], [self._session]. *)
Record Client : Type := mkClient {
  api_key : string;
  _session : session
}.

(** [self.api_key = api_key or os.getenv(var)], then
    [if not self.api_key: raise ValueError(f"{var} not configured")];
    [self._session = None]. *)
Definition client_init (var : string) (key : option string)
    : M World Client :=
  k <- match key with
       | Some s => if negb (String.eqb s "") then ret (Some s) else getenv var
       | None => getenv var
       end ;;
  match k with
  | Some s =>
      if String.eqb s "" then raise (ValueError (var ++ " not configured"))
      else ret (mkClient s None)
  | None => raise (ValueError (var ++ " not configured"))
  end.

(** [__aenter__] of the three clients whose session has no default
    headers: [self._session = aiohttp.ClientSession()]. *)
Definition client_aenter (c : Client) : Client :=
  mkClient (api_key c) (Some []).

Module CapSolverClient.

Definition BASE_URL := "https://api.capsolver.com".

Definition __init__ (key : option string) : M World Client :=
  client_init "CAPSOLVER_API_KEY" key.

Definition __aenter__ := client_aenter.

(** The [while elapsed < timeout] loop of [_create_and_wait]. *)
Fixpoint poll_loop (fuel : nat) (self : Client) (task_id : json)
    (timeout elapsed : Z) : M World CaptchaSolution :=
  if elapsed <? timeout then
    match fuel with
    | O => stop OutOfFuel
    | S fuel' =>
        let poll_interval := 3 in
        sleep poll_interval ;;;
        let elapsed := elapsed + poll_interval in
        resp <- send (_session self) POST (BASE_URL ++ "/getTaskResult") []
                  (Some (JObj [("clientKey", JStr (api_key self));
                               ("taskId", task_id)])) ;;
        data <- resp_json resp ;;
        errorId <- py_get data "errorId" ;;
        if negb (py_eq_int errorId 0) then
          d <- py_get data "errorDescription" ;;
          msg <- fmt "Task failed: " d ;;
          raise (PyException msg)
        else
          status <- py_get data "status" ;;
          if py_eq_str status "ready" then
            solution <- py_get_default data "solution" (JObj []) ;;
            token <- or_else (py_get solution "gRecaptchaResponse")
                       (or_else (py_get solution "token")
                                (py_get solution "text")) ;;
            cost <- py_get_default data "cost" (JInt 0) ;;
            ret (mkCaptchaSolution token task_id "capsolver" cost)
          else
            poll_loop fuel' self task_id timeout elapsed
    end
  else
    raise (TimeoutError ("CAPTCHA not solved within "
                         ++ string_of_Z timeout ++ " seconds")).

Definition _create_and_wait (fuel : nat) (self : Client) (task : dict)
    (timeout : Z) : M World CaptchaSolution :=
  resp <- send (_session self) POST (BASE_URL ++ "/createTask") []
            (Some (JObj [("clientKey", JStr (api_key self));
                         ("task", JObj task)])) ;;
  data <- resp_json resp ;;
  errorId <- py_get data "errorId" ;;
  if negb (py_eq_int errorId 0) then
    d <- py_get data "errorDescription" ;;
    msg <- fmt "Failed to create task: " d ;;
    raise (PyException msg)
  else
    task_id <- py_get data "taskId" ;;
    solution <- py_get data "solution" ;;
    if truthy solution then
      token <- or_else (s <- py_item data "solution" ;;
                        py_get s "gRecaptchaResponse")
                       (s <- py_item data "solution" ;;
                        py_get s "token") ;;
      ret (mkCaptchaSolution token task_id "capsolver" default_cost)
    else
      poll_loop fuel self task_id timeout 0.

Definition default_timeout : Z := 120.

Definition solve_recaptcha_v2 (fuel : nat) (self : Client)
    (site_key url : string) (invisible enterprise : bool)
    : M World CaptchaSolution :=
  let task_type :=
    if enterprise then "ReCaptchaV2EnterpriseTaskProxyLess"
    else "ReCaptchaV2TaskProxyLess" in
  let task := [("type", JStr task_type);
               ("websiteURL", JStr url);
               ("websiteKey", JStr site_key)] in
  let task :=
    if invisible then (task ++ [("isInvisible", JBool true)])%list else task in
  _create_and_wait fuel self task default_timeout.

Definition solve_recaptcha_v3 (fuel : nat) (self : Client)
    (site_key url action : string) (min_score : json)
    : M World CaptchaSolution :=
  let task := [("type", JStr "ReCaptchaV3TaskProxyLess");
               ("websiteURL", JStr url);
               ("websiteKey", JStr site_key);
               ("pageAction", JStr action);
               ("minScore", min_score)] in
  _create_and_wait fuel self task default_timeout.

Definition solve_hcaptcha (fuel : nat) (self : Client)
    (site_key url : string) (enterprise : bool)
    : M World CaptchaSolution :=
  let task_type :=
    if enterprise then "HCaptchaEnterpriseTaskProxyLess"
    else "HCaptchaTurboTaskProxyLess" in
  let task := [("type", JStr task_type);
               ("websiteURL", JStr url);
               ("websiteKey", JStr site_key)] in
  _create_and_wait fuel self task default_timeout.

Definition solve_turnstile (fuel : nat) (self : Client)
    (site_key url : string) : M World CaptchaSolution :=
  let task := [("type", JStr "AntiTurnstileTaskProxyLess");
               ("websiteURL", JStr url);
               ("websiteKey", JStr site_key)] in
  _create_and_wait fuel self task default_timeout.

End CapSolverClient.

Module TwoCaptchaClient.

Definition BASE_URL := "https://2captcha.com".

Definition __init__ (key : option string) : M World Client :=
  client_init "TWO_CAPTCHA_API_KEY" key.

Definition __aenter__ := client_aenter.

(** The [while elapsed < timeout] loop of [_create_and_wait]. *)
Fixpoint poll_loop (fuel : nat) (self : Client) (task_id : json)
    (timeout elapsed : Z) : M World CaptchaSolution :=
  if elapsed <? timeout then
    match fuel with
    | O => stop OutOfFuel
    | S fuel' =>
        let poll_interval := 5 in
        sleep poll_interval ;;;
        let elapsed := elapsed + poll_interval in
        resp <- send (_session self) GET (BASE_URL ++ "/res.php")
                  [("key", JStr (api_key self));
                   ("action", JStr "get");
                   ("id", task_id);
                   ("json", JInt 1)] None ;;
        data <- resp_json resp ;;
        status <- py_get data "status" ;;
        if py_eq_int status 1 then
          token <- py_get data "request" ;;
          ret (mkCaptchaSolution token task_id "2captcha" default_cost)
        else
          request <- py_get data "request" ;;
          if negb (py_eq_str request "CAPCHA_NOT_READY") then
            r <- py_get data "request" ;;
            msg <- fmt "Task failed: " r ;;
            raise (PyException msg)
          else
            poll_loop fuel' self task_id timeout elapsed
    end
  else
    raise (TimeoutError ("CAPTCHA not solved within "
                         ++ string_of_Z timeout ++ " seconds")).

Definition _create_and_wait (fuel : nat) (self : Client) (params : dict)
    (timeout : Z) : M World CaptchaSolution :=
  resp <- send (_session self) GET (BASE_URL ++ "/in.php") params None ;;
  data <- resp_json resp ;;
  status <- py_get data "status" ;;
  if negb (py_eq_int status 1) then
    r <- py_get data "request" ;;
    msg <- fmt "Failed to create task: " r ;;
    raise (PyException msg)
  else
    task_id <- py_get data "request" ;;
    poll_loop fuel self task_id timeout 0.

Definition default_timeout : Z := 120.

Definition solve_recaptcha_v2 (fuel : nat) (self : Client)
    (site_key url : string) (invisible : bool) : M World CaptchaSolution :=
  let params := [("key", JStr (api_key self));
                 ("method", JStr "userrecaptcha");
                 ("googlekey", JStr site_key);
                 ("pageurl", JStr url);
                 ("json", JInt 1)] in
  let params :=
    if invisible then (params ++ [("invisible", JInt 1)])%list
  else params in
  _create_and_wait fuel self params default_timeout.

Definition solve_recaptcha_v3 (fuel : nat) (self : Client)
    (site_key url action : string) (min_score : json)
    : M World CaptchaSolution :=
  let params := [("key", JStr (api_key self));
                 ("method", JStr "userrecaptcha");
                 ("googlekey", JStr site_key);
                 ("pageurl", JStr url);
                 ("version", JStr "v3");
                 ("action", JStr action);
                 ("min_score", min_score);
                 ("json", JInt 1)] in
  _create_and_wait fuel self params default_timeout.

Definition solve_hcaptcha (fuel : nat) (self : Client)
    (site_key url : string) : M World CaptchaSolution :=
  let params := [("key", JStr (api_key self));
                 ("method", JStr "hcaptcha");
                 ("sitekey", JStr site_key);
                 ("pageurl", JStr url);
                 ("json", JInt 1)] in
  _create_and_wait fuel self params default_timeout.

End TwoCaptchaClient.

(** An int that [float()] can convert: one that does not round to a
    power beyond the largest double. *)
Definition fits_double (n : Z) : bool := Z.abs n <? 2 ^ 1024 - 2 ^ 970.

(** [f"{v:.4f}"], of which the code only keeps a log line: it formats
    numbers, an int by converting it to a float first, and raises on
    anything else. *)
Definition format_4f {St} (v : json) : M St unit :=
  match v with
  | JInt n =>
      if fits_double n then ret tt
      else raise (OverflowError "int too large to convert to float")
  | JFloat _ | JBool _ => ret tt
  | JStr _ => raise (ValueError "Unknown format code 'f' for object of type 'str'")
  | JNull | JList _ | JObj _ => raise TypeError
  end.

Inductive CaptchaProvider : Type :=
| CapSolver (c : Client)
| TwoCaptcha (c : Client).

(** [isinstance(p, CapSolverClient)] *)
Definition is_CapSolverClient (p : option CaptchaProvider) : bool :=
  match p with
  | Some (CapSolver _) => true
  | _ => false
  end.

Module CaptchaSolver.

Record t : Type := mk {
  preferred_provider : string;
  _provider : option CaptchaProvider
}.

Definition __init__ (preferred_provider : string) : t :=
  mk preferred_provider None.

(** [self._provider = p] *)
Definition set_provider (p : CaptchaProvider) : M (t * World) unit :=
  self <- get_self ;;
  set_self (mk (preferred_provider self) (Some p)).

(** [await self._provider.__aenter__()] *)
Definition provider_aenter : M (t * World) unit :=
  self <- get_self ;;
  match _provider self with
  | Some (CapSolver c) =>
      set_provider (CapSolver (CapSolverClient.__aenter__ c))
  | Some (TwoCaptcha c) =>
      set_provider (TwoCaptcha (TwoCaptchaClient.__aenter__ c))
  | None => raise (no_attribute "NoneType" "__aenter__")
  end.

Definition new_CapSolver : M (t * World) unit :=
  c <- lift (CapSolverClient.__init__ None) ;; set_provider (CapSolver c).

Definition new_TwoCaptcha : M (t * World) unit :=
  c <- lift (TwoCaptchaClient.__init__ None) ;; set_provider (TwoCaptcha c).

Definition no_provider_msg :=
  "No CAPTCHA solver configured. Set CAPSOLVER_API_KEY or TWO_CAPTCHA_API_KEY".

Definition __aenter__ : M (t * World) unit :=
  except_ValueError
    (self <- get_self ;;
     (if String.eqb (preferred_provider self) "capsolver"
      then new_CapSolver else new_TwoCaptcha) ;;;
     provider_aenter)
    (except_ValueError
       (self <- get_self ;;
        (if String.eqb (preferred_provider self) "capsolver"
         then new_TwoCaptcha else new_CapSolver) ;;;
        provider_aenter)
       (raise (ValueError no_provider_msg))).

Definition solve_recaptcha_v2 (fuel : nat) (self : t)
    (site_key url : string) (invisible : bool) : M World CaptchaSolution :=
  solution <- match _provider self with
              | Some (CapSolver c) =>
                  CapSolverClient.solve_recaptcha_v2 fuel c site_key url
                    invisible false
              | Some (TwoCaptcha c) =>
                  TwoCaptchaClient.solve_recaptcha_v2 fuel c site_key url
                    invisible
              | None => raise (no_attribute "NoneType" "solve_recaptcha_v2")
              end ;;
  format_4f (cost solution) ;;;
  ret solution.

Definition solve_recaptcha_v3 (fuel : nat) (self : t)
    (site_key url action : string) (min_score : json)
    : M World CaptchaSolution :=
  solution <- match _provider self with
              | Some (CapSolver c) =>
                  CapSolverClient.solve_recaptcha_v3 fuel c site_key url
                    action min_score
              | Some (TwoCaptcha c) =>
                  TwoCaptchaClient.solve_recaptcha_v3 fuel c site_key url
                    action min_score
              | None => raise (no_attribute "NoneType" "solve_recaptcha_v3")
              end ;;
  format_4f (cost solution) ;;;
  ret solution.

Definition solve_hcaptcha (fuel : nat) (self : t) (site_key url : string)
    : M World CaptchaSolution :=
  solution <- match _provider self with
              | Some (CapSolver c) =>
                  CapSolverClient.solve_hcaptcha fuel c site_key url false
              | Some (TwoCaptcha c) =>
                  TwoCaptchaClient.solve_hcaptcha fuel c site_key url
              | None => raise (no_attribute "NoneType" "solve_hcaptcha")
              end ;;
  format_4f (cost solution) ;;;
  ret solution.

Definition solve_turnstile (fuel : nat) (self : t) (site_key url : string)
    : M World CaptchaSolution :=
  if negb (is_CapSolverClient (_provider self)) then
    raise (NotImplementedError "Turnstile solving requires CapSolver")
  else
    match _provider self with
    | Some (CapSolver c) =>
        CapSolverClient.solve_turnstile fuel c site_key url
    | Some (TwoCaptcha _) =>
        raise (no_attribute "TwoCaptchaClient" "solve_turnstile")
    | None => raise (no_attribute "NoneType" "solve_turnstile")
    end.

End CaptchaSolver.

(* ================================================================== *)
(** ** sms_service.py *)
(* ================================================================== *)

Module PhoneNumber.

(** [@dataclass PhoneNumber] *)
Record t : Type := mk {
  number : json;
  country : json;
  activation_id : string;
  provider : string;
  expires_at : option Z
}.

End PhoneNumber.

(** [d[k] = v] *)
Fixpoint dict_set (d : dict) (k : string) (v : json) : dict :=
  match d with
  | [] => [(k, v)]
  | (k', v') :: d' =>
      if String.eqb k' k then (k, v) :: d' else (k', v') :: dict_set d' k v
  end.

(** [TABLE.get(key, dflt)] for the str-to-str tables. *)
Fixpoint table_get (tbl : list (string * string)) (key dflt : string)
    : string :=
  match tbl with
  | [] => dflt
  | (k, v) :: tbl' => if String.eqb k key then v else table_get tbl' key dflt
  end.

Module SMSActivateClient.

Definition BASE_URL := "https://api.sms-activate.org/stubs/handler_api.php".

Definition SERVICES : list (string * string) :=
  [("google", "go"); ("gmail", "go"); ("outlook", "ot");
   ("microsoft", "ot"); ("yahoo", "ya"); ("facebook", "fb");
   ("twitter", "tw"); ("instagram", "ig"); ("amazon", "am");
   ("telegram", "tg")].

Definition __init__ (key : option string) : M World Client :=
  client_init "SMS_ACTIVATE_API_KEY" key.

Definition __aenter__ := client_aenter.

Definition _request (self : Client) (action : string) (params : dict)
    : M World string :=
  let params := dict_set params "api_key" (JStr (api_key self)) in
  let params := dict_set params "action" (JStr action) in
  resp <- send (_session self) GET BASE_URL params None ;;
  ret (rs_text resp).

Definition get_number (self : Client) (service country : string)
    : M World PhoneNumber.t :=
  let service_code := table_get SERVICES (lower service) service in
  result <- _request self "getNumber"
              [("service", JStr service_code); ("country", JStr country)] ;;
  if startswith result "ACCESS_NUMBER:" then
    match split_colon result with
    | _ :: activation_id :: number :: _ =>
        ret (PhoneNumber.mk (JStr number) (JStr country) activation_id
               "sms-activate" None)
    | _ => raise IndexError
    end
  else if String.eqb result "NO_NUMBERS" then
    raise (PyException "No numbers available for this service/country")
  else if String.eqb result "NO_BALANCE" then
    raise (PyException "Insufficient balance")
  else
    raise (PyException ("Failed to get number: " ++ result)).

Definition get_code (self : Client) (activation_id : string)
    : M World (option string) :=
  result <- _request self "getStatus" [("id", JStr activation_id)] ;;
  if startswith result "STATUS_OK:" then
    match split_colon result with
    | _ :: code :: _ => ret (Some code)
    | _ => raise IndexError
    end
  else if String.eqb result "STATUS_WAIT_CODE" then
    ret None
  else if String.eqb result "STATUS_CANCEL" then
    raise (PyException "Activation was cancelled")
  else
    ret None.

Definition status_codes : list (string * Z) :=
  [("done", 6); ("cancel", 8); ("retry", -1)].

Fixpoint status_code (tbl : list (string * Z)) (status : string) : Z :=
  match tbl with
  | [] => 6
  | (k, v) :: tbl' => if String.eqb k status then v else status_code tbl' status
  end.

Definition set_status (self : Client) (activation_id status : string)
    : M World unit :=
  let code := status_code status_codes status in
  _request self "setStatus"
    [("id", JStr activation_id); ("status", JInt code)] ;;;
  ret tt.

(** [if code:] on an [Optional[str]] *)
Definition code_received (code : option string) : option string :=
  match code with
  | Some s => if String.eqb s "" then None else Some s
  | None => None
  end.

(** The [while elapsed < timeout] loop of [wait_for_code] and what
    follows it. *)
Fixpoint wait_loop (fuel : nat) (self : Client) (activation_id : string)
    (timeout poll_interval elapsed : Z) : M World string :=
  if elapsed <? timeout then
    match fuel with
    | O => stop OutOfFuel
    | S fuel' =>
        code <- get_code self activation_id ;;
        match code_received code with
        | Some code =>
            set_status self activation_id "done" ;;;
            ret code
        | None =>
            sleep poll_interval ;;;
            wait_loop fuel' self activation_id timeout poll_interval
              (elapsed + poll_interval)
        end
    end
  else
    set_status self activation_id "cancel" ;;;
    raise (TimeoutError ("No code received within "
                         ++ string_of_Z timeout ++ " seconds")).

Definition wait_for_code (fuel : nat) (self : Client) (activation_id : string)
    (timeout poll_interval : Z) : M World string :=
  wait_loop fuel self activation_id timeout poll_interval 0.

End SMSActivateClient.

Module FiveSimClient.

Definition BASE_URL := "https://5sim.net/v1".

Definition SERVICES : list (string * string) :=
  [("google", "google"); ("gmail", "google"); ("microsoft", "microsoft");
   ("outlook", "microsoft"); ("amazon", "amazon"); ("facebook", "facebook");
   ("twitter", "twitter"); ("instagram", "instagram");
   ("telegram", "telegram")].

Definition __init__ (key : option string) : M World Client :=
  client_init "FIVESIM_API_KEY" key.

Definition __aenter__ (c : Client) : Client :=
  mkClient (api_key c) (Some [("Authorization", "Bearer " ++ api_key c)]).

Definition get_number (self : Client) (service country operator : string)
    : M World PhoneNumber.t :=
  let service_code := table_get SERVICES (lower service) service in
  let url := BASE_URL ++ "/user/buy/activation/" ++ country ++ "/"
             ++ operator ++ "/" ++ service_code in
  resp <- send (_session self) GET url [] None ;;
  if negb (rs_status resp =? 200) then
    raise (PyException ("Failed to get number: " ++ rs_text resp))
  else
    data <- resp_json resp ;;
    phone <- py_item data "phone" ;;
    country <- py_item data "country" ;;
    id <- py_item data "id" ;;
    id <- fmt "" id ;;
    ret (PhoneNumber.mk phone country id "5sim" None).

Definition get_code (self : Client) (activation_id : string) : M World json :=
  let url := BASE_URL ++ "/user/check/" ++ activation_id in
  resp <- send (_session self) GET url [] None ;;
  data <- resp_json resp ;;
  sms <- py_get data "sms" ;;
  if truthy sms then
    l <- py_item data "sms" ;;
    sms <- py_item0 l ;;
    or_else (py_get sms "code") (py_get sms "text")
  else
    ret JNull.

Definition finish (self : Client) (activation_id : string) : M World unit :=
  let url := BASE_URL ++ "/user/finish/" ++ activation_id in
  send (_session self) GET url [] None ;;;
  ret tt.

Definition cancel (self : Client) (activation_id : string) : M World unit :=
  let url := BASE_URL ++ "/user/cancel/" ++ activation_id in
  send (_session self) GET url [] None ;;;
  ret tt.

(** The [while elapsed < timeout] loop of [wait_for_code] and what
    follows it. *)
Fixpoint wait_loop (fuel : nat) (self : Client) (activation_id : string)
    (timeout poll_interval elapsed : Z) : M World json :=
  if elapsed <? timeout then
    match fuel with
    | O => stop OutOfFuel
    | S fuel' =>
        code <- get_code self activation_id ;;
        if truthy code then
          finish self activation_id ;;;
          ret code
        else
          sleep poll_interval ;;;
          wait_loop fuel' self activation_id timeout poll_interval
            (elapsed + poll_interval)
    end
  else
    cancel self activation_id ;;;
    raise (TimeoutError ("No code received within "
                         ++ string_of_Z timeout ++ " seconds")).

Definition wait_for_code (fuel : nat) (self : Client) (activation_id : string)
    (timeout poll_interval : Z) : M World json :=
  wait_loop fuel self activation_id timeout poll_interval 0.

End FiveSimClient.

Inductive SMSProvider : Type :=
| SMSActivate (c : Client)
| FiveSim (c : Client).

(** [isinstance(p, SMSActivateClient)] *)
Definition is_SMSActivateClient (p : option SMSProvider) : bool :=
  match p with
  | Some (SMSActivate _) => true
  | _ => false
  end.

Module SMSService.

Record t : Type := mk {
  preferred_provider : string;
  _provider : option SMSProvider;
  _current_phone : option PhoneNumber.t
}.

Definition __init__ (preferred_provider : string) : t :=
  mk preferred_provider None None.

(** [self._provider = p] *)
Definition set_provider (p : SMSProvider) : M (t * World) unit :=
  self <- get_self ;;
  set_self (mk (preferred_provider self) (Some p) (_current_phone self)).

(** [await self._provider.__aenter__()] *)
Definition provider_aenter : M (t * World) unit :=
  self <- get_self ;;
  match _provider self with
  | Some (SMSActivate c) =>
      set_provider (SMSActivate (SMSActivateClient.__aenter__ c))
  | Some (FiveSim c) =>
      set_provider (FiveSim (FiveSimClient.__aenter__ c))
  | None => raise (no_attribute "NoneType" "__aenter__")
  end.

Definition new_SMSActivate : M (t * World) unit :=
  c <- lift (SMSActivateClient.__init__ None) ;; set_provider (SMSActivate c).

Definition new_FiveSim : M (t * World) unit :=
  c <- lift (FiveSimClient.__init__ None) ;; set_provider (FiveSim c).

Definition no_provider_msg :=
  "No SMS provider configured. Set SMS_ACTIVATE_API_KEY or FIVESIM_API_KEY".

Definition __aenter__ : M (t * World) unit :=
  except_ValueError
    (self <- get_self ;;
     (if String.eqb (preferred_provider self) "sms-activate"
      then new_SMSActivate else new_FiveSim) ;;;
     provider_aenter)
    (except_ValueError
       (self <- get_self ;;
        (if String.eqb (preferred_provider self) "sms-activate"
         then new_FiveSim else new_SMSActivate) ;;;
        provider_aenter)
       (raise (ValueError no_provider_msg))).

Definition country_map : list (string * (string * string)) :=
  [("usa", ("12", "usa"));
   ("uk", ("16", "england"));
   ("russia", ("0", "russia"));
   ("ukraine", ("1", "ukraine"));
   ("germany", ("43", "germany"))].

(** [country_map.get(key, dflt)] *)
Fixpoint country_map_get (tbl : list (string * (string * string)))
    (key : string) (dflt : string * string) : string * string :=
  match tbl with
  | [] => dflt
  | (k, v) :: tbl' =>
      if String.eqb k key then v else country_map_get tbl' key dflt
  end.

(** [self._current_phone = p] *)
Definition set_current_phone (p : PhoneNumber.t) : M (t * World) unit :=
  self <- get_self ;;
  set_self (mk (preferred_provider self) (_provider self) (Some p)).

Definition get_number (service country : string)
    : M (t * World) PhoneNumber.t :=
  self <- get_self ;;
  let entry := country_map_get country_map (lower country)
                 (country, country) in
  let country_code :=
    if is_SMSActivateClient (_provider self) then fst entry else snd entry in
  phone <- match _provider self with
           | Some (SMSActivate c) =>
               lift (SMSActivateClient.get_number c service country_code)
           | Some (FiveSim c) =>
               lift (FiveSimClient.get_number c service country_code "any")
           | None => raise (no_attribute "NoneType" "get_number")
           end ;;
  set_current_phone phone ;;;
  ret phone.

Definition default_poll_interval : Z := 5.

Definition wait_for_code (fuel : nat) (self : t) (timeout : Z)
    : M World json :=
  match _current_phone self with
  | None =>
      raise (ValueError "No phone number acquired. Call get_number() first.")
  | Some phone =>
      match _provider self with
      | Some (SMSActivate c) =>
          code <- SMSActivateClient.wait_for_code fuel c
                    (PhoneNumber.activation_id phone) timeout
                    default_poll_interval ;;
          ret (JStr code)
      | Some (FiveSim c) =>
          FiveSimClient.wait_for_code fuel c
            (PhoneNumber.activation_id phone) timeout default_poll_interval
      | None => raise (no_attribute "NoneType" "wait_for_code")
      end
  end.

End SMSService.

(* ================================================================== *)
(** ** signup_bot_enhanced.py *)
(* ================================================================== *)

(** [s.upper()] for an ASCII [s]; as with [lower], what is stated of a
    message through its [upper] assumes [is_ascii] where Python's mapping
    of letters outside ASCII could decide otherwise. *)
Definition upper_ascii (c : ascii) : ascii :=
  let n := nat_of_ascii c in
  if (Nat.leb 97 n && Nat.leb n 122)%bool then ascii_of_nat (n - 32) else c.

Fixpoint upper (s : string) : string :=
  match s with
  | EmptyString => EmptyString
  | String c s' => String (upper_ascii c) (upper s')
  end.

(** [p in s] for two strings. *)
Fixpoint contains (p s : string) : bool :=
  (String.prefix p s
   || match s with
      | EmptyString => false
      | String _ s' => contains p s'
      end)%bool.

(** [try: m except Exception as e: h e].  Every exception of the model is
    an [Exception]. *)
Definition except_Exception {St A} (m : M St A) (h : exn -> M St A)
    : M St A :=
  fun s =>
    match m s with
    | (Raise e, s') => h e s'
    | r => r
    end.

(** [try: m except TimeoutError: h1 except Exception as e: h2 e] *)
Definition except_TimeoutError_Exception {St A} (m : M St A) (h1 : M St A)
    (h2 : exn -> M St A) : M St A :=
  fun s =>
    match m s with
    | (Raise (TimeoutError _), s') => h1 s'
    | (Raise e, s') => h2 e s'
    | r => r
    end.

(** [v[:30]], evaluated for a log line: a str and a list can be sliced,
    [None], a number and a bool cannot; what slicing a dict raises depends
    on the version of Python. *)
Definition slice_30 {St} (v : json) : M St unit :=
  match v with
  | JStr _ | JList _ => ret tt
  | JObj _ => stop Unsupported
  | JNull | JBool _ | JInt _ | JFloat _ => raise TypeError
  end.

Definition newline : string := String (ascii_of_nat 10) "".

Module SignupBot.

(** The attributes of a [SignupBot] that its entry and its message
    handler use. *)
Record t : Type := mk {
  target_url : string;
  interactive : bool;
  phone : option PhoneNumber.t;
  sms : option SMSService.t;
  captcha : option CaptchaSolver.t
}.

Definition __init__ (target_url : string) (interactive : bool) : t :=
  mk target_url interactive None None None.

(** [self.sms = SMSService()] then [await self.sms.__aenter__()]: the
    broker is bound to [self.sms] before it is entered, and stays bound
    when entering raises. *)
Definition enter_sms : M (t * World) unit :=
  fun '(self, w) =>
    let '(r, (s, w')) :=
      SMSService.__aenter__ (SMSService.__init__ "sms-activate", w) in
    (r, (mk (target_url self) (interactive self) (phone self) (Some s)
           (captcha self), w')).

(** [self.captcha = CaptchaSolver()] then
    [await self.captcha.__aenter__()]. *)
Definition enter_captcha : M (t * World) unit :=
  fun '(self, w) =>
    let '(r, (c, w')) :=
      CaptchaSolver.__aenter__ (CaptchaSolver.__init__ "capsolver", w) in
    (r, (mk (target_url self) (interactive self) (phone self) (sms self)
           (Some c), w')).

Definition __aenter__ : M (t * World) unit :=
  except_ValueError enter_sms (ret tt) ;;;
  except_ValueError enter_captcha (ret tt).

(** The method [attr] of [self.sms], which may update the broker. *)
Definition with_sms {A} (attr : string) (m : M (SMSService.t * World) A)
    : M (t * World) A :=
  fun '(self, w) =>
    match sms self with
    | None => (Raise (no_attribute "NoneType" attr), (self, w))
    | Some s =>
        let '(r, (s', w')) := m (s, w) in
        (r, (mk (target_url self) (interactive self) (phone self) (Some s')
               (captcha self), w'))
    end.

(** [self.phone = p] *)
Definition set_phone (p : PhoneNumber.t) : M (t * World) unit :=
  self <- get_self ;;
  set_self (mk (target_url self) (interactive self) (Some p) (sms self)
              (captcha self)).

(** The type of CAPTCHA a message names. *)
Definition captcha_type (message_upper : string) : string :=
  if contains "HCAPTCHA" message_upper then "hcaptcha"
  else if (contains "RECAPTCHA" message_upper
           || contains "RECAPTCHA" message_upper)%bool then
    if contains "V3" message_upper then "recaptcha_v3" else "recaptcha_v2"
  else "recaptcha_v2".

(** The solve method for a type of CAPTCHA, with the defaults of the
    broker's methods. *)
Definition solve (fuel : nat) (solver : CaptchaSolver.t)
    (captcha_type site_key target_url : string) : M World CaptchaSolution :=
  if String.eqb captcha_type "hcaptcha" then
    CaptchaSolver.solve_hcaptcha fuel solver site_key target_url
  else if String.eqb captcha_type "recaptcha_v3" then
    CaptchaSolver.solve_recaptcha_v3 fuel solver site_key target_url
      "submit" (JFloat "0.7")
  else
    CaptchaSolver.solve_recaptcha_v2 fuel solver site_key target_url false.

Section Handler.

(** What the handler takes from outside the two brokers: [input(prompt)],
    the first group of the match of
    [re.search(r'site_key[:\s]*([a-zA-Z0-9_-]{40})', message,
    re.IGNORECASE)] if there is one, and [str(e)] of an exception. *)
Variable input : string -> M World string.
Variable search_site_key : string -> option string.
Variable str_exn : exn -> string.

(** [if self.interactive: return input(prompt) else: return reply] *)
Definition ask (prompt reply : string) : M (t * World) string :=
  self <- get_self ;;
  if interactive self then lift (input prompt) else ret reply.

(** The branch of [CAPTCHA_DETECTED]. *)
Definition on_captcha (fuel : nat) (message message_upper : string)
    : M (t * World) string :=
  self <- get_self ;;
  match captcha self with
  | None =>
      ask "CAPTCHA detected. Please solve it manually and press Enter: "
        "Please solve the CAPTCHA manually."
  | Some solver =>
      let captcha_type := captcha_type message_upper in
      let site_key :=
        match search_site_key message with
        | Some k => if String.eqb k "" then None else Some k
        | None => None
        end in
      site_key <- match site_key with
                  | Some k => ret (Some k)
                  | None =>
                      if interactive self then
                        k <- lift (input "Enter the CAPTCHA site key: ") ;;
                        ret (Some k)
                      else ret None
                  end ;;
      match site_key with
      | None => ret "Could not determine CAPTCHA site key."
      | Some site_key =>
          except_Exception
            (solution <- lift (solve fuel solver captcha_type site_key
                                 (target_url self)) ;;
             slice_30 (token solution) ;;;
             fmt "CAPTCHA_TOKEN: " (token solution))
            (fun e =>
               ret ("CAPTCHA solving failed: " ++ str_exn e
                    ++ ". Please solve manually."))
      end
  end.

(** The branch of [PHONE_REQUIRED]. *)
Definition on_phone : M (t * World) string :=
  self <- get_self ;;
  match sms self with
  | None =>
      ask "Enter phone number (with country code): "
        "SMS service not configured."
  | Some _ =>
      except_Exception
        (p <- with_sms "get_number"
                (SMSService.get_number "google" "russia") ;;
         set_phone p ;;;
         fmt "PHONE_NUMBER: +" (PhoneNumber.number p))
        (fun e =>
           ask "Failed to get virtual number. Enter phone manually: "
             ("Failed to get phone number: " ++ str_exn e))
  end.

(** The branch of [SMS_CODE_REQUIRED]. *)
Definition on_sms_code (fuel : nat) : M (t * World) string :=
  self <- get_self ;;
  match sms self, phone self with
  | Some s, Some _ =>
      except_TimeoutError_Exception
        (code <- lift (SMSService.wait_for_code fuel s 120) ;;
         fmt "SMS_CODE: " code)
        (ask "SMS code not received. Enter manually: "
           "SMS code not received within timeout.")
        (fun e =>
           ask ("Error: " ++ str_exn e ++ ". Enter SMS code manually: ")
             ("Failed to get SMS code: " ++ str_exn e))
  | _, _ =>
      ask "Enter SMS verification code: " "SMS service not configured."
  end.

Definition handle_agent_message (fuel : nat) (message : string)
    : M (t * World) string :=
  let message_upper := upper message in
  if contains "CAPTCHA_DETECTED" message_upper then
    on_captcha fuel message message_upper
  else if contains "PHONE_REQUIRED" message_upper then
    on_phone
  else if contains "SMS_CODE_REQUIRED" message_upper then
    on_sms_code fuel
  else
    ask ("Agent says: " ++ message ++ newline ++ "Your response: ")
      "Unable to process request automatically.".

End Handler.

End SignupBot.

(* ================================================================== *)
(** ** Observations on a run *)
(* ================================================================== *)

(** The requests of a trace, newest first. *)
Fixpoint requests (tr : list Event) : list Request :=
  match tr with
  | [] => []
  | (_, Sent r) :: tr' => r :: requests tr'
  | (_, Slept _) :: tr' => requests tr'
  end.

(** The API key a client constructor finds in the environment: set and
    not empty. *)
Definition env_key (w : World) (var : string) : option string :=
  match environ w var with
  | Some s => if String.eqb s "" then None else Some s
  | None => None
  end.

(** Which environment variable the preferred and the alternate client of
    a [CaptchaSolver] read, and the alternate client once entered. *)
Definition captcha_preferred_var (self : CaptchaSolver.t) : string :=
  if String.eqb (CaptchaSolver.preferred_provider self) "capsolver"
  then "CAPSOLVER_API_KEY" else "TWO_CAPTCHA_API_KEY".

Definition captcha_alternate_var (self : CaptchaSolver.t) : string :=
  if String.eqb (CaptchaSolver.preferred_provider self) "capsolver"
  then "TWO_CAPTCHA_API_KEY" else "CAPSOLVER_API_KEY".

Definition captcha_alternate (self : CaptchaSolver.t) (key : string)
    : CaptchaProvider :=
  if String.eqb (CaptchaSolver.preferred_provider self) "capsolver"
  then TwoCaptcha (mkClient key (Some []))
  else CapSolver (mkClient key (Some [])).

(** The same for an [SMSService]. *)
Definition sms_preferred_var (self : SMSService.t) : string :=
  if String.eqb (SMSService.preferred_provider self) "sms-activate"
  then "SMS_ACTIVATE_API_KEY" else "FIVESIM_API_KEY".

Definition sms_alternate_var (self : SMSService.t) : string :=
  if String.eqb (SMSService.preferred_provider self) "sms-activate"
  then "FIVESIM_API_KEY" else "SMS_ACTIVATE_API_KEY".

Definition sms_alternate (self : SMSService.t) (key : string) : SMSProvider :=
  if String.eqb (SMSService.preferred_provider self) "sms-activate"
  then FiveSim (mkClient key (Some [("Authorization", "Bearer " ++ key)]))
  else SMSActivate (mkClient key (Some [])).

(* ================================================================== *)
(** ** Stub providers for the concrete runs *)
(* ================================================================== *)

Definition json_reply (lat : Z) (d : dict) : Reply :=
  mkReply lat (Some (mkResponse 200 "" (Some (JObj d)) Malformed)).

Definition text_reply (lat : Z) (s : string) : Reply :=
  mkReply lat (Some (mkResponse 200 s None WrongContentType)).

(** A world with the given environment and providers, nothing done yet. *)
Definition fresh_world (env : string -> option string)
    (rem : list Event -> Request -> Reply) : World :=
  mkWorld env rem [] 0.

Definition no_env : string -> option string := fun _ => None.

Definition only_env (var val : string) : string -> option string :=
  fun v => if String.eqb v var then Some val else None.

(** A remote side that is never reached. *)
Definition silent : list Event -> Request -> Reply :=
  fun _ _ => mkReply 0 None.

(** The remote side answers every request with the text [s], whatever
    happened before. *)
Definition answers_text (w : World) (s : string) : Prop :=
  forall tr r, exists resp,
    response (remote w tr r) = Some resp /\ rs_text resp = s.

Definition text_stub (s : string) : list Event -> Request -> Reply :=
  fun _ _ => text_reply 0 s.

(** The two requests of [CapSolverClient._create_and_wait]. *)
Definition CapSolver_create_request (self : Client)
    (h : list (string * string)) (task : dict) : Request :=
  mkRequest POST (CapSolverClient.BASE_URL ++ "/createTask") h []
    (Some (JObj [("clientKey", JStr (api_key self)); ("task", JObj task)])).

Definition CapSolver_poll_request (self : Client)
    (h : list (string * string)) (task_id : json) : Request :=
  mkRequest POST (CapSolverClient.BASE_URL ++ "/getTaskResult") h []
    (Some (JObj [("clientKey", JStr (api_key self)); ("taskId", task_id)])).

(** The two requests of [TwoCaptchaClient._create_and_wait]. *)
Definition TwoCaptcha_create_request (h : list (string * string))
    (params : dict) : Request :=
  mkRequest GET (TwoCaptchaClient.BASE_URL ++ "/in.php") h params None.

Definition TwoCaptcha_poll_request (self : Client)
    (h : list (string * string)) (task_id : json) : Request :=
  mkRequest GET (TwoCaptchaClient.BASE_URL ++ "/res.php") h
    [("key", JStr (api_key self)); ("action", JStr "get");
     ("id", task_id); ("json", JInt 1)] None.

(** Time spent sleeping, and time spent waiting for the remote side
    [rem], over a trace. *)
Fixpoint slept (tr : list Event) : Z :=
  match tr with
  | [] => 0
  | (_, Slept d) :: tr' => Z.max 0 d + slept tr'
  | (_, Sent _) :: tr' => slept tr'
  end.

Fixpoint net (rem : list Event -> Request -> Reply) (tr : list Event) : Z :=
  match tr with
  | [] => 0
  | (_, Sent r) :: tr' => latency (rem tr' r) + net rem tr'
  | (_, Slept _) :: tr' => net rem tr'
  end.

(** [w'] is reached from [w]: same environment and remote side, the
    trace has grown by actions that all satisfy [P], and the clock has
    advanced by exactly the sleeps and round trips added. *)
Record steps (P : action -> Prop) (w w' : World) : Prop := mkSteps {
  steps_remote : remote w' = remote w;
  steps_environ : environ w' = environ w;
  steps_trace : exists delta,
      trace w' = (delta ++ trace w)%list /\ Forall (fun e => P (snd e)) delta;
  steps_clock :
    clock w' - clock w =
    (slept (trace w') - slept (trace w))
    + (net (remote w) (trace w') - net (remote w) (trace w))
}.

(** An outcome other than [TimeoutError] and running out of fuel: what
    everything but the polling loops themselves produces. *)
Definition plain {A} (r : outcome A) : Prop :=
  match r with
  | Raise (TimeoutError _) => False
  | Stuck OutOfFuel => False
  | _ => True
  end.

(** Every run of [m] only adds actions satisfying [P] and ends in a
    [plain] outcome. *)
Definition behaves {A} (P : action -> Prop) (m : M World A) : Prop :=
  forall w r w', m w = (r, w') -> steps P w w' /\ plain r.

(** An action that is a request satisfying [Q], and not a sleep. *)
Definition sends (Q : Request -> Prop) (a : action) : Prop :=
  match a with
  | Sent r => Q r
  | Slept _ => False
  end.

(** The requests of the SMS-Activate client: every one goes through
    [_request]. *)
Definition SMSActivate_request (self : Client) (h : list (string * string))
    (action : string) (params : dict) : Request :=
  mkRequest GET SMSActivateClient.BASE_URL h
    (dict_set (dict_set params "api_key" (JStr (api_key self)))
       "action" (JStr action)) None.

Definition SMSActivate_check_request (self : Client)
    (h : list (string * string)) (activation_id : string) : Request :=
  SMSActivate_request self h "getStatus" [("id", JStr activation_id)].

Definition SMSActivate_status_request (self : Client)
    (h : list (string * string)) (activation_id : string) (code : Z)
    : Request :=
  SMSActivate_request self h "setStatus"
    [("id", JStr activation_id); ("status", JInt code)].

(** The requests of the 5sim client about one activation. *)
Definition FiveSim_request (h : list (string * string)) (what : string)
    (activation_id : string) : Request :=
  mkRequest GET (FiveSimClient.BASE_URL ++ "/user/" ++ what ++ "/"
                 ++ activation_id) h [] None.

(** Telling the provider how an activation ended: SMS-Activate's
    [setStatus], 5sim's [finish] and [cancel]. *)
Definition is_notification (r : Request) : bool :=
  py_eq_str (dict_get (rq_params r) "action") "setStatus"
  || String.prefix (FiveSimClient.BASE_URL ++ "/user/finish/") (rq_url r)
  || String.prefix (FiveSimClient.BASE_URL ++ "/user/cancel/") (rq_url r).

Definition notifications (tr : list Event) : list Request :=
  filter is_notification (requests tr).

(** The shape the two [wait_for_code] loops share: poll; on a code tell
    the provider and return it; otherwise sleep and count; past the
    timeout cancel and raise.  Both loops are instances of it
    ([SMSActivate_wait_loop_shape], [FiveSim_wait_loop_shape]), which is
    how they are reasoned about. *)
Fixpoint wait_until {C} (poll : M World (option C))
    (done cancel : M World unit) (msg : string) (timeout poll_interval : Z)
    (fuel : nat) (elapsed : Z) : M World C :=
  if elapsed <? timeout then
    match fuel with
    | O => stop OutOfFuel
    | S fuel' =>
        c <- poll ;;
        match c with
        | Some c => done ;;; ret c
        | None =>
            sleep poll_interval ;;;
            wait_until poll done cancel msg timeout poll_interval fuel'
              (elapsed + poll_interval)
        end
    end
  else
    cancel ;;; raise (TimeoutError msg).

(** [m] ends in a [plain] outcome, and either sends exactly one request,
    which satisfies [Q], or fails before sending anything. *)
Definition notifies (Q : Request -> Prop) (m : M World unit) : Prop :=
  forall w r w', m w = (r, w') ->
    plain r
    /\ ((r <> Ok tt /\ w' = w)
        \/ exists q, Q q
             /\ w' = record (Sent q) (latency (remote w (trace w) q)) w).

(** An event of a waiting loop that is not a notification: a sleep, or a
    request satisfying [Q]. *)
Definition waiting (Q : Request -> Prop) (e : Event) : Prop :=
  match snd e with
  | Slept _ => True
  | Sent r => Q r
  end.

(** What a run of a waiting loop looks like from its outcome: a code
    returned means the newest event is the "done" request ([Qd]) and
    everything before it in the run was waiting; likewise for
    [TimeoutError] and the "cancel" request ([Qc]). *)
Definition wait_shape {C} (Qp Qd Qc : Request -> Prop) (r : outcome C)
    (delta : list Event) : Prop :=
  match r with
  | Ok _ =>
      exists t q older,
        delta = (t, Sent q) :: older /\ Qd q /\ Forall (waiting Qp) older
  | Raise (TimeoutError _) =>
      exists t q older,
        delta = (t, Sent q) :: older /\ Qc q /\ Forall (waiting Qp) older
  | _ => True
  end.

(** Everything a waiting loop does: it sleeps [poll_interval] and sends
    polls ([Qp]), "done" ([Qd]) and "cancel" ([Qc]) requests. *)
Definition wait_action (poll_interval : Z) (Qp Qd Qc : Request -> Prop)
    (a : action) : Prop :=
  match a with
  | Slept d => d = poll_interval
  | Sent q => Qp q \/ Qd q \/ Qc q
  end.

(** The sleeping time of a run that ended in [TimeoutError], against the
    [elapsed] counter it started from: the counter has reached
    [timeout], and overshoots it by less than one interval. *)
Definition timed_out_after (timeout interval elapsed slept_time : Z)
    : Prop :=
  timeout <= elapsed + slept_time
  /\ (elapsed < timeout -> elapsed + slept_time < timeout + interval)
  /\ (timeout <= elapsed -> slept_time = 0).

(** In the run [delta], the provider was notified exactly once, by [q],
    and that was the last thing the run did. *)
Definition notified_once (delta : list Event) (q : Request) : Prop :=
  (exists t older, delta = (t, Sent q) :: older)
  /\ notifications delta = [q].

(** The request a client sends through its open session. *)
Definition through (self : Client) (mk : list (string * string) -> Request)
    (q : Request) : Prop :=
  exists h, _session self = Some h /\ q = mk h.

(** SMS-Activate stub: the code arrives with the third status check. *)
Definition code_on_third_check : list Event -> Request -> Reply :=
  fun tr _ =>
    if (2 <=? length (requests tr))%nat
    then text_reply 1 "STATUS_OK:4821"
    else text_reply 1 "STATUS_WAIT_CODE".

(** SMS-Activate stub: a number for every request. *)
Definition always_a_number : list Event -> Request -> Reply :=
  fun _ _ => text_reply 1 "ACCESS_NUMBER:502:79991234567".

(** The request [q] is about the activation [aid]: it carries it as its
    [id] parameter (SMS-Activate) or at the end of its path (5sim). *)
Definition concerns (aid : string) (q : Request) : Prop :=
  dict_lookup (rq_params q) "id" = Some (JStr aid)
  \/ exists what,
       rq_url q = FiveSimClient.BASE_URL ++ "/user/" ++ what ++ "/" ++ aid.

(** The shape the two [_create_and_wait] loops share: sleep one interval,
    count it, poll; a poll either yields the solution, fails, or says to
    go on; past the timeout raise.  Both loops are instances of it
    ([CapSolver_poll_loop_shape], [TwoCaptcha_poll_loop_shape]). *)
Fixpoint poll_every {A} (poll_interval : Z) (poll : M World (option A))
    (msg : string) (timeout : Z) (fuel : nat) (elapsed : Z) : M World A :=
  if elapsed <? timeout then
    match fuel with
    | O => stop OutOfFuel
    | S fuel' =>
        sleep poll_interval ;;;
        c <- poll ;;
        match c with
        | Some a => ret a
        | None =>
            poll_every poll_interval poll msg timeout fuel'
              (elapsed + poll_interval)
        end
    end
  else
    raise (TimeoutError msg).

(** One round of [CapSolverClient._create_and_wait]'s loop after the
    sleep: [None] when the task is not ready yet. *)
Definition CapSolver_poll (self : Client) (task_id : json)
    : M World (option CaptchaSolution) :=
  resp <- send (_session self) POST
            (CapSolverClient.BASE_URL ++ "/getTaskResult") []
            (Some (JObj [("clientKey", JStr (api_key self));
                         ("taskId", task_id)])) ;;
  data <- resp_json resp ;;
  errorId <- py_get data "errorId" ;;
  if negb (py_eq_int errorId 0) then
    d <- py_get data "errorDescription" ;;
    msg <- fmt "Task failed: " d ;;
    raise (PyException msg)
  else
    status <- py_get data "status" ;;
    if py_eq_str status "ready" then
      solution <- py_get_default data "solution" (JObj []) ;;
      token <- or_else (py_get solution "gRecaptchaResponse")
                 (or_else (py_get solution "token")
                          (py_get solution "text")) ;;
      cost <- py_get_default data "cost" (JInt 0) ;;
      ret (Some (mkCaptchaSolution token task_id "capsolver" cost))
    else
      ret None.

(** One round of [TwoCaptchaClient._create_and_wait]'s loop after the
    sleep. *)
Definition TwoCaptcha_poll (self : Client) (task_id : json)
    : M World (option CaptchaSolution) :=
  resp <- send (_session self) GET (TwoCaptchaClient.BASE_URL ++ "/res.php")
            [("key", JStr (api_key self));
             ("action", JStr "get");
             ("id", task_id);
             ("json", JInt 1)] None ;;
  data <- resp_json resp ;;
  status <- py_get data "status" ;;
  if py_eq_int status 1 then
    token <- py_get data "request" ;;
    ret (Some (mkCaptchaSolution token task_id "2captcha" default_cost))
  else
    request <- py_get data "request" ;;
    if negb (py_eq_str request "CAPCHA_NOT_READY") then
      r <- py_get data "request" ;;
      msg <- fmt "Task failed: " r ;;
      raise (PyException msg)
    else
      ret None.

(** Everything a polling loop does: it sleeps [poll_interval] and sends
    polls ([Qp]). *)
Definition poll_action (poll_interval : Z) (Qp : Request -> Prop)
    (a : action) : Prop :=
  match a with
  | Slept d => d = poll_interval
  | Sent q => Qp q
  end.

(** Provider stubs, as properties of the remote side [rem].

    CapSolver: [createTask] is accepted without an inline solution;
    [getTaskResult] reports a task still in progress; [getTaskResult]
    reports the task ready with the given token and cost. *)
Definition CapSolver_accepts (rem : list Event -> Request -> Reply) : Prop :=
  forall tr q,
    rq_url q = CapSolverClient.BASE_URL ++ "/createTask" ->
    exists resp d,
      response (rem tr q) = Some resp
      /\ rs_json resp = Some (JObj d)
      /\ py_eq_int (dict_get d "errorId") 0 = true
      /\ truthy (dict_get d "solution") = false.

Definition CapSolver_never_ready (rem : list Event -> Request -> Reply)
    : Prop :=
  forall tr q,
    rq_url q = CapSolverClient.BASE_URL ++ "/getTaskResult" ->
    exists resp d,
      response (rem tr q) = Some resp
      /\ rs_json resp = Some (JObj d)
      /\ py_eq_int (dict_get d "errorId") 0 = true
      /\ py_eq_str (dict_get d "status") "ready" = false.

Definition CapSolver_ready (rem : list Event -> Request -> Reply)
    (tok cost : json) : Prop :=
  forall tr q,
    rq_url q = CapSolverClient.BASE_URL ++ "/getTaskResult" ->
    exists resp d sol,
      response (rem tr q) = Some resp
      /\ rs_json resp = Some (JObj d)
      /\ py_eq_int (dict_get d "errorId") 0 = true
      /\ dict_get d "status" = JStr "ready"
      /\ dict_lookup d "solution" = Some (JObj sol)
      /\ dict_get sol "gRecaptchaResponse" = tok
      /\ truthy tok = true
      /\ dict_lookup d "cost" = Some cost.

(** 2Captcha: [in.php] accepts the task and names it by something that
    can be sent back as the [id] parameter; [res.php] answers
    [CAPCHA_NOT_READY]; [res.php] answers status 1 with the token, and
    possibly more. *)
Definition TwoCaptcha_accepts (rem : list Event -> Request -> Reply) : Prop :=
  forall tr q,
    rq_url q = TwoCaptchaClient.BASE_URL ++ "/in.php" ->
    exists resp d,
      response (rem tr q) = Some resp
      /\ rs_json resp = Some (JObj d)
      /\ py_eq_int (dict_get d "status") 1 = true
      /\ valid_param (dict_get d "request") = true.

Definition TwoCaptcha_never_ready (rem : list Event -> Request -> Reply)
    : Prop :=
  forall tr q,
    rq_url q = TwoCaptchaClient.BASE_URL ++ "/res.php" ->
    exists resp d,
      response (rem tr q) = Some resp
      /\ rs_json resp = Some (JObj d)
      /\ py_eq_int (dict_get d "status") 1 = false
      /\ dict_get d "request" = JStr "CAPCHA_NOT_READY".

Definition TwoCaptcha_ready (rem : list Event -> Request -> Reply)
    (tok : json) : Prop :=
  forall tr q,
    rq_url q = TwoCaptchaClient.BASE_URL ++ "/res.php" ->
    exists resp d,
      response (rem tr q) = Some resp
      /\ rs_json resp = Some (JObj d)
      /\ py_eq_int (dict_get d "status") 1 = true
      /\ dict_get d "request" = tok.

(** Concrete stubs: a CapSolver and a 2Captcha that accept the task and
    then answer every poll with the reply [poll], each round trip taking
    [lat]. *)
Definition CapSolver_stub (lat : Z) (poll : dict)
    : list Event -> Request -> Reply :=
  fun _ q =>
    if String.eqb (rq_url q) (CapSolverClient.BASE_URL ++ "/createTask")
    then json_reply lat [("errorId", JInt 0); ("taskId", JStr "task-1")]
    else json_reply lat poll.

Definition TwoCaptcha_stub (lat : Z) (poll : dict)
    : list Event -> Request -> Reply :=
  fun _ q =>
    if String.eqb (rq_url q) (TwoCaptchaClient.BASE_URL ++ "/in.php")
    then json_reply lat [("status", JInt 1); ("request", JStr "7001")]
    else json_reply lat poll.

Definition CapSolver_processing : dict :=
  [("errorId", JInt 0); ("status", JStr "processing")].

Definition CapSolver_solved : dict :=
  [("errorId", JInt 0); ("status", JStr "ready");
   ("solution", JObj [("gRecaptchaResponse", JStr "tok-123")]);
   ("cost", JFloat "0.0021")].

Definition TwoCaptcha_not_ready : dict :=
  [("status", JInt 0); ("request", JStr "CAPCHA_NOT_READY")].

Definition TwoCaptcha_solved : dict :=
  [("status", JInt 1); ("request", JStr "tok-123");
   ("cost", JFloat "0.0021")].

(** The requests of a run that are neither [create] nor [poll]: where a
    call cancelling the task would show. *)
Definition other_requests (create poll : string) (tr : list Event)
    : list Request :=
  filter (fun q => negb (String.eqb (rq_url q) create
                         || String.eqb (rq_url q) poll))
    (requests tr).

Definition polls (poll : string) (tr : list Event) : list Request :=
  filter (fun q => String.eqb (rq_url q) poll) (requests tr).

(** [CapSolverClient._create_and_wait] up to the loop: the solution when
    the answer carries one, else the task id to poll for. *)
Definition CapSolver_create (self : Client) (task : dict)
    : M World (CaptchaSolution + json) :=
  resp <- send (_session self) POST
            (CapSolverClient.BASE_URL ++ "/createTask") []
            (Some (JObj [("clientKey", JStr (api_key self));
                         ("task", JObj task)])) ;;
  data <- resp_json resp ;;
  errorId <- py_get data "errorId" ;;
  if negb (py_eq_int errorId 0) then
    d <- py_get data "errorDescription" ;;
    msg <- fmt "Failed to create task: " d ;;
    raise (PyException msg)
  else
    task_id <- py_get data "taskId" ;;
    solution <- py_get data "solution" ;;
    if truthy solution then
      token <- or_else (s <- py_item data "solution" ;;
                        py_get s "gRecaptchaResponse")
                       (s <- py_item data "solution" ;;
                        py_get s "token") ;;
      ret (inl (mkCaptchaSolution token task_id "capsolver" default_cost))
    else
      ret (inr task_id).

(** The solve methods of [CaptchaSolver], as one call on a description of
    the challenge. *)
Inductive Challenge : Type :=
| RecaptchaV2 (site_key url : string) (invisible : bool)
| RecaptchaV3 (site_key url action : string) (min_score : json)
| HCaptcha (site_key url : string)
| Turnstile (site_key url : string).

Definition CaptchaSolver_solve (fuel : nat) (self : CaptchaSolver.t)
    (ch : Challenge) : M World CaptchaSolution :=
  match ch with
  | RecaptchaV2 site_key url invisible =>
      CaptchaSolver.solve_recaptcha_v2 fuel self site_key url invisible
  | RecaptchaV3 site_key url action min_score =>
      CaptchaSolver.solve_recaptcha_v3 fuel self site_key url action min_score
  | HCaptcha site_key url =>
      CaptchaSolver.solve_hcaptcha fuel self site_key url
  | Turnstile site_key url =>
      CaptchaSolver.solve_turnstile fuel self site_key url
  end.

(** The challenges a [TwoCaptchaClient] can be asked to solve: it has no
    Turnstile method, and the [min_score] of a reCAPTCHA v3 goes out as a
    query parameter. *)
Definition TwoCaptcha_solves (ch : Challenge) : bool :=
  match ch with
  | RecaptchaV2 _ _ _ => true
  | RecaptchaV3 _ _ _ min_score => valid_param min_score
  | HCaptcha _ _ => true
  | Turnstile _ _ => false
  end.

(* ------------------------------------------------------------------ *)
(** Further observations and stubs, for the properties beyond the
    claims. *)

(** The preferred client of each broker, once entered. *)
Definition captcha_preferred (self : CaptchaSolver.t) (key : string)
    : CaptchaProvider :=
  if String.eqb (CaptchaSolver.preferred_provider self) "capsolver"
  then CapSolver (mkClient key (Some []))
  else TwoCaptcha (mkClient key (Some [])).

Definition sms_preferred (self : SMSService.t) (key : string) : SMSProvider :=
  if String.eqb (SMSService.preferred_provider self) "sms-activate"
  then SMSActivate (mkClient key (Some []))
  else FiveSim (mkClient key (Some [("Authorization", "Bearer " ++ key)])).

Definition both_env (var1 val1 var2 val2 : string) : string -> option string :=
  fun v => if String.eqb v var1 then Some val1
           else if String.eqb v var2 then Some val2 else None.

(** The answer to one request: a JSON object [d], reached without a
    transport failure. *)
Definition replies_json (rem : list Event -> Request -> Reply)
    (tr : list Event) (q : Request) (d : dict) : Prop :=
  exists resp,
    response (rem tr q) = Some resp /\ rs_json resp = Some (JObj d).

(** CapSolver: every [getTaskResult] reports the error [desc];
    2Captcha: every [res.php] answers with the error code [code]. *)
Definition CapSolver_poll_fails (rem : list Event -> Request -> Reply)
    (desc : json) : Prop :=
  forall tr q,
    rq_url q = CapSolverClient.BASE_URL ++ "/getTaskResult" ->
    exists d,
      replies_json rem tr q d
      /\ py_eq_int (dict_get d "errorId") 0 = false
      /\ dict_get d "errorDescription" = desc.

Definition TwoCaptcha_poll_fails (rem : list Event -> Request -> Reply)
    (code : json) : Prop :=
  forall tr q,
    rq_url q = TwoCaptchaClient.BASE_URL ++ "/res.php" ->
    exists d,
      replies_json rem tr q d
      /\ py_eq_int (dict_get d "status") 1 = false
      /\ dict_get d "request" = code
      /\ py_eq_str code "CAPCHA_NOT_READY" = false.

(** CapSolver: every [getTaskResult] answers with the object [d], which
    says "ready". *)
Definition CapSolver_ready_with (rem : list Event -> Request -> Reply)
    (d : dict) : Prop :=
  py_eq_int (dict_get d "errorId") 0 = true
  /\ dict_get d "status" = JStr "ready"
  /\ forall tr q,
       rq_url q = CapSolverClient.BASE_URL ++ "/getTaskResult" ->
       replies_json rem tr q d.

(** The values of a type that [f"{v:.4f}"] accepts: numbers, bools
    included.  (An int must also convert to a float: [renders_4f].) *)
Definition formats_4f (v : json) : bool :=
  match v with
  | JInt _ | JFloat _ | JBool _ => true
  | _ => false
  end.

(** The token [CapSolverClient._create_and_wait] reads off a solution
    object at a poll: the first of its three fields that is truthy, the
    last one otherwise. *)
Definition CapSolver_token (sol : dict) : json :=
  py_or (dict_get sol "gRecaptchaResponse")
    (py_or (dict_get sol "token") (dict_get sol "text")).

(** A string without a colon. *)
Fixpoint no_colon (s : string) : bool :=
  match s with
  | EmptyString => true
  | String c s' => negb (Ascii.eqb c ":"%char) && no_colon s'
  end.

(** The remote side answers every request with the JSON object [d]. *)
Definition answers_json (w : World) (d : dict) : Prop :=
  forall tr q, replies_json (remote w) tr q d.

(** The request by which the 5sim client buys an activation. *)
Definition FiveSim_buy_request (h : list (string * string))
    (country operator service_code : string) : Request :=
  mkRequest GET
    (FiveSimClient.BASE_URL ++ "/user/buy/activation/" ++ country ++ "/"
     ++ operator ++ "/" ++ service_code) h [] None.

(** The country name and the service code the 5sim client is given by
    [SMSService.get_number]. *)
Definition FiveSim_country (country : string) : string :=
  snd (SMSService.country_map_get SMSService.country_map (lower country)
         (country, country)).

Definition FiveSim_service (service : string) : string :=
  table_get FiveSimClient.SERVICES (lower service) service.

(** A remote side that answers every request with the JSON object [d]
    after one second. *)
Definition json_stub (d : dict) : list Event -> Request -> Reply :=
  fun _ _ => mkReply 1 (Some (mkResponse 200 "" (Some (JObj d)) Malformed)).

(** The two brokers of a [SignupBot] after its entry, by the keys found in
    the environment: the preferred provider if its key is set, else the
    alternate one if its key is set, else a broker without a provider. *)
Definition entered_sms (w : World) : SMSService.t :=
  SMSService.mk "sms-activate"
    match env_key w "SMS_ACTIVATE_API_KEY", env_key w "FIVESIM_API_KEY" with
    | Some k, _ => Some (SMSActivate (mkClient k (Some [])))
    | None, Some k =>
        Some (FiveSim (mkClient k (Some [("Authorization", "Bearer " ++ k)])))
    | None, None => None
    end
    None.

Definition entered_captcha (w : World) : CaptchaSolver.t :=
  CaptchaSolver.mk "capsolver"
    match env_key w "CAPSOLVER_API_KEY", env_key w "TWO_CAPTCHA_API_KEY" with
    | Some k, _ => Some (CapSolver (mkClient k (Some [])))
    | None, Some k => Some (TwoCaptcha (mkClient k (Some [])))
    | None, None => None
    end.

(** A [SignupBot] after its entry. *)
Definition entered_bot (target_url : string) (interactive : bool) (w : World)
    : SignupBot.t :=
  SignupBot.mk target_url interactive None (Some (entered_sms w))
    (Some (entered_captcha w)).

(** The reply is one of the two that say a service is not configured. *)
Definition says_not_configured (r : outcome string) : Prop :=
  r = Ok "SMS service not configured."%string
  \/ r = Ok "Please solve the CAPTCHA manually."%string.

(** The task the bot has a [CapSolverClient] create for a type of
    CAPTCHA: never an enterprise one, a reCAPTCHA v2 never invisible, a
    reCAPTCHA v3 with the action ["submit"] and the score 0.7. *)
Definition SignupBot_task (captcha_type site_key url : string) : dict :=
  if String.eqb captcha_type "hcaptcha" then
    [("type", JStr "HCaptchaTurboTaskProxyLess");
     ("websiteURL", JStr url); ("websiteKey", JStr site_key)]
  else if String.eqb captcha_type "recaptcha_v3" then
    [("type", JStr "ReCaptchaV3TaskProxyLess");
     ("websiteURL", JStr url); ("websiteKey", JStr site_key);
     ("pageAction", JStr "submit"); ("minScore", JFloat "0.7")]
  else
    [("type", JStr "ReCaptchaV2TaskProxyLess");
     ("websiteURL", JStr url); ("websiteKey", JStr site_key)].

(** The method of the broker that the bot calls for a type of CAPTCHA. *)
Definition SignupBot_solve_method (captcha_type : string) : string :=
  if String.eqb captcha_type "hcaptcha" then "solve_hcaptcha"
  else if String.eqb captcha_type "recaptcha_v3" then "solve_recaptcha_v3"
  else "solve_recaptcha_v2".

(** The values [f"{v:.4f}"] renders: floats, bools, and the ints that
    convert to a float. *)
Definition renders_4f (v : json) : bool :=
  match v with
  | JInt n => fits_double n
  | JFloat _ | JBool _ => true
  | _ => false
  end.

(** The class of an exception, as an [except] clause sees it. *)
Definition exn_class (e : exn) : string :=
  match e with
  | ValueError _ => "ValueError"
  | PyException _ => "Exception"
  | TimeoutError _ => "TimeoutError"
  | NotImplementedError _ => "NotImplementedError"
  | KeyError _ => "KeyError"
  | IndexError => "IndexError"
  | AttributeError _ => "AttributeError"
  | TypeError => "TypeError"
  | OverflowError _ => "OverflowError"
  | ClientError => "ClientError"
  | ContentTypeError => "ContentTypeError"
  | JSONDecodeError => "JSONDecodeError"
  end.

(** The remote side answers every request with the HTTP status [status]
    and the text [s]. *)
Definition answers_status (w : World) (status : Z) (s : string) : Prop :=
  forall tr q, exists resp,
    response (remote w tr q) = Some resp
    /\ rs_status resp = status /\ rs_text resp = s.

Definition status_stub (status : Z) (s : string)
    : list Event -> Request -> Reply :=
  fun _ _ => mkReply 0 (Some (mkResponse status s None WrongContentType)).

(** No run of [m] ends outside of what the model says of Python. *)
Definition never_stuck {A} (m : M World A) : Prop :=
  forall w r w', m w = (r, w') -> forall x, r <> Stuck x.

(* ================================================================== *)
(** ** Provider selection on entry *)
(* ================================================================== *)

Lemma client_init_env (var : string) (w : World) :
  client_init var None w =
  match env_key w var with
  | Some s => (Ok (mkClient s None), w)
  | None => (Raise (ValueError (var ++ " not configured")), w)
  end.
Proof.
  unfold client_init, env_key, bind, getenv.
  destruct (environ w var) as [s|]; [|reflexivity].
  destruct (String.eqb s ""); reflexivity.
Qed.

(** Runs [__aenter__] once the preferred provider's name is decided. *)
Ltac enter_cases E Hp Ha :=
  repeat (cbn -[client_init String.eqb];
          rewrite ?E, ?client_init_env, ?Hp, ?Ha);
  reflexivity.

Lemma CaptchaSolver_aenter_alternate (self : CaptchaSolver.t) (w : World)
    (key : string) :
  env_key w (captcha_preferred_var self) = None ->
  env_key w (captcha_alternate_var self) = Some key ->
  CaptchaSolver.__aenter__ (self, w) =
  (Ok tt, (CaptchaSolver.mk (CaptchaSolver.preferred_provider self)
             (Some (captcha_alternate self key)), w)).
Proof.
  destruct self as [pref prov].
  unfold captcha_preferred_var, captcha_alternate_var, captcha_alternate,
    CaptchaSolver.__aenter__, CaptchaSolver.new_CapSolver,
    CaptchaSolver.new_TwoCaptcha, CapSolverClient.__init__,
    TwoCaptchaClient.__init__, except_ValueError, bind, get_self, lift.
  cbn -[client_init String.eqb].
  destruct (String.eqb pref "capsolver") eqn:E; intros Hp Ha;
    enter_cases E Hp Ha.
Qed.

Lemma CaptchaSolver_aenter_none (self : CaptchaSolver.t) (w : World) :
  env_key w (captcha_preferred_var self) = None ->
  env_key w (captcha_alternate_var self) = None ->
  CaptchaSolver.__aenter__ (self, w) =
  (Raise (ValueError CaptchaSolver.no_provider_msg), (self, w)).
Proof.
  destruct self as [pref prov].
  unfold captcha_preferred_var, captcha_alternate_var, captcha_alternate,
    CaptchaSolver.__aenter__, CaptchaSolver.new_CapSolver,
    CaptchaSolver.new_TwoCaptcha, CapSolverClient.__init__,
    TwoCaptchaClient.__init__, except_ValueError, bind, get_self, lift.
  cbn -[client_init String.eqb].
  destruct (String.eqb pref "capsolver") eqn:E; intros Hp Ha;
    enter_cases E Hp Ha.
Qed.

Lemma SMSService_aenter_alternate (self : SMSService.t) (w : World)
    (key : string) :
  env_key w (sms_preferred_var self) = None ->
  env_key w (sms_alternate_var self) = Some key ->
  SMSService.__aenter__ (self, w) =
  (Ok tt, (SMSService.mk (SMSService.preferred_provider self)
             (Some (sms_alternate self key))
             (SMSService._current_phone self), w)).
Proof.
  destruct self as [pref prov phone].
  unfold sms_preferred_var, sms_alternate_var, sms_alternate,
    SMSService.__aenter__, SMSService.new_SMSActivate,
    SMSService.new_FiveSim, SMSActivateClient.__init__,
    FiveSimClient.__init__, except_ValueError, bind, get_self, lift.
  cbn -[client_init String.eqb].
  destruct (String.eqb pref "sms-activate") eqn:E; intros Hp Ha;
    enter_cases E Hp Ha.
Qed.

Lemma SMSService_aenter_none (self : SMSService.t) (w : World) :
  env_key w (sms_preferred_var self) = None ->
  env_key w (sms_alternate_var self) = None ->
  SMSService.__aenter__ (self, w) =
  (Raise (ValueError SMSService.no_provider_msg), (self, w)).
Proof.
  destruct self as [pref prov phone].
  unfold sms_preferred_var, sms_alternate_var, sms_alternate,
    SMSService.__aenter__, SMSService.new_SMSActivate,
    SMSService.new_FiveSim, SMSActivateClient.__init__,
    FiveSimClient.__init__, except_ValueError, bind, get_self, lift.
  cbn -[client_init String.eqb].
  destruct (String.eqb pref "sms-activate") eqn:E; intros Hp Ha;
    enter_cases E Hp Ha.
Qed.

(** C2: when the preferred provider's API key is not configured, entering
    either broker ([CaptchaSolver], [SMSService]) selects the alternate
    provider; when neither key is configured it raises the
    no-provider-configured [ValueError] and leaves the broker as it was.
    In all four cases the world is unchanged: selection sends no request
    (and creates no task). *)
Theorem C2_selection_fails_over_without_network :
  (forall (self : CaptchaSolver.t) (w : World) (key : string),
      env_key w (captcha_preferred_var self) = None ->
      env_key w (captcha_alternate_var self) = Some key ->
      CaptchaSolver.__aenter__ (self, w) =
      (Ok tt, (CaptchaSolver.mk (CaptchaSolver.preferred_provider self)
                 (Some (captcha_alternate self key)), w)))
  /\ (forall (self : CaptchaSolver.t) (w : World),
      env_key w (captcha_preferred_var self) = None ->
      env_key w (captcha_alternate_var self) = None ->
      CaptchaSolver.__aenter__ (self, w) =
      (Raise (ValueError CaptchaSolver.no_provider_msg), (self, w)))
  /\ (forall (self : SMSService.t) (w : World) (key : string),
      env_key w (sms_preferred_var self) = None ->
      env_key w (sms_alternate_var self) = Some key ->
      SMSService.__aenter__ (self, w) =
      (Ok tt, (SMSService.mk (SMSService.preferred_provider self)
                 (Some (sms_alternate self key))
                 (SMSService._current_phone self), w)))
  /\ (forall (self : SMSService.t) (w : World),
      env_key w (sms_preferred_var self) = None ->
      env_key w (sms_alternate_var self) = None ->
      SMSService.__aenter__ (self, w) =
      (Raise (ValueError SMSService.no_provider_msg), (self, w))).
Proof.
  split; [|split; [|split]]; intros.
  - now apply CaptchaSolver_aenter_alternate.
  - now apply CaptchaSolver_aenter_none.
  - now apply SMSService_aenter_alternate.
  - now apply SMSService_aenter_none.
Qed.

Lemma C2_selection_witness :
  let w1 := fresh_world (only_env "TWO_CAPTCHA_API_KEY" "key-2c") silent in
  let w2 := fresh_world no_env silent in
  let w3 := fresh_world (only_env "FIVESIM_API_KEY" "key-5s") silent in
  CaptchaSolver.__aenter__ (CaptchaSolver.__init__ "capsolver", w1) =
    (Ok tt, (CaptchaSolver.mk "capsolver"
               (Some (TwoCaptcha (mkClient "key-2c" (Some [])))), w1))
  /\ CaptchaSolver.__aenter__ (CaptchaSolver.__init__ "capsolver", w2) =
    (Raise (ValueError CaptchaSolver.no_provider_msg),
     (CaptchaSolver.__init__ "capsolver", w2))
  /\ SMSService.__aenter__ (SMSService.__init__ "sms-activate", w3) =
    (Ok tt, (SMSService.mk "sms-activate"
               (Some (FiveSim (mkClient "key-5s"
                        (Some [("Authorization", "Bearer key-5s")]))))
               None, w3))
  /\ SMSService.__aenter__ (SMSService.__init__ "sms-activate", w2) =
    (Raise (ValueError SMSService.no_provider_msg),
     (SMSService.__init__ "sms-activate", w2)).
Proof.
  intros w1 w2 w3.
  destruct C2_selection_fails_over_without_network as (Ha & Hn & Sa & Sn).
  split; [|split; [|split]].
  - apply (Ha (CaptchaSolver.__init__ "capsolver") w1 "key-2c");
      reflexivity.
  - apply (Hn (CaptchaSolver.__init__ "capsolver") w2); reflexivity.
  - apply (Sa (SMSService.__init__ "sms-activate") w3 "key-5s");
      reflexivity.
  - apply (Sn (SMSService.__init__ "sms-activate") w2); reflexivity.
Defined.

(* ================================================================== *)
(** ** Guards of the brokers *)
(* ================================================================== *)

(** Entering an [SMSService] never touches [_current_phone]. *)
Lemma SMSService_aenter_keeps_phone (self self' : SMSService.t)
    (w w' : World) (r : outcome unit) :
  SMSService.__aenter__ (self, w) = (r, (self', w')) ->
  SMSService._current_phone self' = SMSService._current_phone self.
Proof.
  destruct self as [pref prov phone].
  unfold SMSService.__aenter__, SMSService.new_SMSActivate,
    SMSService.new_FiveSim, SMSActivateClient.__init__,
    FiveSimClient.__init__, except_ValueError, bind, get_self, lift.
  cbn -[client_init String.eqb].
  destruct (String.eqb pref "sms-activate") eqn:E;
    repeat (cbn -[client_init String.eqb];
            rewrite ?E, ?client_init_env;
            try match goal with
                | |- context [env_key ?w ?v] => destruct (env_key w v)
                end);
    intros H; inversion H; reflexivity.
Qed.

(** C6: [wait_for_code] on an [SMSService] that holds no phone (a fresh
    instance, entered or not, on which no [get_number] has succeeded)
    raises the no-active-lease [ValueError] and leaves the world as it
    was: no request is sent. *)
Theorem C6_wait_without_lease_is_rejected (fuel : nat) (self : SMSService.t)
    (timeout : Z) (w : World) :
  SMSService._current_phone self = None ->
  SMSService.wait_for_code fuel self timeout w =
  (Raise (ValueError "No phone number acquired. Call get_number() first."),
   w).
Proof.
  intros H. unfold SMSService.wait_for_code. rewrite H. reflexivity.
Qed.

Lemma C6_wait_without_lease_witness :
  let w := fresh_world (only_env "SMS_ACTIVATE_API_KEY" "key-sa") silent in
  SMSService.wait_for_code 10
    (SMSService.mk "sms-activate"
       (Some (SMSActivate (mkClient "key-sa" (Some [])))) None) 120 w =
  (Raise (ValueError "No phone number acquired. Call get_number() first."),
   w).
Proof.
  intros w. apply C6_wait_without_lease_is_rejected. reflexivity.
Defined.

(** C10: on a [CaptchaSolver] whose provider is not a [CapSolverClient]
    (a [TwoCaptchaClient], as after failover, or none), [solve_turnstile]
    raises [NotImplementedError] and leaves the world as it was: no
    request is sent. *)
Theorem C10_turnstile_requires_capsolver (fuel : nat)
    (self : CaptchaSolver.t) (site_key url : string) (w : World) :
  is_CapSolverClient (CaptchaSolver._provider self) = false ->
  CaptchaSolver.solve_turnstile fuel self site_key url w =
  (Raise (NotImplementedError "Turnstile solving requires CapSolver"), w).
Proof.
  intros H. unfold CaptchaSolver.solve_turnstile. rewrite H. reflexivity.
Qed.

Lemma C10_turnstile_witness :
  let w := fresh_world (only_env "TWO_CAPTCHA_API_KEY" "key-2c") silent in
  CaptchaSolver.solve_turnstile 40
    (CaptchaSolver.mk "capsolver"
       (Some (TwoCaptcha (mkClient "key-2c" (Some [])))))
    "0x4AAAA" "https://example.com/signup" w =
  (Raise (NotImplementedError "Turnstile solving requires CapSolver"), w).
Proof.
  intros w. apply C10_turnstile_requires_capsolver. reflexivity.
Defined.

(* ================================================================== *)
(** ** One request *)
(* ================================================================== *)

Lemma send_eq (h : list (string * string)) (v : verb) (url : string)
    (params : dict) (body : option json) (w : World) :
  forallb (fun kv => valid_param (snd kv)) params = true ->
  send (Some h) v url params body w =
  (match response (remote w (trace w) (mkRequest v url h params body)) with
   | Some resp => Ok resp
   | None => Raise ClientError
   end,
   record (Sent (mkRequest v url h params body))
     (latency (remote w (trace w) (mkRequest v url h params body))) w).
Proof.
  intros Hv. unfold send. rewrite Hv.
  destruct (response _); reflexivity.
Qed.

(** What [_request] of the SMS-Activate client does with an open
    session: one GET to [BASE_URL], the text of the answer returned. *)
Lemma SMSActivate_request_eq (self : Client) (h : list (string * string))
    (action : string) (params : dict) (w : World) :
  _session self = Some h ->
  let params' := dict_set (dict_set params "api_key" (JStr (api_key self)))
                   "action" (JStr action) in
  let r := mkRequest GET SMSActivateClient.BASE_URL h params' None in
  forallb (fun kv => valid_param (snd kv)) params' = true ->
  SMSActivateClient._request self action params w =
  (match response (remote w (trace w) r) with
   | Some resp => Ok (rs_text resp)
   | None => Raise ClientError
   end,
   record (Sent r) (latency (remote w (trace w) r)) w).
Proof.
  intros Hs params' r Hv.
  unfold SMSActivateClient._request, bind. fold params'.
  rewrite Hs, send_eq by exact Hv. fold r.
  destruct (response _); reflexivity.
Qed.

(* ================================================================== *)
(** ** Leasing a number *)
(* ================================================================== *)

(** [get_number] of the SMS-Activate client against a remote side that
    answers with the text [s]. *)
Lemma SMSActivate_get_number_text (self : Client)
    (h : list (string * string)) (service country s : string) (w : World) :
  _session self = Some h ->
  answers_text w s ->
  exists w',
    SMSActivateClient.get_number self service country w =
    ((if startswith s "ACCESS_NUMBER:" then
        match split_colon s with
        | _ :: activation_id :: number :: _ =>
            Ok (PhoneNumber.mk (JStr number) (JStr country) activation_id
                  "sms-activate" None)
        | _ => Raise IndexError
        end
      else if String.eqb s "NO_NUMBERS" then
        Raise (PyException "No numbers available for this service/country")
      else if String.eqb s "NO_BALANCE" then
        Raise (PyException "Insufficient balance")
      else Raise (PyException ("Failed to get number: " ++ s))), w')
    /\ length (requests (trace w')) = S (length (requests (trace w))).
Proof.
  intros Hs Ha.
  unfold SMSActivateClient.get_number, bind.
  rewrite (SMSActivate_request_eq self h) by (exact Hs || reflexivity).
  match goal with
  | |- context [remote w (trace w) ?r] =>
      destruct (Ha (trace w) r) as (resp & Hr & Ht); rewrite Hr, Ht
  end.
  eexists; split.
  - destruct (startswith s "ACCESS_NUMBER:").
    + destruct (split_colon s) as [|? [|? [|? ?]]]; reflexivity.
    + destruct (String.eqb s "NO_NUMBERS"); [reflexivity|].
      destruct (String.eqb s "NO_BALANCE"); reflexivity.
  - reflexivity.
Qed.

(** A [get_number] that does not return a phone leaves the broker as it
    was, whatever the provider. *)
Lemma SMSService_get_number_failure (self self' : SMSService.t)
    (service country : string) (w w' : World) (r : outcome PhoneNumber.t) :
  SMSService.get_number service country (self, w) = (r, (self', w')) ->
  (forall p, r <> Ok p) ->
  self' = self.
Proof.
  destruct self as [pref prov held].
  unfold SMSService.get_number, SMSService.set_current_phone, bind, get_self,
    set_self, lift, ret.
  cbn [SMSService._provider SMSService.preferred_provider].
  destruct prov as [[c|c]|]; cbn [is_SMSActivateClient raise].
  - destruct (SMSActivateClient.get_number _ _ _ w) as [[p|e|x] w1];
      intros H Hr; inversion H; subst; [now destruct (Hr p)| |];
      reflexivity.
  - destruct (FiveSimClient.get_number _ _ _ _ w) as [[p|e|x] w1];
      intros H Hr; inversion H; subst; [now destruct (Hr p)| |];
      reflexivity.
  - intros H _. now inversion H.
Qed.

(** C7, as the code has it.  A [get_number] that raises creates no lease,
    whatever the provider and the failure: the broker is left as it was,
    so that with no phone held before, a following [wait_for_code] still
    raises the no-active-lease [ValueError].  There are no kinds of
    error: to ["NO_NUMBERS"] and to ["NO_BALANCE"] an entered
    [SMSActivateClient] answers with a plain [Exception], as it does to
    any other text that is not a number, and the two differ by their
    message alone; a [FiveSimClient] has no such answers and raises the
    plain [Exception("Failed to get number: <body>")] for every status
    other than 200. *)
Theorem C7_no_numbers_creates_no_lease :
  (forall (self self' : SMSService.t) (service country : string)
          (w w' : World) (r : outcome PhoneNumber.t),
      SMSService.get_number service country (self, w) = (r, (self', w')) ->
      (forall p, r <> Ok p) ->
      self' = self
      /\ (SMSService._current_phone self = None ->
          forall fuel timeout,
            SMSService.wait_for_code fuel self' timeout w' =
            (Raise (ValueError
                      "No phone number acquired. Call get_number() first."),
             w')))
  /\ (forall (self : SMSService.t) (c : Client) (h : list (string * string))
             (service country : string) (w : World),
        SMSService._provider self = Some (SMSActivate c) ->
        _session c = Some h ->
        (answers_text w "NO_NUMBERS" ->
         exists w',
           SMSService.get_number service country (self, w) =
           (Raise (PyException
                     "No numbers available for this service/country"),
            (self, w')))
        /\ (answers_text w "NO_BALANCE" ->
            exists w',
              SMSService.get_number service country (self, w) =
              (Raise (PyException "Insufficient balance"), (self, w')))
        /\ (forall s,
              answers_text w s ->
              startswith s "ACCESS_NUMBER:" = false ->
              s <> "NO_NUMBERS"%string ->
              s <> "NO_BALANCE"%string ->
              exists w',
                SMSService.get_number service country (self, w) =
                (Raise (PyException ("Failed to get number: " ++ s)),
                 (self, w'))))
  /\ (forall (self : SMSService.t) (c : Client) (h : list (string * string))
             (service country s : string) (status : Z) (w : World),
        SMSService._provider self = Some (FiveSim c) ->
        _session c = Some h ->
        answers_status w status s ->
        status <> 200 ->
        exists w',
          SMSService.get_number service country (self, w) =
          (Raise (PyException ("Failed to get number: " ++ s)), (self, w'))).
Proof.
  split; [|split].
  - intros self self' service country w w' r H Hr.
    assert (E := SMSService_get_number_failure _ _ _ _ _ _ _ H Hr).
    split; [exact E|]. subst self'.
    intros Hn fuel timeout.
    unfold SMSService.wait_for_code. rewrite Hn. reflexivity.
  - intros self c h service country w Hp Hs.
    assert (Run : forall s,
               answers_text w s ->
               startswith s "ACCESS_NUMBER:" = false ->
               exists w',
                 SMSService.get_number service country (self, w) =
                 (Raise (PyException
                           (if String.eqb s "NO_NUMBERS"
                            then "No numbers available for this service/country"
                            else if String.eqb s "NO_BALANCE"
                                 then "Insufficient balance"
                                 else "Failed to get number: " ++ s)),
                  (self, w'))).
    { intros s Ha Hst.
      destruct (SMSActivate_get_number_text c h service
                  (fst (SMSService.country_map_get SMSService.country_map
                          (lower country) (country, country)))
                  s w Hs Ha) as (w' & Hg & _).
      exists w'.
      unfold SMSService.get_number, bind, get_self, lift.
      rewrite Hp. cbn [is_SMSActivateClient]. rewrite Hg, Hst.
      destruct (String.eqb s "NO_NUMBERS"); [reflexivity|].
      destruct (String.eqb s "NO_BALANCE"); reflexivity. }
    split; [|split].
    + intros Ha. exact (Run "NO_NUMBERS"%string Ha eq_refl).
    + intros Ha. exact (Run "NO_BALANCE"%string Ha eq_refl).
    + intros s Ha Hst Hn Hb.
      destruct (Run s Ha Hst) as (w' & H). exists w'.
      apply String.eqb_neq in Hn, Hb. now rewrite Hn, Hb in H.
  - intros self c h service country s status w Hp Hs Ha Hst.
    unfold SMSService.get_number, bind, get_self, lift.
    rewrite Hp. cbn [is_SMSActivateClient].
    unfold FiveSimClient.get_number, bind.
    rewrite Hs, send_eq by reflexivity.
    match goal with
    | |- context [remote w (trace w) ?q] =>
        destruct (Ha (trace w) q) as (resp & Hr & Hrs & Ht); rewrite Hr
    end.
    rewrite Hrs, Ht.
    destruct (status =? 200) eqn:E;
      [apply Z.eqb_eq in E; now destruct Hst|].
    eexists. reflexivity.
Qed.

Lemma C7_no_numbers_witness :
  let self := SMSService.mk "sms-activate"
                (Some (SMSActivate (mkClient "key-sa" (Some [])))) None in
  let w := fresh_world no_env (text_stub "NO_NUMBERS") in
  let fs := mkClient "key-5s" (Some [("Authorization", "Bearer key-5s")]) in
  let self5 := SMSService.mk "5sim" (Some (FiveSim fs)) None in
  let w5 := fresh_world no_env (status_stub 400 "no free phones") in
  (exists w',
      SMSService.get_number "google" "russia" (self, w) =
      (Raise (PyException "No numbers available for this service/country"),
       (self, w'))
      /\ SMSService.wait_for_code 30 self 120 w' =
         (Raise (ValueError
                   "No phone number acquired. Call get_number() first."), w'))
  /\ (exists w',
        SMSService.get_number "google" "russia" (self5, w5) =
        (Raise (PyException "Failed to get number: no free phones"),
         (self5, w'))).
Proof.
  intros self w fs self5 w5. split.
  - destruct (proj1 (proj1 (proj2 C7_no_numbers_creates_no_lease) self
                       (mkClient "key-sa" (Some [])) [] "google" "russia" w
                       eq_refl eq_refl)) as (w' & Hg).
    + intros tr r. eexists. split; reflexivity.
    + exists w'. split; [exact Hg|].
      apply (proj1 C7_no_numbers_creates_no_lease self self "google"
               "russia" w w' _ Hg); [discriminate | reflexivity].
  - apply (proj2 (proj2 C7_no_numbers_creates_no_lease) self5 fs
             [("Authorization", "Bearer key-5s")] "google" "russia"
             "no free phones" 400 w5).
    + reflexivity.
    + reflexivity.
    + intros tr q. eexists. split; [reflexivity|]. split; reflexivity.
    + discriminate.
Defined.

(** C7 as stated fails: the exceptions raised on ["NO_NUMBERS"] and on
    ["NO_BALANCE"] are of one class, the plain [Exception], which is also
    the class of the failure on any other text and of the failures of the
    5sim client; no [except] clause can tell them apart. *)
Lemma C7_errors_are_of_one_kind :
  ~ (forall (self self1 self2 : SMSService.t) (service country : string)
            (w1 w2 w1' w2' : World) (e1 e2 : exn),
        answers_text w1 "NO_NUMBERS" ->
        answers_text w2 "NO_BALANCE" ->
        SMSService.get_number service country (self, w1)
        = (Raise e1, (self1, w1')) ->
        SMSService.get_number service country (self, w2)
        = (Raise e2, (self2, w2')) ->
        exn_class e1 <> exn_class e2).
Proof.
  intros H.
  pose (self := SMSService.mk "sms-activate"
                  (Some (SMSActivate (mkClient "key-sa" (Some [])))) None).
  pose (w1 := fresh_world no_env (text_stub "NO_NUMBERS")).
  pose (w2 := fresh_world no_env (text_stub "NO_BALANCE")).
  apply (H self self self "google" "russia" w1 w2
           (snd (snd (SMSService.get_number "google" "russia" (self, w1))))
           (snd (snd (SMSService.get_number "google" "russia" (self, w2))))
           (PyException "No numbers available for this service/country")
           (PyException "Insufficient balance")).
  - intros tr r. eexists. split; reflexivity.
  - intros tr r. eexists. split; reflexivity.
  - reflexivity.
  - reflexivity.
  - reflexivity.
Qed.

(* ================================================================== *)
(** ** Creating a CAPTCHA task *)
(* ================================================================== *)

Lemma dict_get_lookup (d : dict) (k : string) (v : json) :
  dict_get d k = v -> v <> JNull -> dict_lookup d k = Some v.
Proof.
  unfold dict_get. destruct (dict_lookup d k); intros H Hv.
  - now subst.
  - now subst.
Qed.

(** C9: when the answer to [createTask] reports no error and carries a
    non-empty [solution] object, [CapSolverClient._create_and_wait]
    returns at once the solution built from it (token
    [gRecaptchaResponse] or else [token], the default cost), whatever the
    fuel and the timeout; the world has gained the [createTask] request
    and nothing else: no sleep and no poll. *)
Theorem C9_inline_solution_skips_polling (fuel : nat) (self : Client)
    (h : list (string * string)) (task : dict) (timeout : Z) (w : World)
    (resp : Response) (d sol : dict) :
  _session self = Some h ->
  response (remote w (trace w) (CapSolver_create_request self h task))
    = Some resp ->
  rs_json resp = Some (JObj d) ->
  py_eq_int (dict_get d "errorId") 0 = true ->
  dict_get d "solution" = JObj sol ->
  sol <> [] ->
  CapSolverClient._create_and_wait fuel self task timeout w =
  (Ok (mkCaptchaSolution
         (py_or (dict_get sol "gRecaptchaResponse") (dict_get sol "token"))
         (dict_get d "taskId") "capsolver" default_cost),
   record (Sent (CapSolver_create_request self h task))
     (latency (remote w (trace w) (CapSolver_create_request self h task)))
     w).
Proof.
  intros Hs Hr Hj He Hsol Hne.
  assert (Hl : dict_lookup d "solution" = Some (JObj sol))
    by (apply dict_get_lookup; [exact Hsol | discriminate]).
  unfold CapSolverClient._create_and_wait, bind.
  rewrite Hs, send_eq by reflexivity.
  fold (CapSolver_create_request self h task). rewrite Hr.
  unfold resp_json. rewrite Hj.
  cbn [ret py_get]. rewrite He. cbn [negb].
  rewrite Hsol.
  destruct sol as [|kv sol']; [congruence|].
  cbn [truthy]. unfold or_else, bind, py_item. rewrite Hl.
  cbn [ret py_get]. unfold py_or.
  destruct (truthy (dict_get (kv :: sol') "gRecaptchaResponse"));
    reflexivity.
Qed.

Lemma C9_inline_solution_witness :
  let self := mkClient "key-cs" (Some []) in
  let d := [("errorId", JInt 0); ("taskId", JStr "t-9");
            ("solution", JObj [("token", JStr "tok-inline")])] in
  let w := fresh_world no_env (fun _ _ => json_reply 2 d) in
  CapSolverClient._create_and_wait 0 self
    [("type", JStr "AntiTurnstileTaskProxyLess")] 120 w =
  (Ok (mkCaptchaSolution (JStr "tok-inline") (JStr "t-9") "capsolver"
         default_cost),
   record (Sent (CapSolver_create_request self []
                   [("type", JStr "AntiTurnstileTaskProxyLess")])) 2 w).
Proof.
  intros self d w.
  apply (C9_inline_solution_skips_polling 0 self []
           [("type", JStr "AntiTurnstileTaskProxyLess")] 120 w
           (mkResponse 200 "" (Some (JObj d)) Malformed) d
           [("token", JStr "tok-inline")]);
    try reflexivity.
  discriminate.
Defined.

(* ================================================================== *)
(** ** Reasoning about runs *)
(* ================================================================== *)

Lemma bind_inv {St A B} (m : M St A) (k : A -> M St B) (s s' : St)
    (r : outcome B) :
  bind m k s = (r, s') ->
  (exists a s1, m s = (Ok a, s1) /\ k a s1 = (r, s'))
  \/ (exists e, m s = (Raise e, s') /\ r = Raise e)
  \/ (exists x, m s = (Stuck x, s') /\ r = Stuck x).
Proof.
  unfold bind. destruct (m s) as [[a|e|x] s1]; intros H.
  - left. now exists a, s1.
  - right; left. inversion H; subst. now exists e.
  - right; right. inversion H; subst. now exists x.
Qed.

Lemma bind_ext {St A B} (m : M St A) (k1 k2 : A -> M St B) (s : St) :
  (forall a s1, k1 a s1 = k2 a s1) -> bind m k1 s = bind m k2 s.
Proof.
  intros H. unfold bind. destruct (m s) as [[a|e|x] s1]; [apply H|..];
    reflexivity.
Qed.

Lemma bind_map {St A B C} (m : M St A) (f : A -> B) (k : B -> M St C)
    (s : St) :
  bind (bind m (fun a => ret (f a))) k s = bind m (fun a => k (f a)) s.
Proof.
  unfold bind, ret. destruct (m s) as [[a|e|x] s1]; reflexivity.
Qed.

Lemma steps_refl (P : action -> Prop) (w : World) : steps P w w.
Proof.
  split; try reflexivity.
  - exists []. split; [reflexivity | constructor].
  - lia.
Qed.

Lemma steps_trans (P : action -> Prop) (w1 w2 w3 : World) :
  steps P w1 w2 -> steps P w2 w3 -> steps P w1 w3.
Proof.
  intros [R1 E1 (d1 & T1 & F1) C1] [R2 E2 (d2 & T2 & F2) C2].
  split.
  - congruence.
  - congruence.
  - exists (d2 ++ d1)%list. split.
    + rewrite T2, T1. now rewrite app_assoc.
    + apply Forall_app. now split.
  - rewrite R1 in C2. lia.
Qed.

Lemma steps_weaken (P Q : action -> Prop) (w w' : World) :
  (forall a, P a -> Q a) -> steps P w w' -> steps Q w w'.
Proof.
  intros HPQ [R E (d & T & F) C]. split; try assumption.
  exists d. split; [assumption|].
  eapply Forall_impl; [|exact F]. intros e. apply HPQ.
Qed.

Lemma steps_sleep (P : action -> Prop) (d : Z) (w : World) :
  P (Slept d) -> steps P w (record (Slept d) (Z.max 0 d) w).
Proof.
  intros HP. split; try reflexivity.
  - exists [(clock w, Slept d)]. split; [reflexivity|].
    constructor; [exact HP | constructor].
  - cbn. lia.
Qed.

Lemma steps_send (P : action -> Prop) (r : Request) (w : World) :
  P (Sent r) ->
  steps P w (record (Sent r) (latency (remote w (trace w) r)) w).
Proof.
  intros HP. split; try reflexivity.
  - exists [(clock w, Sent r)]. split; [reflexivity|].
    constructor; [exact HP | constructor].
  - cbn. lia.
Qed.

Lemma plain_raise {A B} (e : exn) :
  plain (@Raise A e) -> plain (@Raise B e).
Proof. now destruct e. Qed.

Lemma plain_stuck {A B} (x : stuck) :
  plain (@Stuck A x) -> plain (@Stuck B x).
Proof. now destruct x. Qed.

Lemma behaves_ret {A} (P : action -> Prop) (a : A) : behaves P (ret a).
Proof.
  intros w r w' H. inversion H; subst. split; [apply steps_refl | exact I].
Qed.

Lemma behaves_stop {A} (P : action -> Prop) (x : stuck) :
  plain (@Stuck A x) -> behaves P (@stop World A x).
Proof.
  intros Hx w r w' H. inversion H; subst.
  split; [apply steps_refl | exact Hx].
Qed.

Lemma behaves_raise {A} (P : action -> Prop) (e : exn) :
  plain (@Raise A e) -> behaves P (@raise World A e).
Proof.
  intros He w r w' H. inversion H; subst.
  split; [apply steps_refl | exact He].
Qed.

Lemma behaves_bind {A B} (P : action -> Prop) (m : M World A)
    (k : A -> M World B) :
  behaves P m -> (forall a, behaves P (k a)) -> behaves P (bind m k).
Proof.
  intros Hm Hk w r w' H.
  destruct (bind_inv _ _ _ _ _ H)
    as [(a & w1 & H1 & H2)|[(e & H1 & ->)|(x & H1 & ->)]].
  - destruct (Hm _ _ _ H1) as [S1 _]. destruct (Hk a _ _ _ H2) as [S2 O2].
    split; [eapply steps_trans; eassumption | exact O2].
  - destruct (Hm _ _ _ H1) as [S1 O1].
    split; [exact S1 | exact (plain_raise e O1)].
  - destruct (Hm _ _ _ H1) as [S1 O1].
    split; [exact S1 | exact (plain_stuck x O1)].
Qed.

Lemma behaves_weaken {A} (P Q : action -> Prop) (m : M World A) :
  (forall a, P a -> Q a) -> behaves P m -> behaves Q m.
Proof.
  intros HPQ Hm w r w' H. destruct (Hm _ _ _ H) as [S1 O1].
  split; [eapply steps_weaken; eassumption | exact O1].
Qed.

Lemma behaves_sleep (P : action -> Prop) (d : Z) :
  P (Slept d) -> behaves P (sleep d).
Proof.
  intros HP w r w' H. inversion H; subst.
  split; [now apply steps_sleep | exact I].
Qed.

Lemma behaves_getenv (P : action -> Prop) (var : string) :
  behaves P (getenv var).
Proof.
  intros w r w' H. inversion H; subst. split; [apply steps_refl | exact I].
Qed.

Lemma behaves_refuse_params {A} (P : action -> Prop) (params : dict) :
  behaves P (@refuse_params A params).
Proof.
  induction params as [|[k v] params IH]; cbn [refuse_params].
  - now apply behaves_raise.
  - destruct (valid_param v); [exact IH|].
    unfold refuse_param.
    destruct v; try (now apply behaves_raise); [|now apply behaves_stop].
    destruct (String.eqb repr "nan"); now apply behaves_raise.
Qed.

Lemma behaves_send (P : action -> Prop) (s : session) (v : verb)
    (url : string) (params : dict) (body : option json) :
  (forall h, s = Some h -> P (Sent (mkRequest v url h params body))) ->
  behaves P (send s v url params body).
Proof.
  intros HP. unfold send. destruct s as [h|].
  - destruct (forallb _ params).
    + intros w r w' H.
      destruct (response _) eqn:Hr in H; inversion H; subst;
        (split; [apply steps_send; now apply HP | exact I]).
    + apply behaves_refuse_params.
  - now apply behaves_raise.
Qed.

(** Decomposes a goal [behaves P m] along the code of [m]. *)
Ltac behaves_step :=
  match goal with
  | |- behaves _ (bind _ _) => apply behaves_bind; [|intros]
  | |- behaves _ (ret _) => apply behaves_ret
  | |- behaves _ (stop _) => apply behaves_stop; exact I
  | |- behaves _ (raise _) => apply behaves_raise; exact I
  | |- behaves _ (sleep _) => apply behaves_sleep
  | |- behaves _ (getenv _) => apply behaves_getenv
  | |- behaves _ (send _ _ _ _ _) => apply behaves_send
  | |- behaves _ (if ?b then _ else _) => destruct b
  | |- behaves _ (match ?x with _ => _ end) => destruct x
  end.

Lemma behaves_resp_json (P : action -> Prop) (r : Response) :
  behaves P (resp_json r).
Proof. unfold resp_json. repeat behaves_step. Qed.

Lemma behaves_py_get (P : action -> Prop) (v : json) (k : string) :
  behaves P (py_get v k).
Proof. unfold py_get. repeat behaves_step. Qed.

Lemma behaves_py_get_default (P : action -> Prop) (v : json) (k : string)
    (dflt : json) :
  behaves P (py_get_default v k dflt).
Proof. unfold py_get_default. repeat behaves_step. Qed.

Lemma behaves_py_item (P : action -> Prop) (v : json) (k : string) :
  behaves P (py_item v k).
Proof. unfold py_item. repeat behaves_step. Qed.

Lemma behaves_py_item0 (P : action -> Prop) (v : json) :
  behaves P (py_item0 v).
Proof. unfold py_item0. repeat behaves_step. Qed.

Lemma behaves_fmt (P : action -> Prop) (prefix : string) (v : json) :
  behaves P (fmt prefix v).
Proof. unfold fmt. repeat behaves_step. Qed.

Lemma behaves_or_else (P : action -> Prop) (a b : M World json) :
  behaves P a -> behaves P b -> behaves P (or_else a b).
Proof. intros Ha Hb. unfold or_else. repeat behaves_step; assumption. Qed.

(* ================================================================== *)
(** ** The waiting loop *)
(* ================================================================== *)

Lemma slept_app (d tr : list Event) :
  slept (d ++ tr) = slept d + slept tr.
Proof.
  induction d as [|[t [s|r]] d IH]; cbn; lia.
Qed.

Lemma slept_sends (Q : Request -> Prop) (d : list Event) :
  Forall (fun e => sends Q (snd e)) d -> slept d = 0.
Proof.
  induction 1 as [|[t [s|r]] d H _ IH]; cbn in *; [reflexivity | tauto | exact IH].
Qed.

Lemma steps_sends_slept (Q : Request -> Prop) (w w' : World) :
  steps (sends Q) w w' -> slept (trace w') = slept (trace w).
Proof.
  intros [_ _ (d & T & F) _]. rewrite T, slept_app, (slept_sends Q d F). lia.
Qed.

Lemma steps_sends_waiting (Q : Request -> Prop) (w w' : World) :
  steps (sends Q) w w' ->
  exists d, trace w' = (d ++ trace w)%list /\ Forall (waiting Q) d.
Proof.
  intros [_ _ (d & T & F) _]. exists d. split; [exact T|].
  eapply Forall_impl; [|exact F].
  intros [t [s|r]]; unfold waiting; cbn; tauto.
Qed.

Lemma notifies_steps (Q : Request -> Prop) (m : M World unit)
    (w w' : World) (r : outcome unit) :
  notifies Q m -> m w = (r, w') -> steps (sends Q) w w'.
Proof.
  intros Hn H. destruct (Hn _ _ _ H) as [_ [[_ ->]|(q & Hq & ->)]].
  - apply steps_refl.
  - now apply steps_send.
Qed.

Lemma wait_shape_older {C} (Qp Qd Qc : Request -> Prop) (r : outcome C)
    (delta d : list Event) :
  wait_shape Qp Qd Qc r delta -> Forall (waiting Qp) d ->
  wait_shape Qp Qd Qc r (delta ++ d).
Proof.
  intros H F. destruct r as [c|[]|x]; cbn in *; try exact I.
  - destruct H as (t & q & older & -> & Hq & Ho).
    exists t, q, (older ++ d)%list.
    split; [reflexivity|]. split; [exact Hq | now apply Forall_app].
  - destruct H as (t & q & older & -> & Hq & Ho).
    exists t, q, (older ++ d)%list.
    split; [reflexivity|]. split; [exact Hq | now apply Forall_app].
Qed.

Lemma wait_shape_plain {C} (Qp Qd Qc : Request -> Prop) (r : outcome C)
    (d : list Event) :
  plain r -> (forall c, r <> Ok c) -> wait_shape Qp Qd Qc r d.
Proof.
  intros Hp Hn. destruct r as [c|[]|x]; cbn in *; try exact I.
  - now destruct (Hn c).
  - destruct Hp.
Qed.

Section WaitUntil.

Context {C : Type}.
Variables (poll : M World (option C)) (done cancel : M World unit).
Variables (msg : string) (timeout poll_interval : Z).
Variables (Qp Qd Qc : Request -> Prop).
Hypothesis Hpoll : behaves (sends Qp) poll.
Hypothesis Hdone : notifies Qd done.
Hypothesis Hcancel : notifies Qc cancel.

Let loop := wait_until poll done cancel msg timeout poll_interval.

Lemma wait_until_past_timeout (fuel : nat) (e : Z) (w w' : World)
    (r : outcome C) :
  (e <? timeout) = false ->
  loop fuel e w = (r, w') ->
  (exists delta, trace w' = (delta ++ trace w)%list
                 /\ wait_shape Qp Qd Qc r delta)
  /\ steps (sends Qc) w w'
  /\ r <> Stuck OutOfFuel
  /\ (forall c, r <> Ok c).
Proof.
  intros E H. unfold loop in H.
  assert (H' : bind cancel (fun _ => raise (TimeoutError msg)) w = (r, w'))
    by (destruct fuel; cbn [wait_until] in H; rewrite E in H; exact H).
  clear H.
  pose proof Hcancel as Hc.
  destruct (bind_inv _ _ _ _ _ H')
    as [(a & w1 & H1 & H2)|[(x & H1 & ->)|(x & H1 & ->)]];
    pose proof (notifies_steps _ _ _ _ _ Hcancel H1) as St;
    destruct (Hc _ _ _ H1) as [Hpl Hw].
  - inversion H2; subst. destruct a.
    destruct Hw as [[Hne _]|(q & Hq & ->)]; [congruence|].
    split; [|split; [exact St | split; [discriminate | discriminate]]].
    exists [(clock w, Sent q)]. split; [reflexivity|].
    exists (clock w), q, []. split; [reflexivity|].
    split; [exact Hq | constructor].
  - split; [|split; [exact St | split; [discriminate | discriminate]]].
    destruct St as [_ _ (d & T & F) _].
    exists d. split; [exact T|]. destruct x; cbn in *; tauto.
  - split; [|split; [exact St | split; [|discriminate]]].
    + destruct St as [_ _ (d & T & F) _].
      exists d. split; [exact T | exact I].
    + intros Hx. inversion Hx; subst. exact Hpl.
Qed.

Lemma wait_until_run (fuel : nat) :
  forall (e : Z) (w w' : World) (r : outcome C),
    loop fuel e w = (r, w') ->
    (exists delta, trace w' = (delta ++ trace w)%list
                   /\ wait_shape Qp Qd Qc r delta)
    /\ steps (wait_action poll_interval Qp Qd Qc) w w'
    /\ (0 < poll_interval ->
        (forall m, r = Raise (TimeoutError m) ->
           timed_out_after timeout poll_interval e
             (slept (trace w') - slept (trace w)))
        /\ ((Z.to_nat (timeout - e) <= fuel)%nat -> r <> Stuck OutOfFuel)).
Proof.
  assert (Wp : forall a, sends Qp a -> wait_action poll_interval Qp Qd Qc a)
    by (intros [d|q]; cbn; tauto).
  assert (Wd : forall a, sends Qd a -> wait_action poll_interval Qp Qd Qc a)
    by (intros [d|q]; cbn; tauto).
  assert (Wc : forall a, sends Qc a -> wait_action poll_interval Qp Qd Qc a)
    by (intros [d|q]; cbn; tauto).
  induction fuel as [|f IH]; intros e w w' r H.
  - (* no fuel *)
    destruct (e <? timeout) eqn:E.
    + unfold loop in H. cbn [wait_until] in H. rewrite E in H.
      inversion H; subst.
      split; [exists []; split; [reflexivity | exact I]|].
      split; [apply steps_refl|].
      intros Hpi. split; [discriminate|].
      apply Z.ltb_lt in E. lia.
    + destruct (wait_until_past_timeout _ _ _ _ _ E H)
        as (Hs & St & Hf & Hk).
      split; [exact Hs|]. split; [exact (steps_weaken _ _ _ _ Wc St)|].
      intros Hpi. split; [|intros _; exact Hf].
      intros m Hm. apply Z.ltb_ge in E.
      rewrite (steps_sends_slept _ _ _ St).
      unfold timed_out_after. lia.
  - destruct (e <? timeout) eqn:E.
    2:{ destruct (wait_until_past_timeout _ _ _ _ _ E H)
          as (Hs & St & Hf & Hk).
        split; [exact Hs|]. split; [exact (steps_weaken _ _ _ _ Wc St)|].
        intros Hpi. split; [|intros _; exact Hf].
        intros m Hm. apply Z.ltb_ge in E.
        rewrite (steps_sends_slept _ _ _ St).
        unfold timed_out_after. lia. }
    unfold loop in H. cbn [wait_until] in H. rewrite E in H.
    apply Z.ltb_lt in E.
    destruct (bind_inv _ _ _ _ _ H)
      as [(c & w1 & H1 & H2)|[(x & H1 & ->)|(x & H1 & ->)]];
      destruct (Hpoll _ _ _ H1) as [S1 Pl1]; clear H.
    + destruct (steps_sends_waiting _ _ _ S1) as (d1 & T1 & F1).
      destruct c as [c|].
      * (* a code: tell the provider and return *)
        destruct (bind_inv _ _ _ _ _ H2)
          as [(a & w2 & H3 & H4)|[(x & H3 & ->)|(x & H3 & ->)]];
          pose proof (notifies_steps _ _ _ _ _ Hdone H3) as S2;
          destruct (Hdone _ _ _ H3) as [Pl2 Hw]; clear H2.
        -- inversion H4; subst. destruct a.
           destruct Hw as [[Hne _]|(q & Hq & ->)]; [congruence|].
           split.
           { exists ((clock w1, Sent q) :: d1). split.
             - cbn. now rewrite T1.
             - exists (clock w1), q, d1. now repeat split. }
           split.
           { apply (steps_trans _ w w1);
               [exact (steps_weaken _ _ _ _ Wp S1)
               |exact (steps_weaken _ _ _ _ Wd S2)]. }
           intros Hpi. split; [discriminate | discriminate].
        -- split.
           { destruct S2 as [_ _ (d2 & T2 & F2) _].
             exists (d2 ++ d1)%list. split.
             - now rewrite T2, T1, app_assoc.
             - apply wait_shape_plain; [exact (plain_raise x Pl2)|].
               discriminate. }
           split.
           { apply (steps_trans _ w w1);
               [exact (steps_weaken _ _ _ _ Wp S1)
               |exact (steps_weaken _ _ _ _ Wd S2)]. }
           intros Hpi. split; [|discriminate].
           intros m Hm. inversion Hm; subst. destruct Pl2.
        -- split.
           { destruct S2 as [_ _ (d2 & T2 & F2) _].
             exists (d2 ++ d1)%list. split.
             - now rewrite T2, T1, app_assoc.
             - exact I. }
           split.
           { apply (steps_trans _ w w1);
               [exact (steps_weaken _ _ _ _ Wp S1)
               |exact (steps_weaken _ _ _ _ Wd S2)]. }
           intros Hpi. split; [discriminate|].
           intros _ Hx. inversion Hx; subst. destruct Pl2.
      * (* no code yet: sleep and go on *)
        unfold bind, sleep in H2. fold loop in H2.
        destruct (IH _ _ _ _ H2) as ((d' & T' & Sh') & S' & Hrest).
        split.
        { exists (d' ++ (clock w1, Slept poll_interval) :: d1)%list. split.
          - rewrite T'. cbn. rewrite T1. now rewrite <- app_assoc.
          - apply wait_shape_older; [exact Sh'|].
            constructor; [exact I | exact F1]. }
        split.
        { apply (steps_trans _ w w1);
            [exact (steps_weaken _ _ _ _ Wp S1)|].
          eapply steps_trans; [|exact S'].
          apply steps_sleep. reflexivity. }
        intros Hpi. destruct (Hrest Hpi) as [Ht Hf]. split.
        -- intros m Hm. specialize (Ht m Hm).
           pose proof (steps_sends_slept _ _ _ S1) as Sl.
           cbn [record trace slept] in Ht.
           unfold timed_out_after in *. lia.
        -- intros Hfuel. apply Hf. lia.
    + split.
      { destruct S1 as [_ _ (d1 & T1 & F1) _].
        exists d1. split; [exact T1|].
        apply wait_shape_plain; [exact (plain_raise x Pl1) | discriminate]. }
      split; [exact (steps_weaken _ _ _ _ Wp S1)|].
      intros Hpi. split; [|discriminate].
      intros m Hm. inversion Hm; subst. destruct Pl1.
    + split.
      { destruct S1 as [_ _ (d1 & T1 & F1) _].
        exists d1. split; [exact T1 | exact I]. }
      split; [exact (steps_weaken _ _ _ _ Wp S1)|].
      intros Hpi. split; [discriminate|].
      intros _ Hx. inversion Hx; subst. destruct Pl1.
Qed.

End WaitUntil.

(* ================================================================== *)
(** ** Waiting for a code: the two SMS clients *)
(* ================================================================== *)

Lemma notifications_waiting (Q : Request -> Prop) (d : list Event) :
  (forall q, Q q -> is_notification q = false) ->
  Forall (waiting Q) d -> notifications d = [].
Proof.
  intros HQ. unfold notifications.
  induction 1 as [|[t [s|q]] d H _ IH]; cbn in *.
  - reflexivity.
  - exact IH.
  - unfold waiting in H. cbn in H. now rewrite (HQ q H).
Qed.

Lemma SMSActivate_request_behaves (self : Client) (action : string)
    (params : dict) :
  behaves (sends (through self
                    (fun h => SMSActivate_request self h action params)))
    (SMSActivateClient._request self action params).
Proof.
  unfold SMSActivateClient._request. repeat behaves_step.
  intros h Hs. exists h. now split.
Qed.

Lemma SMSActivate_get_code_behaves (self : Client) (aid : string) :
  behaves (sends (through self
                    (fun h => SMSActivate_check_request self h aid)))
    (SMSActivateClient.get_code self aid).
Proof.
  unfold SMSActivateClient.get_code.
  apply behaves_bind; [apply SMSActivate_request_behaves|].
  intros result. repeat behaves_step.
Qed.

Lemma SMSActivate_set_status_notifies (self : Client) (aid status : string) :
  notifies (through self
              (fun h => SMSActivate_status_request self h aid
                          (SMSActivateClient.status_code
                             SMSActivateClient.status_codes status)))
    (SMSActivateClient.set_status self aid status).
Proof.
  intros w r w' H.
  unfold SMSActivateClient.set_status in H.
  set (code := SMSActivateClient.status_code
                 SMSActivateClient.status_codes status) in *.
  destruct (_session self) as [h|] eqn:Hs.
  - unfold bind in H.
    rewrite (SMSActivate_request_eq self h) in H by (exact Hs || reflexivity).
    fold (SMSActivate_request self h "setStatus"
            [("id", JStr aid); ("status", JInt code)]) in H.
    fold (SMSActivate_status_request self h aid code) in H.
    destruct (response _) in H; inversion H; subst; (split; [exact I|]);
      right; exists (SMSActivate_status_request self h aid code);
      (split; [exists h; split; [exact Hs | reflexivity] | reflexivity]).
  - unfold SMSActivateClient._request, bind, send in H. rewrite Hs in H.
    inversion H; subst. split; [exact I|]. left. split; [discriminate|].
    reflexivity.
Qed.

Lemma SMSActivate_wait_loop_shape (fuel : nat) (self : Client) (aid : string)
    (timeout poll_interval : Z) :
  forall (e : Z) (w : World),
    SMSActivateClient.wait_loop fuel self aid timeout poll_interval e w =
    wait_until
      (c <- SMSActivateClient.get_code self aid ;;
       ret (SMSActivateClient.code_received c))
      (SMSActivateClient.set_status self aid "done")
      (SMSActivateClient.set_status self aid "cancel")
      ("No code received within " ++ string_of_Z timeout ++ " seconds")
      timeout poll_interval fuel e w.
Proof.
  induction fuel as [|f IH]; intros e w; cbn [SMSActivateClient.wait_loop
    wait_until]; destruct (e <? timeout); try reflexivity.
  rewrite bind_map. apply bind_ext. intros c w1.
  destruct (SMSActivateClient.code_received c) as [code|]; [reflexivity|].
  apply bind_ext. intros _ w2. apply IH.
Qed.

Lemma FiveSim_get_code_behaves (self : Client) (aid : string) :
  behaves (sends (through self (fun h => FiveSim_request h "check" aid)))
    (FiveSimClient.get_code self aid).
Proof.
  unfold FiveSimClient.get_code.
  apply behaves_bind.
  { apply behaves_send. intros h Hs. exists h. now split. }
  intros resp.
  apply behaves_bind; [apply behaves_resp_json|]. intros data.
  apply behaves_bind; [apply behaves_py_get|]. intros sms.
  destruct (truthy sms); [|apply behaves_ret].
  apply behaves_bind; [apply behaves_py_item|]. intros l.
  apply behaves_bind; [apply behaves_py_item0|]. intros sms0.
  apply behaves_or_else; apply behaves_py_get.
Qed.

Lemma FiveSim_notifies (self : Client) (what aid : string) :
  notifies (through self (fun h => FiveSim_request h what aid))
    (send (_session self) GET
       (FiveSimClient.BASE_URL ++ "/user/" ++ what ++ "/" ++ aid) [] None
     ;;; ret tt).
Proof.
  intros w r w' H. unfold bind in H.
  destruct (_session self) as [h|] eqn:Hs.
  - rewrite send_eq in H by reflexivity.
    fold (FiveSim_request h what aid) in H.
    destruct (response _) in H; inversion H; subst; (split; [exact I|]);
      right; exists (FiveSim_request h what aid);
      (split; [exists h; split; [exact Hs | reflexivity] | reflexivity]).
  - inversion H; subst. split; [exact I|]. left. split; [discriminate|].
    reflexivity.
Qed.

Lemma FiveSim_wait_loop_shape (fuel : nat) (self : Client) (aid : string)
    (timeout poll_interval : Z) :
  forall (e : Z) (w : World),
    FiveSimClient.wait_loop fuel self aid timeout poll_interval e w =
    wait_until
      (c <- FiveSimClient.get_code self aid ;;
       ret (if truthy c then Some c else None))
      (FiveSimClient.finish self aid)
      (FiveSimClient.cancel self aid)
      ("No code received within " ++ string_of_Z timeout ++ " seconds")
      timeout poll_interval fuel e w.
Proof.
  induction fuel as [|f IH]; intros e w; cbn [FiveSimClient.wait_loop
    wait_until]; destruct (e <? timeout); try reflexivity.
  rewrite bind_map. apply bind_ext. intros c w1.
  destruct (truthy c); [reflexivity|].
  apply bind_ext. intros _ w2. apply IH.
Qed.

Lemma notified_once_intro (Q : Request -> Prop) (t : Z) (q : Request)
    (older : list Event) :
  is_notification q = true ->
  (forall q', Q q' -> is_notification q' = false) ->
  Forall (waiting Q) older ->
  notified_once ((t, Sent q) :: older) q.
Proof.
  intros Hq HQ F. split.
  - now exists t, older.
  - unfold notifications. cbn [requests filter]. rewrite Hq.
    f_equal. exact (notifications_waiting Q older HQ F).
Qed.

(** The notifications of [wait_for_code], SMS-Activate client. *)
Lemma SMSActivate_wait_for_code_notifies (fuel : nat) (self : Client)
    (aid : string) (timeout poll_interval : Z) (w w' : World)
    (r : outcome string) :
  SMSActivateClient.wait_for_code fuel self aid timeout poll_interval w
    = (r, w') ->
  exists delta,
    trace w' = (delta ++ trace w)%list
    /\ (forall code, r = Ok code ->
          exists h, _session self = Some h
            /\ notified_once delta
                 (SMSActivate_status_request self h aid 6))
    /\ (forall m, r = Raise (TimeoutError m) ->
          exists h, _session self = Some h
            /\ notified_once delta
                 (SMSActivate_status_request self h aid 8))
    /\ (0 < poll_interval -> (Z.to_nat timeout <= fuel)%nat ->
        r <> Stuck OutOfFuel).
Proof.
  unfold SMSActivateClient.wait_for_code.
  rewrite SMSActivate_wait_loop_shape. intros H.
  assert (Hp : behaves
                 (sends (through self
                           (fun h => SMSActivate_check_request self h aid)))
                 (c <- SMSActivateClient.get_code self aid ;;
                  ret (SMSActivateClient.code_received c))).
  { apply behaves_bind; [apply SMSActivate_get_code_behaves|].
    intros c. apply behaves_ret. }
  destruct (wait_until_run _ _ _ _ _ _ _ _ _ Hp
              (SMSActivate_set_status_notifies self aid "done")
              (SMSActivate_set_status_notifies self aid "cancel")
              _ _ _ _ _ H) as ((delta & T & Sh) & _ & Hrest).
  assert (HQ : forall q',
             through self (fun h => SMSActivate_check_request self h aid) q'
             -> is_notification q' = false)
    by (intros q' (h & _ & ->); reflexivity).
  exists delta. split; [exact T|]. split; [|split].
  - intros code ->. destruct Sh as (t & q & older & -> & (h & Hs & ->) & F).
    exists h. split; [exact Hs|].
    eapply notified_once_intro; [reflexivity | exact HQ | exact F].
  - intros m ->. destruct Sh as (t & q & older & -> & (h & Hs & ->) & F).
    exists h. split; [exact Hs|].
    eapply notified_once_intro; [reflexivity | exact HQ | exact F].
  - intros Hpi Hf. destruct (Hrest Hpi) as [_ Hx]. apply Hx.
    now rewrite Z.sub_0_r.
Qed.

Lemma FiveSim_finish_is_notification (h : list (string * string))
    (aid : string) :
  is_notification (FiveSim_request h "finish" aid) = true.
Proof. unfold is_notification. cbn. destruct aid; reflexivity. Qed.

Lemma FiveSim_cancel_is_notification (h : list (string * string))
    (aid : string) :
  is_notification (FiveSim_request h "cancel" aid) = true.
Proof. unfold is_notification. cbn. destruct aid; reflexivity. Qed.

(** The notifications of [wait_for_code], 5sim client. *)
Lemma FiveSim_wait_for_code_notifies (fuel : nat) (self : Client)
    (aid : string) (timeout poll_interval : Z) (w w' : World)
    (r : outcome json) :
  FiveSimClient.wait_for_code fuel self aid timeout poll_interval w
    = (r, w') ->
  exists delta,
    trace w' = (delta ++ trace w)%list
    /\ (forall code, r = Ok code ->
          exists h, _session self = Some h
            /\ notified_once delta (FiveSim_request h "finish" aid))
    /\ (forall m, r = Raise (TimeoutError m) ->
          exists h, _session self = Some h
            /\ notified_once delta (FiveSim_request h "cancel" aid))
    /\ (0 < poll_interval -> (Z.to_nat timeout <= fuel)%nat ->
        r <> Stuck OutOfFuel).
Proof.
  unfold FiveSimClient.wait_for_code.
  rewrite FiveSim_wait_loop_shape. intros H.
  assert (Hp : behaves
                 (sends (through self
                           (fun h => FiveSim_request h "check" aid)))
                 (c <- FiveSimClient.get_code self aid ;;
                  ret (if truthy c then Some c else None))).
  { apply behaves_bind; [apply FiveSim_get_code_behaves|].
    intros c. apply behaves_ret. }
  destruct (wait_until_run _ _ _ _ _ _ _ _ _ Hp
              (FiveSim_notifies self "finish" aid)
              (FiveSim_notifies self "cancel" aid)
              _ _ _ _ _ H) as ((delta & T & Sh) & _ & Hrest).
  assert (HQ : forall q',
             through self (fun h => FiveSim_request h "check" aid) q'
             -> is_notification q' = false)
    by (intros q' (h & _ & ->); reflexivity).
  exists delta. split; [exact T|]. split; [|split].
  - intros code ->. destruct Sh as (t & q & older & -> & (h & Hs & ->) & F).
    exists h. split; [exact Hs|].
    eapply notified_once_intro;
      [apply FiveSim_finish_is_notification | exact HQ | exact F].
  - intros m ->. destruct Sh as (t & q & older & -> & (h & Hs & ->) & F).
    exists h. split; [exact Hs|].
    eapply notified_once_intro;
      [apply FiveSim_cancel_is_notification | exact HQ | exact F].
  - intros Hpi Hf. destruct (Hrest Hpi) as [_ Hx]. apply Hx.
    now rewrite Z.sub_0_r.
Qed.

(* ================================================================== *)
(** ** The phone an [SMSService] holds *)
(* ================================================================== *)

Lemma requests_Forall (P : action -> Prop) (R : Request -> Prop)
    (d : list Event) :
  (forall q, P (Sent q) -> R q) ->
  Forall (fun e => P (snd e)) d -> Forall R (requests d).
Proof.
  intros HPR. induction 1 as [|[t [s|q]] d H _ IH]; cbn in *.
  - constructor.
  - exact IH.
  - constructor; [now apply HPR | exact IH].
Qed.

Lemma SMSActivate_wait_for_code_concerns (fuel : nat) (self : Client)
    (aid : string) (timeout poll_interval : Z) (w w' : World)
    (r : outcome string) :
  SMSActivateClient.wait_for_code fuel self aid timeout poll_interval w
    = (r, w') ->
  exists delta, trace w' = (delta ++ trace w)%list
                /\ Forall (concerns aid) (requests delta).
Proof.
  unfold SMSActivateClient.wait_for_code.
  rewrite SMSActivate_wait_loop_shape. intros H.
  assert (Hp : behaves
                 (sends (through self
                           (fun h => SMSActivate_check_request self h aid)))
                 (c <- SMSActivateClient.get_code self aid ;;
                  ret (SMSActivateClient.code_received c))).
  { apply behaves_bind; [apply SMSActivate_get_code_behaves|].
    intros c. apply behaves_ret. }
  destruct (wait_until_run _ _ _ _ _ _ _ _ _ Hp
              (SMSActivate_set_status_notifies self aid "done")
              (SMSActivate_set_status_notifies self aid "cancel")
              _ _ _ _ _ H) as (_ & [_ _ (delta & T & F) _] & _).
  exists delta. split; [exact T|].
  eapply requests_Forall; [|exact F].
  intros q [(h & _ & ->)|[(h & _ & ->)|(h & _ & ->)]]; left; reflexivity.
Qed.

Lemma FiveSim_wait_for_code_concerns (fuel : nat) (self : Client)
    (aid : string) (timeout poll_interval : Z) (w w' : World)
    (r : outcome json) :
  FiveSimClient.wait_for_code fuel self aid timeout poll_interval w
    = (r, w') ->
  exists delta, trace w' = (delta ++ trace w)%list
                /\ Forall (concerns aid) (requests delta).
Proof.
  unfold FiveSimClient.wait_for_code.
  rewrite FiveSim_wait_loop_shape. intros H.
  assert (Hp : behaves
                 (sends (through self
                           (fun h => FiveSim_request h "check" aid)))
                 (c <- FiveSimClient.get_code self aid ;;
                  ret (if truthy c then Some c else None))).
  { apply behaves_bind; [apply FiveSim_get_code_behaves|].
    intros c. apply behaves_ret. }
  destruct (wait_until_run _ _ _ _ _ _ _ _ _ Hp
              (FiveSim_notifies self "finish" aid)
              (FiveSim_notifies self "cancel" aid)
              _ _ _ _ _ H) as (_ & [_ _ (delta & T & F) _] & _).
  exists delta. split; [exact T|].
  eapply requests_Forall; [|exact F].
  intros q [(h & _ & ->)|[(h & _ & ->)|(h & _ & ->)]]; right;
    eexists; reflexivity.
Qed.

(** Whether a phone is held plays no part in [get_number]. *)
Lemma SMSService_get_number_ignores_phone (service country pref : string)
    (prov : option SMSProvider) (held : option PhoneNumber.t) (w : World) :
  SMSService.get_number service country (SMSService.mk pref prov held, w) =
  match SMSService.get_number service country
          (SMSService.mk pref prov None, w) with
  | (Ok p, (_, w')) => (Ok p, (SMSService.mk pref prov (Some p), w'))
  | (r, (_, w')) => (r, (SMSService.mk pref prov held, w'))
  end.
Proof.
  unfold SMSService.get_number, SMSService.set_current_phone, bind, get_self,
    set_self, lift, ret.
  cbn [SMSService._provider SMSService.preferred_provider].
  destruct prov as [[c|c]|]; cbn [is_SMSActivateClient raise].
  - destruct (SMSActivateClient.get_number _ _ _ w) as [[p|e|x] w1];
      reflexivity.
  - destruct (FiveSimClient.get_number _ _ _ _ w) as [[p|e|x] w1];
      reflexivity.
  - reflexivity.
Qed.




(* ================================================================== *)
(** ** The polling loop *)
(* ================================================================== *)

Lemma bind_assoc {St A B C} (m : M St A) (f : A -> M St B)
    (g : B -> M St C) (s : St) :
  bind (bind m f) g s = bind m (fun a => bind (f a) g) s.
Proof.
  unfold bind. destruct (m s) as [[a|e|x] s1]; reflexivity.
Qed.

Lemma bind_ret_l {St A B} (a : A) (k : A -> M St B) (s : St) :
  bind (ret a) k s = k a s.
Proof. reflexivity. Qed.

Lemma bind_raise {St A B} (e : exn) (k : A -> M St B) (s : St) :
  bind (raise e) k s = raise e s.
Proof. reflexivity. Qed.

Lemma CapSolver_poll_loop_shape (fuel : nat) (self : Client) (task_id : json)
    (timeout : Z) :
  forall (e : Z) (w : World),
    CapSolverClient.poll_loop fuel self task_id timeout e w =
    poll_every 3 (CapSolver_poll self task_id)
      ("CAPTCHA not solved within " ++ string_of_Z timeout ++ " seconds")
      timeout fuel e w.
Proof.
  induction fuel as [|f IH]; intros e w;
    cbn [CapSolverClient.poll_loop poll_every];
    destruct (e <? timeout); try reflexivity.
  apply bind_ext. intros _ w1. unfold CapSolver_poll.
  rewrite bind_assoc. apply bind_ext. intros resp w2.
  rewrite bind_assoc. apply bind_ext. intros data w3.
  rewrite bind_assoc. apply bind_ext. intros errorId w4.
  destruct (negb (py_eq_int errorId 0)).
  { rewrite bind_assoc. apply bind_ext. intros d w5.
    rewrite bind_assoc. apply bind_ext. intros msg w6. reflexivity. }
  rewrite bind_assoc. apply bind_ext. intros status w5.
  destruct (py_eq_str status "ready").
  { rewrite bind_assoc. apply bind_ext. intros solution w6.
    rewrite bind_assoc. apply bind_ext. intros token w7.
    rewrite bind_assoc. apply bind_ext. intros cost w8. reflexivity. }
  rewrite bind_ret_l. apply IH.
Qed.

Lemma TwoCaptcha_poll_loop_shape (fuel : nat) (self : Client)
    (task_id : json) (timeout : Z) :
  forall (e : Z) (w : World),
    TwoCaptchaClient.poll_loop fuel self task_id timeout e w =
    poll_every 5 (TwoCaptcha_poll self task_id)
      ("CAPTCHA not solved within " ++ string_of_Z timeout ++ " seconds")
      timeout fuel e w.
Proof.
  induction fuel as [|f IH]; intros e w;
    cbn [TwoCaptchaClient.poll_loop poll_every];
    destruct (e <? timeout); try reflexivity.
  apply bind_ext. intros _ w1. unfold TwoCaptcha_poll.
  rewrite bind_assoc. apply bind_ext. intros resp w2.
  rewrite bind_assoc. apply bind_ext. intros data w3.
  rewrite bind_assoc. apply bind_ext. intros status w4.
  destruct (py_eq_int status 1).
  { rewrite bind_assoc. apply bind_ext. intros token w5. reflexivity. }
  rewrite bind_assoc. apply bind_ext. intros request w5.
  destruct (negb (py_eq_str request "CAPCHA_NOT_READY")).
  { rewrite bind_assoc. apply bind_ext. intros r w6.
    rewrite bind_assoc. apply bind_ext. intros msg w7. reflexivity. }
  rewrite bind_ret_l. apply IH.
Qed.

Section PollEvery.

Context {A : Type}.
Variables (poll_interval : Z) (poll : M World (option A)).
Variables (msg : string) (timeout : Z).

Let loop := poll_every poll_interval poll msg timeout.

Section AnyProvider.

Variable Qp : Request -> Prop.
Hypothesis Hpoll : behaves (sends Qp) poll.

(** Whatever the provider answers: the loop only sleeps and polls, and
    when it ends in [TimeoutError] its sleeps add up to the timeout
    rounded up to a whole number of intervals. *)
Lemma poll_every_run (fuel : nat) :
  forall (e : Z) (w w' : World) (r : outcome A),
    loop fuel e w = (r, w') ->
    steps (poll_action poll_interval Qp) w w'
    /\ (0 < poll_interval ->
        (forall m, r = Raise (TimeoutError m) ->
           timed_out_after timeout poll_interval e
             (slept (trace w') - slept (trace w)))
        /\ ((Z.to_nat (timeout - e) <= fuel)%nat -> r <> Stuck OutOfFuel)).
Proof.
  assert (Wp : forall a, sends Qp a -> poll_action poll_interval Qp a)
    by (intros [d|q]; cbn; tauto).
  assert (Past : forall fuel e w w' r,
             (e <? timeout) = false -> loop fuel e w = (r, w') ->
             steps (poll_action poll_interval Qp) w w'
             /\ (0 < poll_interval ->
                 (forall m, r = Raise (TimeoutError m) ->
                    timed_out_after timeout poll_interval e
                      (slept (trace w') - slept (trace w)))
                 /\ ((Z.to_nat (timeout - e) <= fuel)%nat ->
                     r <> Stuck OutOfFuel))).
  { intros f e w w' r E H. unfold loop in H.
    assert (H' : raise (TimeoutError msg) w = (r, w'))
      by (destruct f; cbn [poll_every] in H; rewrite E in H; exact H).
    inversion H'; subst. apply Z.ltb_ge in E.
    split; [apply steps_refl|]. intros Hpi. split; [|discriminate].
    intros m _. unfold timed_out_after. lia. }
  induction fuel as [|f IH]; intros e w w' r H;
    destruct (e <? timeout) eqn:E; try (now apply (Past _ _ _ _ _ E H)).
  - unfold loop in H. cbn [poll_every] in H. rewrite E in H.
    inversion H; subst. apply Z.ltb_lt in E.
    split; [apply steps_refl|]. intros Hpi. split; [discriminate|]. lia.
  - unfold loop in H. cbn [poll_every] in H. rewrite E in H.
    apply Z.ltb_lt in E.
    unfold bind at 1 in H. unfold sleep at 1 in H.
    set (w0 := record (Slept poll_interval) (Z.max 0 poll_interval) w) in *.
    assert (S0 : steps (poll_action poll_interval Qp) w w0)
      by (apply steps_sleep; reflexivity).
    destruct (bind_inv _ _ _ _ _ H)
      as [(c & w1 & H1 & H2)|[(x & H1 & ->)|(x & H1 & ->)]];
      destruct (Hpoll _ _ _ H1) as [S1 Pl1]; clear H.
    + destruct c as [a|].
      * inversion H2; subst.
        split.
        { eapply steps_trans; [exact S0|].
          exact (steps_weaken _ _ _ _ Wp S1). }
        intros Hpi. split; discriminate.
      * fold loop in H2. destruct (IH _ _ _ _ H2) as (S2 & Hrest).
        split.
        { eapply steps_trans; [exact S0|].
          eapply steps_trans; [exact (steps_weaken _ _ _ _ Wp S1)|].
          exact S2. }
        intros Hpi. destruct (Hrest Hpi) as [Ht Hf]. split.
        -- intros m Hm. specialize (Ht m Hm).
           pose proof (steps_sends_slept _ _ _ S1) as Sl.
           subst w0. cbn [record trace slept] in Sl.
           unfold timed_out_after in *. lia.
        -- intros Hfuel. apply Hf. lia.
    + split.
      { eapply steps_trans; [exact S0|].
        exact (steps_weaken _ _ _ _ Wp S1). }
      intros Hpi. split; [|discriminate].
      intros m Hm. inversion Hm; subst. destruct Pl1.
    + split.
      { eapply steps_trans; [exact S0|].
        exact (steps_weaken _ _ _ _ Wp S1). }
      intros Hpi. split; [discriminate|].
      intros _ Hx. inversion Hx; subst. destruct Pl1.
Qed.

End AnyProvider.

Section NeverReady.

Variables (rem : list Event -> Request -> Reply) (q : Request).
Hypothesis Hnr : forall w,
    remote w = rem ->
    poll w = (Ok None, record (Sent q) (latency (remote w (trace w) q)) w).

(** Against a provider that is never ready the loop polls once per
    interval until the counter reaches the timeout and raises. *)
Lemma poll_every_never_ready (fuel : nat) :
  0 < poll_interval ->
  forall (e : Z) (w : World),
    remote w = rem ->
    (Z.to_nat (timeout - e) <= fuel)%nat ->
    exists w' n,
      loop fuel e w = (Raise (TimeoutError msg), w')
      /\ remote w' = rem
      /\ requests (trace w') = (repeat q n ++ requests (trace w))%list
      /\ timed_out_after timeout poll_interval e
           (poll_interval * Z.of_nat n).
Proof.
  intros Hpi.
  induction fuel as [|f IH]; intros e w Hr Hf;
    destruct (e <? timeout) eqn:E.
  - apply Z.ltb_lt in E. lia.
  - exists w, 0%nat. unfold loop. cbn [poll_every]. rewrite E.
    apply Z.ltb_ge in E.
    split; [reflexivity|]. split; [exact Hr|]. split; [reflexivity|].
    unfold timed_out_after. lia.
  - apply Z.ltb_lt in E.
    set (w0 := record (Slept poll_interval) (Z.max 0 poll_interval) w).
    set (w1 := record (Sent q) (latency (remote w0 (trace w0) q)) w0).
    destruct (IH (e + poll_interval) w1) as (w' & n & H & Hr' & Hq & Ht).
    { exact Hr. }
    { lia. }
    exists w', (S n). split; [|split; [exact Hr'|split]].
    + unfold loop. cbn [poll_every].
      assert (E' : (e <? timeout) = true) by now apply Z.ltb_lt.
      rewrite E'. unfold bind at 1. unfold sleep at 1. fold w0.
      unfold bind. rewrite (Hnr w0 Hr). fold w1. exact H.
    + rewrite Hq. cbn [w1 w0 record trace requests].
      change (q :: requests (trace w))
        with (([q] ++ requests (trace w))%list).
      rewrite app_assoc. f_equal.
      change [q] with (repeat q 1). rewrite <- repeat_app.
      f_equal. lia.
    + unfold timed_out_after in *. lia.
  - exists w, 0%nat. unfold loop. cbn [poll_every]. rewrite E.
    apply Z.ltb_ge in E.
    split; [reflexivity|]. split; [exact Hr|]. split; [reflexivity|].
    unfold timed_out_after. lia.
Qed.

End NeverReady.

End PollEvery.

(* ================================================================== *)
(** ** Solving a CAPTCHA: the two clients *)
(* ================================================================== *)

Lemma CapSolver_poll_behaves (self : Client) (task_id : json) :
  behaves (sends (through self
                    (fun h => CapSolver_poll_request self h task_id)))
    (CapSolver_poll self task_id).
Proof.
  unfold CapSolver_poll.
  apply behaves_bind.
  { apply behaves_send. intros h Hs. exists h. now split. }
  intros resp.
  apply behaves_bind; [apply behaves_resp_json|]. intros data.
  apply behaves_bind; [apply behaves_py_get|]. intros errorId.
  destruct (negb (py_eq_int errorId 0)).
  { apply behaves_bind; [apply behaves_py_get|]. intros d.
    apply behaves_bind; [apply behaves_fmt|]. intros msg.
    now apply behaves_raise. }
  apply behaves_bind; [apply behaves_py_get|]. intros status.
  destruct (py_eq_str status "ready"); [|apply behaves_ret].
  apply behaves_bind; [apply behaves_py_get_default|]. intros solution.
  apply behaves_bind.
  { apply behaves_or_else; [apply behaves_py_get|].
    apply behaves_or_else; apply behaves_py_get. }
  intros token.
  apply behaves_bind; [apply behaves_py_get_default|]. intros cost.
  apply behaves_ret.
Qed.

Lemma TwoCaptcha_poll_behaves (self : Client) (task_id : json) :
  behaves (sends (through self
                    (fun h => TwoCaptcha_poll_request self h task_id)))
    (TwoCaptcha_poll self task_id).
Proof.
  unfold TwoCaptcha_poll.
  apply behaves_bind.
  { apply behaves_send. intros h Hs. exists h. now split. }
  intros resp.
  apply behaves_bind; [apply behaves_resp_json|]. intros data.
  apply behaves_bind; [apply behaves_py_get|]. intros status.
  destruct (py_eq_int status 1).
  { apply behaves_bind; [apply behaves_py_get|]. intros token.
    apply behaves_ret. }
  apply behaves_bind; [apply behaves_py_get|]. intros request.
  destruct (negb (py_eq_str request "CAPCHA_NOT_READY")); [|apply behaves_ret].
  apply behaves_bind; [apply behaves_py_get|]. intros r.
  apply behaves_bind; [apply behaves_fmt|]. intros msg.
  now apply behaves_raise.
Qed.

(** One poll against a CapSolver that is not ready. *)
Lemma CapSolver_poll_not_ready (self : Client) (h : list (string * string))
    (task_id : json) (w : World) :
  _session self = Some h ->
  CapSolver_never_ready (remote w) ->
  CapSolver_poll self task_id w =
  (Ok None,
   record (Sent (CapSolver_poll_request self h task_id))
     (latency (remote w (trace w) (CapSolver_poll_request self h task_id)))
     w).
Proof.
  intros Hs Hn. unfold CapSolver_poll, bind.
  rewrite Hs, send_eq by reflexivity.
  fold (CapSolver_poll_request self h task_id).
  destruct (Hn (trace w) (CapSolver_poll_request self h task_id) eq_refl)
    as (resp & d & Hr & Hj & He & Hst).
  rewrite Hr. unfold resp_json. rewrite Hj.
  cbn [ret py_get]. rewrite He. cbn [negb]. rewrite Hst. reflexivity.
Qed.

(** One poll against a 2Captcha that is not ready. *)
Lemma TwoCaptcha_poll_not_ready (self : Client) (h : list (string * string))
    (task_id : json) (w : World) :
  _session self = Some h ->
  valid_param task_id = true ->
  TwoCaptcha_never_ready (remote w) ->
  TwoCaptcha_poll self task_id w =
  (Ok None,
   record (Sent (TwoCaptcha_poll_request self h task_id))
     (latency (remote w (trace w) (TwoCaptcha_poll_request self h task_id)))
     w).
Proof.
  intros Hs Hv Hn. unfold TwoCaptcha_poll, bind.
  rewrite Hs, send_eq by (cbn; now rewrite Hv).
  fold (TwoCaptcha_poll_request self h task_id).
  destruct (Hn (trace w) (TwoCaptcha_poll_request self h task_id) eq_refl)
    as (resp & d & Hr & Hj & He & Hst).
  rewrite Hr. unfold resp_json. rewrite Hj.
  cbn [ret py_get]. rewrite He, Hst. reflexivity.
Qed.

(** An accepted [createTask] leads into the polling loop. *)
Lemma CapSolver_create_accepted (fuel : nat) (self : Client)
    (h : list (string * string)) (task : dict) (timeout : Z) (w : World) :
  _session self = Some h ->
  CapSolver_accepts (remote w) ->
  exists task_id,
    CapSolverClient._create_and_wait fuel self task timeout w =
    CapSolverClient.poll_loop fuel self task_id timeout 0
      (record (Sent (CapSolver_create_request self h task))
         (latency (remote w (trace w) (CapSolver_create_request self h task)))
         w).
Proof.
  intros Hs Ha.
  destruct (Ha (trace w) (CapSolver_create_request self h task) eq_refl)
    as (resp & d & Hr & Hj & He & Hsol).
  exists (dict_get d "taskId").
  unfold CapSolverClient._create_and_wait, bind.
  rewrite Hs, send_eq by reflexivity.
  fold (CapSolver_create_request self h task). rewrite Hr.
  unfold resp_json. rewrite Hj.
  cbn [ret py_get]. rewrite He. cbn [negb]. rewrite Hsol. reflexivity.
Qed.

Lemma TwoCaptcha_create_accepted (fuel : nat) (self : Client)
    (h : list (string * string)) (params : dict) (timeout : Z) (w : World) :
  _session self = Some h ->
  forallb (fun kv => valid_param (snd kv)) params = true ->
  TwoCaptcha_accepts (remote w) ->
  exists task_id,
    valid_param task_id = true
    /\ TwoCaptchaClient._create_and_wait fuel self params timeout w =
       TwoCaptchaClient.poll_loop fuel self task_id timeout 0
         (record (Sent (TwoCaptcha_create_request h params))
            (latency (remote w (trace w)
                        (TwoCaptcha_create_request h params))) w).
Proof.
  intros Hs Hv Ha.
  destruct (Ha (trace w) (TwoCaptcha_create_request h params) eq_refl)
    as (resp & d & Hr & Hj & He & Hid).
  exists (dict_get d "request"). split; [exact Hid|].
  unfold TwoCaptchaClient._create_and_wait, bind.
  rewrite Hs, send_eq by exact Hv.
  fold (TwoCaptcha_create_request h params). rewrite Hr.
  unfold resp_json. rewrite Hj.
  cbn [ret py_get]. rewrite He. reflexivity.
Qed.

Lemma CapSolver_create_and_wait_shape (fuel : nat) (self : Client)
    (task : dict) (timeout : Z) (w : World) :
  CapSolverClient._create_and_wait fuel self task timeout w =
  (x <- CapSolver_create self task ;;
   match x with
   | inl solution => ret solution
   | inr task_id => CapSolverClient.poll_loop fuel self task_id timeout 0
   end) w.
Proof.
  unfold CapSolverClient._create_and_wait, CapSolver_create.
  rewrite bind_assoc. apply bind_ext. intros resp w1.
  rewrite bind_assoc. apply bind_ext. intros data w2.
  rewrite bind_assoc. apply bind_ext. intros errorId w3.
  destruct (negb (py_eq_int errorId 0)).
  { rewrite bind_assoc. apply bind_ext. intros d w4.
    rewrite bind_assoc. apply bind_ext. intros msg w5. reflexivity. }
  rewrite bind_assoc. apply bind_ext. intros task_id w4.
  rewrite bind_assoc. apply bind_ext. intros solution w5.
  destruct (truthy solution); [|reflexivity].
  rewrite bind_assoc. apply bind_ext. intros token w6. reflexivity.
Qed.

Lemma CapSolver_create_behaves (self : Client) (task : dict) :
  behaves (sends (through self
                    (fun h => CapSolver_create_request self h task)))
    (CapSolver_create self task).
Proof.
  unfold CapSolver_create.
  apply behaves_bind.
  { apply behaves_send. intros h Hs. exists h. now split. }
  intros resp.
  apply behaves_bind; [apply behaves_resp_json|]. intros data.
  apply behaves_bind; [apply behaves_py_get|]. intros errorId.
  destruct (negb (py_eq_int errorId 0)).
  { apply behaves_bind; [apply behaves_py_get|]. intros d.
    apply behaves_bind; [apply behaves_fmt|]. intros msg.
    now apply behaves_raise. }
  apply behaves_bind; [apply behaves_py_get|]. intros task_id.
  apply behaves_bind; [apply behaves_py_get|]. intros solution.
  destruct (truthy solution); [|apply behaves_ret].
  apply behaves_bind; [|intros token; apply behaves_ret].
  apply behaves_or_else;
    (apply behaves_bind; [apply behaves_py_item|]; intros s;
     apply behaves_py_get).
Qed.

Lemma steps_any (P : action -> Prop) (w w' : World) :
  steps P w w' -> steps (fun _ => True) w w'.
Proof. apply steps_weaken. tauto. Qed.

(** The sleeps of a CapSolver run that timed out, and its duration. *)
Lemma CapSolver_timeout_accounting (fuel : nat) (self : Client)
    (task : dict) (timeout : Z) (w w' : World) (m : string) :
  CapSolverClient._create_and_wait fuel self task timeout w
    = (Raise (TimeoutError m), w') ->
  timed_out_after timeout 3 0 (slept (trace w') - slept (trace w))
  /\ clock w' - clock w =
     (slept (trace w') - slept (trace w))
     + (net (remote w) (trace w') - net (remote w) (trace w)).
Proof.
  rewrite CapSolver_create_and_wait_shape. intros H.
  destruct (bind_inv _ _ _ _ _ H)
    as [(x & w1 & H1 & H2)|[(x & H1 & Hx)|(x & H1 & Hx)]];
    destruct (CapSolver_create_behaves self task _ _ _ H1) as [S1 Pl1].
  - destruct x as [sol|task_id]; [discriminate|].
    rewrite CapSolver_poll_loop_shape in H2.
    destruct (poll_every_run _ _ _ _ _
                (CapSolver_poll_behaves self task_id) _ _ _ _ _ H2)
      as (S2 & Hrest).
    destruct (Hrest ltac:(lia)) as [Ht _].
    specialize (Ht _ eq_refl).
    rewrite (steps_sends_slept _ _ _ S1) in Ht.
    split; [exact Ht|].
    exact (steps_clock _ _ _
             (steps_trans _ _ _ _ (steps_any _ _ _ S1) (steps_any _ _ _ S2))).
  - inversion Hx; subst. destruct Pl1.
  - discriminate.
Qed.

(** The same for a [wait_for_code] of the SMS-Activate client. *)
Lemma SMSActivate_timeout_accounting (fuel : nat) (self : Client)
    (aid : string) (timeout poll_interval : Z) (w w' : World) (m : string) :
  0 < poll_interval ->
  SMSActivateClient.wait_for_code fuel self aid timeout poll_interval w
    = (Raise (TimeoutError m), w') ->
  timed_out_after timeout poll_interval 0
    (slept (trace w') - slept (trace w))
  /\ clock w' - clock w =
     (slept (trace w') - slept (trace w))
     + (net (remote w) (trace w') - net (remote w) (trace w)).
Proof.
  unfold SMSActivateClient.wait_for_code.
  rewrite SMSActivate_wait_loop_shape. intros Hpi H.
  assert (Hp : behaves
                 (sends (through self
                           (fun h => SMSActivate_check_request self h aid)))
                 (c <- SMSActivateClient.get_code self aid ;;
                  ret (SMSActivateClient.code_received c))).
  { apply behaves_bind; [apply SMSActivate_get_code_behaves|].
    intros c. apply behaves_ret. }
  destruct (wait_until_run _ _ _ _ _ _ _ _ _ Hp
              (SMSActivate_set_status_notifies self aid "done")
              (SMSActivate_set_status_notifies self aid "cancel")
              _ _ _ _ _ H) as (_ & St & Hrest).
  destruct (Hrest Hpi) as [Ht _].
  split; [exact (Ht _ eq_refl) | exact (steps_clock _ _ _ St)].
Qed.

(** C3, as the code has it: the [elapsed] counter adds up the sleeps and
    nothing else.  When [CapSolverClient._create_and_wait] (interval 3) or
    [SMSActivateClient.wait_for_code] (any positive interval) raises
    [TimeoutError], the time slept has reached the timeout and exceeds it
    by less than one interval, and the time the call took is that plus
    the latencies of all its requests. *)
Theorem C3_timeout_counts_sleeps_only :
  (forall (fuel : nat) (self : Client) (task : dict) (timeout : Z)
          (w w' : World) (m : string),
      CapSolverClient._create_and_wait fuel self task timeout w
        = (Raise (TimeoutError m), w') ->
      timed_out_after timeout 3 0 (slept (trace w') - slept (trace w))
      /\ clock w' - clock w =
         (slept (trace w') - slept (trace w))
         + (net (remote w) (trace w') - net (remote w) (trace w)))
  /\ (forall (fuel : nat) (self : Client) (aid : string)
             (timeout poll_interval : Z) (w w' : World) (m : string),
      0 < poll_interval ->
      SMSActivateClient.wait_for_code fuel self aid timeout poll_interval w
        = (Raise (TimeoutError m), w') ->
      timed_out_after timeout poll_interval 0
        (slept (trace w') - slept (trace w))
      /\ clock w' - clock w =
         (slept (trace w') - slept (trace w))
         + (net (remote w) (trace w') - net (remote w) (trace w))).
Proof.
  split; intros.
  - eapply CapSolver_timeout_accounting; eassumption.
  - eapply SMSActivate_timeout_accounting; eassumption.
Qed.

Lemma C3_timeout_witness :
  let self := mkClient "key-cs" (Some []) in
  let w := fresh_world no_env (CapSolver_stub 100 CapSolver_processing) in
  let w' := snd (CapSolverClient._create_and_wait 10 self
                   [("type", JStr "ReCaptchaV2TaskProxyLess")] 10 w) in
  timed_out_after 10 3 0 (slept (trace w') - slept (trace w))
  /\ clock w' - clock w =
     (slept (trace w') - slept (trace w))
     + (net (remote w) (trace w') - net (remote w) (trace w)).
Proof.
  intros self w w'.
  apply (proj1 C3_timeout_counts_sleeps_only 10%nat self
           [("type", JStr "ReCaptchaV2TaskProxyLess")] 10 w w'
           "CAPTCHA not solved within 10 seconds").
  vm_compute. reflexivity.
Defined.

(** C3 as stated fails: against a CapSolver whose every answer takes 100
    time units, a solve with timeout 10 raises [TimeoutError] after 512
    units (12 slept, 500 waiting for answers), not within 10 + 3. *)
Lemma C3_slow_network_extends_timeout :
  let self := mkClient "key-cs" (Some []) in
  let w := fresh_world no_env (CapSolver_stub 100 CapSolver_processing) in
  let run := CapSolverClient._create_and_wait 10 self
               [("type", JStr "ReCaptchaV2TaskProxyLess")] 10 w in
  fst run = Raise (TimeoutError "CAPTCHA not solved within 10 seconds")
  /\ clock (snd run) - clock w = 512
  /\ slept (trace (snd run)) = 12
  /\ net (remote w) (trace (snd run)) = 500
  /\ ~ (clock (snd run) - clock w <= 10 + 3).
Proof.
  intros self w run.
  split; [vm_compute; reflexivity|].
  split; [vm_compute; reflexivity|].
  split; [vm_compute; reflexivity|].
  split; [vm_compute; reflexivity|].
  vm_compute. intros H. apply H. reflexivity.
Qed.

(* ================================================================== *)
(** ** A provider that is never ready *)
(* ================================================================== *)

Lemma CapSolver_never_ready_run (fuel : nat) (self : Client)
    (h : list (string * string)) (task : dict) (timeout : Z) (w : World) :
  _session self = Some h ->
  CapSolver_accepts (remote w) ->
  CapSolver_never_ready (remote w) ->
  (Z.to_nat timeout <= fuel)%nat ->
  exists w' task_id n,
    CapSolverClient._create_and_wait fuel self task timeout w =
    (Raise (TimeoutError ("CAPTCHA not solved within "
                          ++ string_of_Z timeout ++ " seconds")), w')
    /\ requests (trace w') =
       (repeat (CapSolver_poll_request self h task_id) n
        ++ CapSolver_create_request self h task :: requests (trace w))%list
    /\ timed_out_after timeout 3 0 (3 * Z.of_nat n).
Proof.
  intros Hs Ha Hn Hf.
  destruct (CapSolver_create_accepted fuel self h task timeout w Hs Ha)
    as (task_id & ->).
  set (w1 := record (Sent (CapSolver_create_request self h task)) _ w).
  destruct (poll_every_never_ready 3 (CapSolver_poll self task_id)
              ("CAPTCHA not solved within " ++ string_of_Z timeout
               ++ " seconds") timeout (remote w)
              (CapSolver_poll_request self h task_id))
    with (fuel := fuel) (e := 0) (w := w1)
    as (w' & n & H & _ & Hq & Ht).
  - intros w2 Hr. apply CapSolver_poll_not_ready; [exact Hs|].
    now rewrite Hr.
  - lia.
  - reflexivity.
  - now rewrite Z.sub_0_r.
  - exists w', task_id, n. rewrite CapSolver_poll_loop_shape.
    split; [exact H|]. split; [exact Hq | exact Ht].
Qed.

Lemma TwoCaptcha_never_ready_run (fuel : nat) (self : Client)
    (h : list (string * string)) (params : dict) (timeout : Z) (w : World) :
  _session self = Some h ->
  forallb (fun kv => valid_param (snd kv)) params = true ->
  TwoCaptcha_accepts (remote w) ->
  TwoCaptcha_never_ready (remote w) ->
  (Z.to_nat timeout <= fuel)%nat ->
  exists w' task_id n,
    TwoCaptchaClient._create_and_wait fuel self params timeout w =
    (Raise (TimeoutError ("CAPTCHA not solved within "
                          ++ string_of_Z timeout ++ " seconds")), w')
    /\ requests (trace w') =
       (repeat (TwoCaptcha_poll_request self h task_id) n
        ++ TwoCaptcha_create_request h params :: requests (trace w))%list
    /\ timed_out_after timeout 5 0 (5 * Z.of_nat n).
Proof.
  intros Hs Hv Ha Hn Hf.
  destruct (TwoCaptcha_create_accepted fuel self h params timeout w Hs Hv Ha)
    as (task_id & Hid & ->).
  set (w1 := record (Sent (TwoCaptcha_create_request h params)) _ w).
  destruct (poll_every_never_ready 5 (TwoCaptcha_poll self task_id)
              ("CAPTCHA not solved within " ++ string_of_Z timeout
               ++ " seconds") timeout (remote w)
              (TwoCaptcha_poll_request self h task_id))
    with (fuel := fuel) (e := 0) (w := w1)
    as (w' & n & H & _ & Hq & Ht).
  - intros w2 Hr. apply TwoCaptcha_poll_not_ready; [exact Hs|exact Hid|].
    now rewrite Hr.
  - lia.
  - reflexivity.
  - now rewrite Z.sub_0_r.
  - exists w', task_id, n. rewrite TwoCaptcha_poll_loop_shape.
    split; [exact H|]. split; [exact Hq | exact Ht].
Qed.

(** C1, as the code has it: against a provider that accepts the task and
    is never ready, with timeout 10, [CapSolverClient._create_and_wait]
    (interval 3) raises [TimeoutError] after exactly 4 polls and
    [TwoCaptchaClient._create_and_wait] (interval 5) after exactly 2; the
    requests of the run are the creation and these polls, nothing else. *)
Theorem C1_never_ready_polls_then_times_out :
  (forall (fuel : nat) (self : Client) (h : list (string * string))
          (task : dict) (w : World),
      _session self = Some h ->
      CapSolver_accepts (remote w) ->
      CapSolver_never_ready (remote w) ->
      (10 <= fuel)%nat ->
      exists w' task_id,
        CapSolverClient._create_and_wait fuel self task 10 w =
        (Raise (TimeoutError "CAPTCHA not solved within 10 seconds"), w')
        /\ requests (trace w') =
           (repeat (CapSolver_poll_request self h task_id) 4
            ++ CapSolver_create_request self h task
               :: requests (trace w))%list)
  /\ (forall (fuel : nat) (self : Client) (h : list (string * string))
             (params : dict) (w : World),
      _session self = Some h ->
      forallb (fun kv => valid_param (snd kv)) params = true ->
      TwoCaptcha_accepts (remote w) ->
      TwoCaptcha_never_ready (remote w) ->
      (10 <= fuel)%nat ->
      exists w' task_id,
        TwoCaptchaClient._create_and_wait fuel self params 10 w =
        (Raise (TimeoutError "CAPTCHA not solved within 10 seconds"), w')
        /\ requests (trace w') =
           (repeat (TwoCaptcha_poll_request self h task_id) 2
            ++ TwoCaptcha_create_request h params
               :: requests (trace w))%list).
Proof.
  split.
  - intros fuel self h task w Hs Ha Hn Hf.
    destruct (CapSolver_never_ready_run fuel self h task 10 w Hs Ha Hn)
      as (w' & task_id & n & H & Hq & Ht); [exact Hf|].
    exists w', task_id. split; [exact H|].
    assert (n = 4%nat) by (unfold timed_out_after in Ht; lia).
    now subst n.
  - intros fuel self h params w Hs Hv Ha Hn Hf.
    destruct (TwoCaptcha_never_ready_run fuel self h params 10 w Hs Hv Ha Hn)
      as (w' & task_id & n & H & Hq & Ht); [exact Hf|].
    exists w', task_id. split; [exact H|].
    assert (n = 2%nat) by (unfold timed_out_after in Ht; lia).
    now subst n.
Qed.

Lemma CapSolver_stub_accepts (lat : Z) (poll : dict) :
  CapSolver_accepts (CapSolver_stub lat poll).
Proof.
  intros tr q Hq. unfold CapSolver_stub. rewrite Hq, String.eqb_refl.
  eexists; eexists. split; [reflexivity|]. split; [reflexivity|].
  split; reflexivity.
Qed.

Lemma CapSolver_stub_never_ready (lat : Z) :
  CapSolver_never_ready (CapSolver_stub lat CapSolver_processing).
Proof.
  intros tr q Hq. unfold CapSolver_stub. rewrite Hq.
  eexists; eexists. split; [reflexivity|]. split; [reflexivity|].
  split; reflexivity.
Qed.

Lemma C1_never_ready_witness :
  let self := mkClient "key-cs" (Some []) in
  let task := [("type", JStr "ReCaptchaV2TaskProxyLess")] in
  let w := fresh_world no_env (CapSolver_stub 0 CapSolver_processing) in
  exists w' task_id,
    CapSolverClient._create_and_wait 10 self task 10 w =
    (Raise (TimeoutError "CAPTCHA not solved within 10 seconds"), w')
    /\ requests (trace w') =
       (repeat (CapSolver_poll_request self [] task_id) 4
        ++ [CapSolver_create_request self [] task])%list.
Proof.
  intros self task w.
  apply (proj1 C1_never_ready_polls_then_times_out 10%nat self [] task w).
  - reflexivity.
  - apply CapSolver_stub_accepts.
  - apply CapSolver_stub_never_ready.
  - apply le_n.
Defined.

(** C1 as stated fails: the run below times out after its 4 polls without
    any further request; nothing cancels the task. *)
Lemma C1_no_cancel_on_timeout :
  let self := mkClient "key-cs" (Some []) in
  let task := [("type", JStr "ReCaptchaV2TaskProxyLess")] in
  let w := fresh_world no_env (CapSolver_stub 0 CapSolver_processing) in
  let run := CapSolverClient._create_and_wait 10 self task 10 w in
  let create := CapSolverClient.BASE_URL ++ "/createTask" in
  let poll := CapSolverClient.BASE_URL ++ "/getTaskResult" in
  fst run = Raise (TimeoutError "CAPTCHA not solved within 10 seconds")
  /\ length (polls poll (trace (snd run))) = 4%nat
  /\ length (requests (trace (snd run))) = 5%nat
  /\ length (other_requests create poll (trace (snd run))) = 0%nat
  /\ length (other_requests create poll (trace (snd run))) <> 1%nat.
Proof.
  intros self task w run create poll.
  split; [vm_compute; reflexivity|].
  split; [vm_compute; reflexivity|].
  split; [vm_compute; reflexivity|].
  split; [vm_compute; reflexivity|].
  vm_compute. discriminate.
Qed.

(* ================================================================== *)
(** ** A provider that is ready at the first poll *)
(* ================================================================== *)

Lemma CapSolver_poll_ready (self : Client) (h : list (string * string))
    (task_id tok cost : json) (w : World) :
  _session self = Some h ->
  CapSolver_ready (remote w) tok cost ->
  CapSolver_poll self task_id w =
  (Ok (Some (mkCaptchaSolution tok task_id "capsolver" cost)),
   record (Sent (CapSolver_poll_request self h task_id))
     (latency (remote w (trace w) (CapSolver_poll_request self h task_id)))
     w).
Proof.
  intros Hs Hn. unfold CapSolver_poll, bind.
  rewrite Hs, send_eq by reflexivity.
  fold (CapSolver_poll_request self h task_id).
  destruct (Hn (trace w) (CapSolver_poll_request self h task_id) eq_refl)
    as (resp & d & sol & Hr & Hj & He & Hst & Hsol & Htok & Htr & Hcost).
  rewrite Hr. unfold resp_json. rewrite Hj.
  cbn [ret py_get]. rewrite He. cbn [negb]. rewrite Hst.
  cbn [py_eq_str String.eqb Ascii.eqb Bool.eqb].
  unfold py_get_default, dict_get_default. rewrite Hsol, Hcost.
  cbn [ret]. unfold or_else, bind. cbn [py_get ret].
  rewrite Htok, Htr. reflexivity.
Qed.

Lemma TwoCaptcha_poll_ready (self : Client) (h : list (string * string))
    (task_id tok : json) (w : World) :
  _session self = Some h ->
  valid_param task_id = true ->
  TwoCaptcha_ready (remote w) tok ->
  TwoCaptcha_poll self task_id w =
  (Ok (Some (mkCaptchaSolution tok task_id "2captcha" default_cost)),
   record (Sent (TwoCaptcha_poll_request self h task_id))
     (latency (remote w (trace w) (TwoCaptcha_poll_request self h task_id)))
     w).
Proof.
  intros Hs Hv Hn. unfold TwoCaptcha_poll, bind.
  rewrite Hs, send_eq by (cbn; now rewrite Hv).
  fold (TwoCaptcha_poll_request self h task_id).
  destruct (Hn (trace w) (TwoCaptcha_poll_request self h task_id) eq_refl)
    as (resp & d & Hr & Hj & He & Htok).
  rewrite Hr. unfold resp_json. rewrite Hj.
  cbn [ret py_get]. rewrite He, Htok. reflexivity.
Qed.

(** The first round of a polling loop whose poll yields a result. *)
Lemma poll_every_first {A} (poll_interval : Z) (poll : M World (option A))
    (msg : string) (timeout : Z) (fuel : nat) (w w1 : World) (a : A) :
  0 < timeout ->
  poll (record (Slept poll_interval) (Z.max 0 poll_interval) w)
    = (Ok (Some a), w1) ->
  poll_every poll_interval poll msg timeout (S fuel) 0 w = (Ok a, w1).
Proof.
  intros Ht Hp. cbn [poll_every].
  assert (E : (0 <? timeout) = true) by now apply Z.ltb_lt.
  rewrite E. unfold bind at 1. unfold sleep at 1.
  unfold bind. rewrite Hp. reflexivity.
Qed.

Lemma CapSolver_ready_run (fuel : nat) (self : Client)
    (h : list (string * string)) (task : dict) (timeout : Z) (w : World)
    (tok cost : json) :
  _session self = Some h ->
  CapSolver_accepts (remote w) ->
  CapSolver_ready (remote w) tok cost ->
  0 < timeout ->
  exists w' task_id,
    CapSolverClient._create_and_wait (S fuel) self task timeout w =
    (Ok (mkCaptchaSolution tok task_id "capsolver" cost), w')
    /\ requests (trace w') =
       CapSolver_poll_request self h task_id
       :: CapSolver_create_request self h task :: requests (trace w).
Proof.
  intros Hs Ha Hn Ht.
  destruct (CapSolver_create_accepted (S fuel) self h task timeout w Hs Ha)
    as (task_id & ->).
  set (w1 := record (Sent (CapSolver_create_request self h task)) _ w).
  set (w2 := record (Slept 3) (Z.max 0 3) w1).
  exists (record (Sent (CapSolver_poll_request self h task_id))
            (latency (remote w2 (trace w2)
                        (CapSolver_poll_request self h task_id))) w2),
    task_id.
  split; [|reflexivity].
  rewrite CapSolver_poll_loop_shape.
  apply poll_every_first; [exact Ht|].
  now apply CapSolver_poll_ready.
Qed.

Lemma TwoCaptcha_ready_run (fuel : nat) (self : Client)
    (h : list (string * string)) (params : dict) (timeout : Z) (w : World)
    (tok : json) :
  _session self = Some h ->
  forallb (fun kv => valid_param (snd kv)) params = true ->
  TwoCaptcha_accepts (remote w) ->
  TwoCaptcha_ready (remote w) tok ->
  0 < timeout ->
  exists w' task_id,
    TwoCaptchaClient._create_and_wait (S fuel) self params timeout w =
    (Ok (mkCaptchaSolution tok task_id "2captcha" default_cost), w')
    /\ requests (trace w') =
       TwoCaptcha_poll_request self h task_id
       :: TwoCaptcha_create_request h params :: requests (trace w).
Proof.
  intros Hs Hv Ha Hn Ht.
  destruct (TwoCaptcha_create_accepted (S fuel) self h params timeout w
              Hs Hv Ha) as (task_id & Hid & ->).
  set (w1 := record (Sent (TwoCaptcha_create_request h params)) _ w).
  set (w2 := record (Slept 5) (Z.max 0 5) w1).
  exists (record (Sent (TwoCaptcha_poll_request self h task_id))
            (latency (remote w2 (trace w2)
                        (TwoCaptcha_poll_request self h task_id))) w2),
    task_id.
  split; [|reflexivity].
  rewrite TwoCaptcha_poll_loop_shape.
  apply poll_every_first; [exact Ht|].
  now apply TwoCaptcha_poll_ready.
Qed.

(** C8, as the code has it: through a [CaptchaSolver], against a provider
    that is ready at the first poll with token ["tok-123"] and cost
    0.0021, every solve call sends the creation and exactly one poll, and
    returns the token; the solution carries the cost 0.0021 when the
    provider is a [CapSolverClient], and the default cost 0.0 when it is a
    [TwoCaptchaClient], which never reads a cost. *)
Theorem C8_ready_at_first_poll_one_poll (fuel : nat)
    (self : CaptchaSolver.t) (c : Client) (h : list (string * string))
    (ch : Challenge) (w : World) :
  _session c = Some h ->
  (CaptchaSolver._provider self = Some (CapSolver c) ->
   CapSolver_accepts (remote w) ->
   CapSolver_ready (remote w) (JStr "tok-123") (JFloat "0.0021") ->
   exists w' task_id create,
     CaptchaSolver_solve (S fuel) self ch w
     = (Ok (mkCaptchaSolution (JStr "tok-123") task_id "capsolver"
              (JFloat "0.0021")), w')
     /\ requests (trace w') =
        CapSolver_poll_request c h task_id :: create :: requests (trace w))
  /\ (CaptchaSolver._provider self = Some (TwoCaptcha c) ->
      TwoCaptcha_solves ch = true ->
      TwoCaptcha_accepts (remote w) ->
      TwoCaptcha_ready (remote w) (JStr "tok-123") ->
      exists w' task_id create,
        CaptchaSolver_solve (S fuel) self ch w
        = (Ok (mkCaptchaSolution (JStr "tok-123") task_id "2captcha"
                 (JFloat "0.0")), w')
        /\ requests (trace w') =
           TwoCaptcha_poll_request c h task_id :: create
           :: requests (trace w)).
Proof.
  intros Hs. split.
  - intros Hp Ha Hr.
    assert (Run : forall task,
               exists w' task_id,
                 CapSolverClient._create_and_wait (S fuel) c task
                   CapSolverClient.default_timeout w =
                 (Ok (mkCaptchaSolution (JStr "tok-123") task_id "capsolver"
                        (JFloat "0.0021")), w')
                 /\ requests (trace w') =
                    CapSolver_poll_request c h task_id
                    :: CapSolver_create_request c h task
                    :: requests (trace w))
      by (intros task; now apply CapSolver_ready_run).
    destruct ch as [site_key url invisible|site_key url action min_score
                   |site_key url|site_key url];
      cbn [CaptchaSolver_solve];
      unfold CaptchaSolver.solve_recaptcha_v2,
        CaptchaSolver.solve_recaptcha_v3, CaptchaSolver.solve_hcaptcha,
        CaptchaSolver.solve_turnstile;
      rewrite Hp; cbn [is_CapSolverClient negb];
      unfold CapSolverClient.solve_recaptcha_v2,
        CapSolverClient.solve_recaptcha_v3, CapSolverClient.solve_hcaptcha,
        CapSolverClient.solve_turnstile; cbv zeta;
      match goal with
      | |- context [CapSolverClient._create_and_wait _ _ ?task _] =>
          destruct (Run task) as (w' & task_id & H & Hq);
            exists w', task_id; eexists;
            unfold bind; rewrite H; (split; [reflexivity | exact Hq])
      end.
  - intros Hp Hsup Ha Hr.
    assert (Run : forall params,
               forallb (fun kv => valid_param (snd kv)) params = true ->
               exists w' task_id,
                 TwoCaptchaClient._create_and_wait (S fuel) c params
                   TwoCaptchaClient.default_timeout w =
                 (Ok (mkCaptchaSolution (JStr "tok-123") task_id "2captcha"
                        default_cost), w')
                 /\ requests (trace w') =
                    TwoCaptcha_poll_request c h task_id
                    :: TwoCaptcha_create_request h params
                    :: requests (trace w))
      by (intros params Hv; now apply TwoCaptcha_ready_run).
    destruct ch as [site_key url invisible|site_key url action min_score
                   |site_key url|site_key url];
      cbn [TwoCaptcha_solves] in Hsup; try discriminate;
      cbn [CaptchaSolver_solve];
      unfold CaptchaSolver.solve_recaptcha_v2,
        CaptchaSolver.solve_recaptcha_v3, CaptchaSolver.solve_hcaptcha;
      rewrite Hp;
      unfold TwoCaptchaClient.solve_recaptcha_v2,
        TwoCaptchaClient.solve_recaptcha_v3, TwoCaptchaClient.solve_hcaptcha;
      cbv zeta;
      match goal with
      | |- context [TwoCaptchaClient._create_and_wait _ _ ?params _] =>
          destruct (Run params) as (w' & task_id & H & Hq);
            [first [reflexivity
                   |destruct invisible; reflexivity
                   |cbn; now rewrite Hsup]
            |exists w', task_id; eexists;
             unfold bind; rewrite H; (split; [reflexivity | exact Hq])]
      end.
Qed.

Lemma CapSolver_stub_ready (lat : Z) :
  CapSolver_ready (CapSolver_stub lat CapSolver_solved)
    (JStr "tok-123") (JFloat "0.0021").
Proof.
  intros tr q Hq. unfold CapSolver_stub. rewrite Hq.
  eexists; eexists; eexists.
  split; [reflexivity|]. split; [reflexivity|]. split; [reflexivity|].
  split; [reflexivity|]. split; [reflexivity|]. split; [reflexivity|].
  split; reflexivity.
Qed.

Lemma C8_ready_at_first_poll_witness :
  let c := mkClient "key-cs" (Some []) in
  let self := CaptchaSolver.mk "capsolver" (Some (CapSolver c)) in
  let w := fresh_world no_env (CapSolver_stub 0 CapSolver_solved) in
  exists w' task_id create,
    CaptchaSolver_solve 1 self
      (RecaptchaV2 "6Le-site-key" "https://example.com/signup" false) w
    = (Ok (mkCaptchaSolution (JStr "tok-123") task_id "capsolver"
             (JFloat "0.0021")), w')
    /\ requests (trace w') =
       CapSolver_poll_request c [] task_id :: create :: requests (trace w).
Proof.
  intros c self w.
  apply (proj1 (C8_ready_at_first_poll_one_poll 0 self c []
                  (RecaptchaV2 "6Le-site-key" "https://example.com/signup"
                     false) w eq_refl)).
  - reflexivity.
  - apply CapSolver_stub_accepts.
  - apply CapSolver_stub_ready.
Defined.

(** C8 as stated fails for the alternate provider: the 2Captcha answer
    below carries the cost 0.0021 next to the token, and the solution
    returned carries the cost 0.0. *)
Lemma C8_twocaptcha_returns_no_cost :
  let c := mkClient "key-2c" (Some []) in
  let self := CaptchaSolver.mk "capsolver" (Some (TwoCaptcha c)) in
  let w := fresh_world no_env (TwoCaptcha_stub 0 TwoCaptcha_solved) in
  let run := CaptchaSolver_solve 1 self
               (RecaptchaV2 "6Le-site-key" "https://example.com/signup"
                  false) w in
  fst run = Ok (mkCaptchaSolution (JStr "tok-123") (JStr "7001") "2captcha"
                  (JFloat "0.0"))
  /\ length (polls (TwoCaptchaClient.BASE_URL ++ "/res.php")
               (trace (snd run))) = 1%nat
  /\ ~ (exists solution,
          fst run = Ok solution /\ cost solution = JFloat "0.0021").
Proof.
  intros c self w run.
  assert (H : fst run = Ok (mkCaptchaSolution (JStr "tok-123") (JStr "7001")
                              "2captcha" (JFloat "0.0")))
    by (vm_compute; reflexivity).
  split; [exact H|]. split; [vm_compute; reflexivity|].
  intros (solution & Hs & Hc). rewrite H in Hs.
  inversion Hs; subst. discriminate.
Qed.

(* ================================================================== *)
(** ** Beyond the claims: selection, rejection, failure *)
(* ================================================================== *)

Lemma CaptchaSolver_aenter_preferred (self : CaptchaSolver.t) (w : World)
    (key : string) :
  env_key w (captcha_preferred_var self) = Some key ->
  CaptchaSolver.__aenter__ (self, w) =
  (Ok tt, (CaptchaSolver.mk (CaptchaSolver.preferred_provider self)
             (Some (captcha_preferred self key)), w)).
Proof.
  destruct self as [pref prov].
  unfold captcha_preferred_var, captcha_preferred,
    CaptchaSolver.__aenter__, CaptchaSolver.new_CapSolver,
    CaptchaSolver.new_TwoCaptcha, CapSolverClient.__init__,
    TwoCaptchaClient.__init__, except_ValueError, bind, get_self, lift.
  cbn -[client_init String.eqb].
  destruct (String.eqb pref "capsolver") eqn:E; intros Hp;
    repeat (cbn -[client_init String.eqb];
            rewrite ?E, ?client_init_env, ?Hp);
    reflexivity.
Qed.

Lemma SMSService_aenter_preferred (self : SMSService.t) (w : World)
    (key : string) :
  env_key w (sms_preferred_var self) = Some key ->
  SMSService.__aenter__ (self, w) =
  (Ok tt, (SMSService.mk (SMSService.preferred_provider self)
             (Some (sms_preferred self key))
             (SMSService._current_phone self), w)).
Proof.
  destruct self as [pref prov phone].
  unfold sms_preferred_var, sms_preferred,
    SMSService.__aenter__, SMSService.new_SMSActivate,
    SMSService.new_FiveSim, SMSActivateClient.__init__,
    FiveSimClient.__init__, except_ValueError, bind, get_self, lift.
  cbn -[client_init String.eqb].
  destruct (String.eqb pref "sms-activate") eqn:E; intros Hp;
    repeat (cbn -[client_init String.eqb];
            rewrite ?E, ?client_init_env, ?Hp);
    reflexivity.
Qed.

(** X1: when the preferred provider's key is configured, entering either
    broker selects the preferred provider, whether or not the alternate's
    key is configured too, replaces whatever provider the broker held,
    and sends nothing. *)
Theorem X1_preferred_provider_wins :
  (forall (self : CaptchaSolver.t) (w : World) (key : string),
      env_key w (captcha_preferred_var self) = Some key ->
      CaptchaSolver.__aenter__ (self, w) =
      (Ok tt, (CaptchaSolver.mk (CaptchaSolver.preferred_provider self)
                 (Some (captcha_preferred self key)), w)))
  /\ (forall (self : SMSService.t) (w : World) (key : string),
      env_key w (sms_preferred_var self) = Some key ->
      SMSService.__aenter__ (self, w) =
      (Ok tt, (SMSService.mk (SMSService.preferred_provider self)
                 (Some (sms_preferred self key))
                 (SMSService._current_phone self), w))).
Proof.
  split; intros.
  - now apply CaptchaSolver_aenter_preferred.
  - now apply SMSService_aenter_preferred.
Qed.

Lemma X1_preferred_provider_witness :
  let w := fresh_world (both_env "CAPSOLVER_API_KEY" "key-cs"
                          "TWO_CAPTCHA_API_KEY" "key-2c") silent in
  CaptchaSolver.__aenter__ (CaptchaSolver.__init__ "capsolver", w) =
  (Ok tt, (CaptchaSolver.mk "capsolver"
             (Some (CapSolver (mkClient "key-cs" (Some [])))), w)).
Proof.
  intros w.
  apply (proj1 X1_preferred_provider_wins
           (CaptchaSolver.__init__ "capsolver") w "key-cs").
  reflexivity.
Defined.

(** X3: a [createTask] that the provider does not accept ends the solve
    at once.  CapSolver: an answer whose [errorId] is not 0 (or is
    missing) raises [Exception("Failed to create task: <description>")];
    2Captcha: an answer whose [status] is not 1 raises the same with the
    [request] field.  In both cases the creation is the only request, and
    nothing is slept, whatever the fuel and the timeout. *)
Theorem X3_rejected_creation_raises :
  (forall (fuel : nat) (self : Client) (h : list (string * string))
          (task : dict) (timeout : Z) (w : World) (d : dict) (s : string),
      _session self = Some h ->
      replies_json (remote w) (trace w)
        (CapSolver_create_request self h task) d ->
      py_eq_int (dict_get d "errorId") 0 = false ->
      py_str (dict_get d "errorDescription") = Some s ->
      CapSolverClient._create_and_wait fuel self task timeout w =
      (Raise (PyException ("Failed to create task: " ++ s)),
       record (Sent (CapSolver_create_request self h task))
         (latency (remote w (trace w)
                     (CapSolver_create_request self h task))) w))
  /\ (forall (fuel : nat) (self : Client) (h : list (string * string))
             (params : dict) (timeout : Z) (w : World) (d : dict)
             (s : string),
      _session self = Some h ->
      forallb (fun kv => valid_param (snd kv)) params = true ->
      replies_json (remote w) (trace w)
        (TwoCaptcha_create_request h params) d ->
      py_eq_int (dict_get d "status") 1 = false ->
      py_str (dict_get d "request") = Some s ->
      TwoCaptchaClient._create_and_wait fuel self params timeout w =
      (Raise (PyException ("Failed to create task: " ++ s)),
       record (Sent (TwoCaptcha_create_request h params))
         (latency (remote w (trace w)
                     (TwoCaptcha_create_request h params))) w)).
Proof.
  split.
  - intros fuel self h task timeout w d s Hs (resp & Hr & Hj) He Hd.
    unfold CapSolverClient._create_and_wait, bind.
    rewrite Hs, send_eq by reflexivity.
    fold (CapSolver_create_request self h task). rewrite Hr.
    unfold resp_json. rewrite Hj.
    cbn [ret py_get]. rewrite He. cbn [negb].
    unfold fmt. rewrite Hd. reflexivity.
  - intros fuel self h params timeout w d s Hs Hv (resp & Hr & Hj) He Hd.
    unfold TwoCaptchaClient._create_and_wait, bind.
    rewrite Hs, send_eq by exact Hv.
    fold (TwoCaptcha_create_request h params). rewrite Hr.
    unfold resp_json. rewrite Hj.
    cbn [ret py_get]. rewrite He. cbn [negb].
    unfold fmt. rewrite Hd. reflexivity.
Qed.

Lemma X3_rejected_creation_witness :
  let self := mkClient "key-cs" (Some []) in
  let task := [("type", JStr "ReCaptchaV2TaskProxyLess")] in
  let d := [("errorId", JInt 1);
            ("errorDescription", JStr "ERROR_KEY_DENIED_ACCESS")] in
  let w := fresh_world no_env (fun _ _ => json_reply 0 d) in
  CapSolverClient._create_and_wait 40 self task 120 w =
  (Raise (PyException "Failed to create task: ERROR_KEY_DENIED_ACCESS"),
   record (Sent (CapSolver_create_request self [] task)) 0 w).
Proof.
  intros self task d w.
  apply (proj1 X3_rejected_creation_raises 40%nat self [] task 120 w d
           "ERROR_KEY_DENIED_ACCESS").
  - reflexivity.
  - eexists. split; reflexivity.
  - reflexivity.
  - reflexivity.
Defined.

Lemma poll_every_first_raise {A} (poll_interval : Z)
    (poll : M World (option A)) (msg : string) (timeout : Z) (fuel : nat)
    (w w1 : World) (e : exn) :
  0 < timeout ->
  poll (record (Slept poll_interval) (Z.max 0 poll_interval) w)
    = (Raise e, w1) ->
  poll_every poll_interval poll msg timeout (S fuel) 0 w = (Raise e, w1).
Proof.
  intros Ht Hp. cbn [poll_every].
  assert (E : (0 <? timeout) = true) by now apply Z.ltb_lt.
  rewrite E. unfold bind at 1. unfold sleep at 1.
  unfold bind. rewrite Hp. reflexivity.
Qed.

Lemma CapSolver_poll_failing (self : Client) (h : list (string * string))
    (task_id desc : json) (s : string) (w : World) :
  _session self = Some h ->
  CapSolver_poll_fails (remote w) desc ->
  py_str desc = Some s ->
  CapSolver_poll self task_id w =
  (Raise (PyException ("Task failed: " ++ s)),
   record (Sent (CapSolver_poll_request self h task_id))
     (latency (remote w (trace w) (CapSolver_poll_request self h task_id)))
     w).
Proof.
  intros Hs Hn Hd. unfold CapSolver_poll, bind.
  rewrite Hs, send_eq by reflexivity.
  fold (CapSolver_poll_request self h task_id).
  destruct (Hn (trace w) (CapSolver_poll_request self h task_id) eq_refl)
    as (d & (resp & Hr & Hj) & He & Hdesc).
  rewrite Hr. unfold resp_json. rewrite Hj.
  cbn [ret py_get]. rewrite He. cbn [negb].
  rewrite Hdesc. unfold fmt. rewrite Hd. reflexivity.
Qed.

Lemma TwoCaptcha_poll_failing (self : Client) (h : list (string * string))
    (task_id code : json) (s : string) (w : World) :
  _session self = Some h ->
  valid_param task_id = true ->
  TwoCaptcha_poll_fails (remote w) code ->
  py_str code = Some s ->
  TwoCaptcha_poll self task_id w =
  (Raise (PyException ("Task failed: " ++ s)),
   record (Sent (TwoCaptcha_poll_request self h task_id))
     (latency (remote w (trace w) (TwoCaptcha_poll_request self h task_id)))
     w).
Proof.
  intros Hs Hv Hn Hd. unfold TwoCaptcha_poll, bind.
  rewrite Hs, send_eq by (cbn; now rewrite Hv).
  fold (TwoCaptcha_poll_request self h task_id).
  destruct (Hn (trace w) (TwoCaptcha_poll_request self h task_id) eq_refl)
    as (d & (resp & Hr & Hj) & He & Hcode & Hnr).
  rewrite Hr. unfold resp_json. rewrite Hj.
  cbn [ret py_get]. rewrite He, Hcode, Hnr. cbn [negb ret].
  unfold fmt. rewrite Hd. reflexivity.
Qed.

(** X4: an error reported by a poll ends the solve with that poll.
    Against a provider that accepts the task and then answers the polls
    with an error (CapSolver: [errorId] not 0; 2Captcha: anything but
    status 1 and [CAPCHA_NOT_READY]), [_create_and_wait] raises
    [Exception("Task failed: <error>")] after the creation and exactly
    one poll; it does not retry. *)
Theorem X4_poll_error_ends_the_solve :
  (forall (fuel : nat) (self : Client) (h : list (string * string))
          (task : dict) (timeout : Z) (w : World) (desc : json)
          (s : string),
      _session self = Some h ->
      CapSolver_accepts (remote w) ->
      CapSolver_poll_fails (remote w) desc ->
      py_str desc = Some s ->
      0 < timeout ->
      exists w' task_id,
        CapSolverClient._create_and_wait (S fuel) self task timeout w =
        (Raise (PyException ("Task failed: " ++ s)), w')
        /\ requests (trace w') =
           CapSolver_poll_request self h task_id
           :: CapSolver_create_request self h task :: requests (trace w))
  /\ (forall (fuel : nat) (self : Client) (h : list (string * string))
             (params : dict) (timeout : Z) (w : World) (code : json)
             (s : string),
      _session self = Some h ->
      forallb (fun kv => valid_param (snd kv)) params = true ->
      TwoCaptcha_accepts (remote w) ->
      TwoCaptcha_poll_fails (remote w) code ->
      py_str code = Some s ->
      0 < timeout ->
      exists w' task_id,
        TwoCaptchaClient._create_and_wait (S fuel) self params timeout w =
        (Raise (PyException ("Task failed: " ++ s)), w')
        /\ requests (trace w') =
           TwoCaptcha_poll_request self h task_id
           :: TwoCaptcha_create_request h params :: requests (trace w)).
Proof.
  split.
  - intros fuel self h task timeout w desc s Hs Ha Hn Hd Ht.
    destruct (CapSolver_create_accepted (S fuel) self h task timeout w Hs Ha)
      as (task_id & ->).
    set (w1 := record (Sent (CapSolver_create_request self h task)) _ w).
    set (w2 := record (Slept 3) (Z.max 0 3) w1).
    exists (record (Sent (CapSolver_poll_request self h task_id))
              (latency (remote w2 (trace w2)
                          (CapSolver_poll_request self h task_id))) w2),
      task_id.
    split; [|reflexivity].
    rewrite CapSolver_poll_loop_shape.
    apply poll_every_first_raise; [exact Ht|].
    now apply (CapSolver_poll_failing self h task_id desc).
  - intros fuel self h params timeout w code s Hs Hv Ha Hn Hd Ht.
    destruct (TwoCaptcha_create_accepted (S fuel) self h params timeout w
                Hs Hv Ha) as (task_id & Hid & ->).
    set (w1 := record (Sent (TwoCaptcha_create_request h params)) _ w).
    set (w2 := record (Slept 5) (Z.max 0 5) w1).
    exists (record (Sent (TwoCaptcha_poll_request self h task_id))
              (latency (remote w2 (trace w2)
                          (TwoCaptcha_poll_request self h task_id))) w2),
      task_id.
    split; [|reflexivity].
    rewrite TwoCaptcha_poll_loop_shape.
    apply poll_every_first_raise; [exact Ht|].
    now apply (TwoCaptcha_poll_failing self h task_id code).
Qed.

Lemma TwoCaptcha_stub_accepts (lat : Z) (poll : dict) :
  TwoCaptcha_accepts (TwoCaptcha_stub lat poll).
Proof.
  intros tr q Hq. unfold TwoCaptcha_stub. rewrite Hq, String.eqb_refl.
  eexists; eexists. split; [reflexivity|]. split; [reflexivity|].
  split; reflexivity.
Qed.

Lemma TwoCaptcha_stub_polls (lat : Z) (poll : dict) (tr : list Event)
    (q : Request) :
  rq_url q = TwoCaptchaClient.BASE_URL ++ "/res.php" ->
  replies_json (TwoCaptcha_stub lat poll) tr q poll.
Proof.
  intros Hq. unfold replies_json, TwoCaptcha_stub. rewrite Hq.
  eexists. split; reflexivity.
Qed.

Lemma CapSolver_stub_polls (lat : Z) (poll : dict) (tr : list Event)
    (q : Request) :
  rq_url q = CapSolverClient.BASE_URL ++ "/getTaskResult" ->
  replies_json (CapSolver_stub lat poll) tr q poll.
Proof.
  intros Hq. unfold replies_json, CapSolver_stub. rewrite Hq.
  eexists. split; reflexivity.
Qed.

Lemma X4_poll_error_witness :
  let self := mkClient "key-2c" (Some []) in
  let params := [("key", JStr "key-2c"); ("method", JStr "hcaptcha")] in
  let w := fresh_world no_env
             (TwoCaptcha_stub 0
                [("status", JInt 0);
                 ("request", JStr "ERROR_CAPTCHA_UNSOLVABLE")]) in
  exists w' task_id,
    TwoCaptchaClient._create_and_wait 1 self params 120 w =
    (Raise (PyException "Task failed: ERROR_CAPTCHA_UNSOLVABLE"), w')
    /\ requests (trace w') =
       TwoCaptcha_poll_request self [] task_id
       :: TwoCaptcha_create_request [] params :: requests (trace w).
Proof.
  intros self params w.
  apply (proj2 X4_poll_error_ends_the_solve 0%nat self [] params 120 w
           (JStr "ERROR_CAPTCHA_UNSOLVABLE") "ERROR_CAPTCHA_UNSOLVABLE").
  - reflexivity.
  - reflexivity.
  - apply TwoCaptcha_stub_accepts.
  - intros tr q Hq. eexists.
    split; [now apply TwoCaptcha_stub_polls|].
    split; [reflexivity|]. split; reflexivity.
  - reflexivity.
  - reflexivity.
Defined.

(* ================================================================== *)
(** ** Beyond the claims: timeouts *)
(* ================================================================== *)

Lemma poll_every_past {A} (poll_interval : Z) (poll : M World (option A))
    (msg : string) (timeout : Z) (fuel : nat) (e : Z) (w : World) :
  timeout <= e ->
  poll_every poll_interval poll msg timeout fuel e w
  = (Raise (TimeoutError msg), w).
Proof.
  intros Ht. assert (E : (e <? timeout) = false) by now apply Z.ltb_ge.
  destruct fuel; cbn [poll_every]; rewrite E; reflexivity.
Qed.

Lemma wait_until_past {C} (poll : M World (option C))
    (done cancel : M World unit) (msg : string) (timeout poll_interval : Z)
    (fuel : nat) (e : Z) (w : World) :
  timeout <= e ->
  wait_until poll done cancel msg timeout poll_interval fuel e w
  = (cancel ;;; raise (TimeoutError msg)) w.
Proof.
  intros Ht. assert (E : (e <? timeout) = false) by now apply Z.ltb_ge.
  destruct fuel; cbn [wait_until]; rewrite E; reflexivity.
Qed.

(** What [set_status] of the SMS-Activate client does with an open
    session when the transport does not fail. *)
Lemma SMSActivate_set_status_eq (self : Client) (h : list (string * string))
    (aid status : string) (w : World) :
  _session self = Some h ->
  let q := SMSActivate_status_request self h aid
             (SMSActivateClient.status_code SMSActivateClient.status_codes
                status) in
  response (remote w (trace w) q) <> None ->
  SMSActivateClient.set_status self aid status w =
  (Ok tt, record (Sent q) (latency (remote w (trace w) q)) w).
Proof.
  intros Hs q Hr. unfold SMSActivateClient.set_status, bind.
  rewrite (SMSActivate_request_eq self h) by (exact Hs || reflexivity).
  fold (SMSActivate_request self h "setStatus"
          [("id", JStr aid);
           ("status", JInt (SMSActivateClient.status_code
                              SMSActivateClient.status_codes status))]).
  fold (SMSActivate_status_request self h aid
          (SMSActivateClient.status_code SMSActivateClient.status_codes
             status)).
  fold q. destruct (response (remote w (trace w) q)); [reflexivity|].
  now destruct Hr.
Qed.

(** The same for [finish] and [cancel] of the 5sim client. *)
Lemma FiveSim_notify_eq (self : Client) (h : list (string * string))
    (what aid : string) (w : World) :
  _session self = Some h ->
  let q := FiveSim_request h what aid in
  response (remote w (trace w) q) <> None ->
  (send (_session self) GET
     (FiveSimClient.BASE_URL ++ "/user/" ++ what ++ "/" ++ aid) [] None
   ;;; ret tt) w =
  (Ok tt, record (Sent q) (latency (remote w (trace w) q)) w).
Proof.
  intros Hs q Hr. unfold bind.
  rewrite Hs, send_eq by reflexivity.
  fold (FiveSim_request h what aid). fold q.
  destruct (response (remote w (trace w) q)); [reflexivity|].
  now destruct Hr.
Qed.

(** X5: a timeout that is not positive.  The two [_create_and_wait]
    still create the task, then raise [TimeoutError] without sleeping or
    polling once; the two [wait_for_code] check for no code at all, send
    the "cancel" notification and raise [TimeoutError].  None of it
    depends on the fuel. *)
Theorem X5_nonpositive_timeout :
  (forall (fuel : nat) (self : Client) (h : list (string * string))
          (task : dict) (timeout : Z) (w : World),
      _session self = Some h ->
      CapSolver_accepts (remote w) ->
      timeout <= 0 ->
      CapSolverClient._create_and_wait fuel self task timeout w =
      (Raise (TimeoutError ("CAPTCHA not solved within "
                            ++ string_of_Z timeout ++ " seconds")),
       record (Sent (CapSolver_create_request self h task))
         (latency (remote w (trace w)
                     (CapSolver_create_request self h task))) w))
  /\ (forall (fuel : nat) (self : Client) (h : list (string * string))
             (params : dict) (timeout : Z) (w : World),
      _session self = Some h ->
      forallb (fun kv => valid_param (snd kv)) params = true ->
      TwoCaptcha_accepts (remote w) ->
      timeout <= 0 ->
      TwoCaptchaClient._create_and_wait fuel self params timeout w =
      (Raise (TimeoutError ("CAPTCHA not solved within "
                            ++ string_of_Z timeout ++ " seconds")),
       record (Sent (TwoCaptcha_create_request h params))
         (latency (remote w (trace w)
                     (TwoCaptcha_create_request h params))) w))
  /\ (forall (fuel : nat) (self : Client) (h : list (string * string))
             (aid : string) (timeout poll_interval : Z) (w : World),
      _session self = Some h ->
      timeout <= 0 ->
      response (remote w (trace w)
                  (SMSActivate_status_request self h aid 8)) <> None ->
      SMSActivateClient.wait_for_code fuel self aid timeout poll_interval w
      = (Raise (TimeoutError ("No code received within "
                              ++ string_of_Z timeout ++ " seconds")),
         record (Sent (SMSActivate_status_request self h aid 8))
           (latency (remote w (trace w)
                       (SMSActivate_status_request self h aid 8))) w))
  /\ (forall (fuel : nat) (self : Client) (h : list (string * string))
             (aid : string) (timeout poll_interval : Z) (w : World),
      _session self = Some h ->
      timeout <= 0 ->
      response (remote w (trace w) (FiveSim_request h "cancel" aid))
        <> None ->
      FiveSimClient.wait_for_code fuel self aid timeout poll_interval w
      = (Raise (TimeoutError ("No code received within "
                              ++ string_of_Z timeout ++ " seconds")),
         record (Sent (FiveSim_request h "cancel" aid))
           (latency (remote w (trace w) (FiveSim_request h "cancel" aid)))
           w)).
Proof.
  split; [|split; [|split]].
  - intros fuel self h task timeout w Hs Ha Ht.
    destruct (CapSolver_create_accepted fuel self h task timeout w Hs Ha)
      as (task_id & ->).
    rewrite CapSolver_poll_loop_shape. now apply poll_every_past.
  - intros fuel self h params timeout w Hs Hv Ha Ht.
    destruct (TwoCaptcha_create_accepted fuel self h params timeout w
                Hs Hv Ha) as (task_id & _ & ->).
    rewrite TwoCaptcha_poll_loop_shape. now apply poll_every_past.
  - intros fuel self h aid timeout poll_interval w Hs Ht Hr.
    unfold SMSActivateClient.wait_for_code.
    rewrite SMSActivate_wait_loop_shape, wait_until_past by exact Ht.
    unfold bind.
    rewrite (SMSActivate_set_status_eq self h aid "cancel" w Hs Hr).
    reflexivity.
  - intros fuel self h aid timeout poll_interval w Hs Ht Hr.
    unfold FiveSimClient.wait_for_code.
    rewrite FiveSim_wait_loop_shape, wait_until_past by exact Ht.
    unfold FiveSimClient.cancel.
    change (FiveSimClient.BASE_URL ++ "/user/cancel/" ++ aid)
      with (FiveSimClient.BASE_URL ++ "/user/" ++ "cancel" ++ "/" ++ aid).
    unfold bind at 1.
    rewrite (FiveSim_notify_eq self h "cancel" aid w Hs Hr).
    reflexivity.
Qed.

Lemma X5_nonpositive_timeout_witness :
  let self := mkClient "key-sa" (Some []) in
  let w := fresh_world no_env (text_stub "ACCESS_CANCEL") in
  SMSActivateClient.wait_for_code 0 self "77" 0 5 w
  = (Raise (TimeoutError "No code received within 0 seconds"),
     record (Sent (SMSActivate_status_request self [] "77" 8)) 0 w).
Proof.
  intros self w.
  apply (proj1 (proj2 (proj2 X5_nonpositive_timeout)) 0%nat self [] "77" 0 5
           w).
  - reflexivity.
  - apply Z.le_refl.
  - discriminate.
Defined.

(** X6: how long a solve insists.  Against a provider that accepts the
    task and is never ready, [_create_and_wait] polls [n] times and raises
    [TimeoutError], [n] being the least number of intervals (3 for
    CapSolver, 5 for 2Captcha) that cover the timeout.  The solve methods
    of [CaptchaSolver] never pass a timeout, so through the broker that is
    always 120: 40 polls with a [CapSolverClient], 24 with a
    [TwoCaptchaClient], and the [TimeoutError] reaches the caller. *)
Theorem X6_never_ready_poll_count :
  (forall (fuel : nat) (self : Client) (h : list (string * string))
          (task : dict) (timeout : Z) (w : World),
      _session self = Some h ->
      CapSolver_accepts (remote w) ->
      CapSolver_never_ready (remote w) ->
      (Z.to_nat timeout <= fuel)%nat ->
      exists w' task_id n,
        CapSolverClient._create_and_wait fuel self task timeout w =
        (Raise (TimeoutError ("CAPTCHA not solved within "
                              ++ string_of_Z timeout ++ " seconds")), w')
        /\ requests (trace w') =
           (repeat (CapSolver_poll_request self h task_id) n
            ++ CapSolver_create_request self h task
               :: requests (trace w))%list
        /\ timed_out_after timeout 3 0 (3 * Z.of_nat n))
  /\ (forall (fuel : nat) (self : Client) (h : list (string * string))
             (params : dict) (timeout : Z) (w : World),
      _session self = Some h ->
      forallb (fun kv => valid_param (snd kv)) params = true ->
      TwoCaptcha_accepts (remote w) ->
      TwoCaptcha_never_ready (remote w) ->
      (Z.to_nat timeout <= fuel)%nat ->
      exists w' task_id n,
        TwoCaptchaClient._create_and_wait fuel self params timeout w =
        (Raise (TimeoutError ("CAPTCHA not solved within "
                              ++ string_of_Z timeout ++ " seconds")), w')
        /\ requests (trace w') =
           (repeat (TwoCaptcha_poll_request self h task_id) n
            ++ TwoCaptcha_create_request h params
               :: requests (trace w))%list
        /\ timed_out_after timeout 5 0 (5 * Z.of_nat n))
  /\ (forall (fuel : nat) (self : CaptchaSolver.t) (c : Client)
             (h : list (string * string)) (ch : Challenge) (w : World),
      _session c = Some h ->
      CaptchaSolver._provider self = Some (CapSolver c) ->
      CapSolver_accepts (remote w) ->
      CapSolver_never_ready (remote w) ->
      (120 <= fuel)%nat ->
      exists w' task_id create,
        CaptchaSolver_solve fuel self ch w =
        (Raise (TimeoutError "CAPTCHA not solved within 120 seconds"), w')
        /\ requests (trace w') =
           (repeat (CapSolver_poll_request c h task_id) 40
            ++ create :: requests (trace w))%list)
  /\ (forall (fuel : nat) (self : CaptchaSolver.t) (c : Client)
             (h : list (string * string)) (ch : Challenge) (w : World),
      _session c = Some h ->
      CaptchaSolver._provider self = Some (TwoCaptcha c) ->
      TwoCaptcha_solves ch = true ->
      TwoCaptcha_accepts (remote w) ->
      TwoCaptcha_never_ready (remote w) ->
      (120 <= fuel)%nat ->
      exists w' task_id create,
        CaptchaSolver_solve fuel self ch w =
        (Raise (TimeoutError "CAPTCHA not solved within 120 seconds"), w')
        /\ requests (trace w') =
           (repeat (TwoCaptcha_poll_request c h task_id) 24
            ++ create :: requests (trace w))%list).
Proof.
  split; [|split; [|split]].
  - intros. now apply CapSolver_never_ready_run.
  - intros. now apply TwoCaptcha_never_ready_run.
  - intros fuel self c h ch w Hs Hp Ha Hn Hf.
    assert (Run : forall task,
               exists w' task_id,
                 CapSolverClient._create_and_wait fuel c task
                   CapSolverClient.default_timeout w =
                 (Raise (TimeoutError
                           "CAPTCHA not solved within 120 seconds"), w')
                 /\ requests (trace w') =
                    (repeat (CapSolver_poll_request c h task_id) 40
                     ++ CapSolver_create_request c h task
                        :: requests (trace w))%list).
    { intros task.
      destruct (CapSolver_never_ready_run fuel c h task
                  CapSolverClient.default_timeout w Hs Ha Hn)
        as (w' & task_id & n & H & Hq & Ht); [exact Hf|].
      exists w', task_id. split; [exact H|].
      assert (n = 40%nat)
        by (unfold timed_out_after, CapSolverClient.default_timeout in Ht;
            lia).
      now subst n. }
    destruct ch as [site_key url invisible|site_key url action min_score
                   |site_key url|site_key url];
      cbn [CaptchaSolver_solve];
      unfold CaptchaSolver.solve_recaptcha_v2,
        CaptchaSolver.solve_recaptcha_v3, CaptchaSolver.solve_hcaptcha,
        CaptchaSolver.solve_turnstile;
      rewrite Hp; cbn [is_CapSolverClient negb];
      unfold CapSolverClient.solve_recaptcha_v2,
        CapSolverClient.solve_recaptcha_v3, CapSolverClient.solve_hcaptcha,
        CapSolverClient.solve_turnstile; cbv zeta;
      match goal with
      | |- context [CapSolverClient._create_and_wait _ _ ?task _] =>
          destruct (Run task) as (w' & task_id & H & Hq);
            exists w', task_id; eexists;
            unfold bind; rewrite H; (split; [reflexivity | exact Hq])
      end.
  - intros fuel self c h ch w Hs Hp Hsup Ha Hn Hf.
    assert (Run : forall params,
               forallb (fun kv => valid_param (snd kv)) params = true ->
               exists w' task_id,
                 TwoCaptchaClient._create_and_wait fuel c params
                   TwoCaptchaClient.default_timeout w =
                 (Raise (TimeoutError
                           "CAPTCHA not solved within 120 seconds"), w')
                 /\ requests (trace w') =
                    (repeat (TwoCaptcha_poll_request c h task_id) 24
                     ++ TwoCaptcha_create_request h params
                        :: requests (trace w))%list).
    { intros params Hv.
      destruct (TwoCaptcha_never_ready_run fuel c h params
                  TwoCaptchaClient.default_timeout w Hs Hv Ha Hn)
        as (w' & task_id & n & H & Hq & Ht); [exact Hf|].
      exists w', task_id. split; [exact H|].
      assert (n = 24%nat)
        by (unfold timed_out_after, TwoCaptchaClient.default_timeout in Ht;
            lia).
      now subst n. }
    destruct ch as [site_key url invisible|site_key url action min_score
                   |site_key url|site_key url];
      cbn [TwoCaptcha_solves] in Hsup; try discriminate;
      cbn [CaptchaSolver_solve];
      unfold CaptchaSolver.solve_recaptcha_v2,
        CaptchaSolver.solve_recaptcha_v3, CaptchaSolver.solve_hcaptcha;
      rewrite Hp;
      unfold TwoCaptchaClient.solve_recaptcha_v2,
        TwoCaptchaClient.solve_recaptcha_v3, TwoCaptchaClient.solve_hcaptcha;
      cbv zeta;
      match goal with
      | |- context [TwoCaptchaClient._create_and_wait _ _ ?params _] =>
          destruct (Run params) as (w' & task_id & H & Hq);
            [first [reflexivity
                   |destruct invisible; reflexivity
                   |cbn; now rewrite Hsup]
            |exists w', task_id; eexists;
             unfold bind; rewrite H; (split; [reflexivity | exact Hq])]
      end.
Qed.

Lemma TwoCaptcha_stub_never_ready (lat : Z) :
  TwoCaptcha_never_ready (TwoCaptcha_stub lat TwoCaptcha_not_ready).
Proof.
  intros tr q Hq. unfold TwoCaptcha_stub. rewrite Hq.
  eexists; eexists. split; [reflexivity|]. split; [reflexivity|].
  split; reflexivity.
Qed.

Lemma X6_never_ready_witness :
  let c := mkClient "key-2c" (Some []) in
  let self := CaptchaSolver.mk "2captcha" (Some (TwoCaptcha c)) in
  let w := fresh_world no_env (TwoCaptcha_stub 2 TwoCaptcha_not_ready) in
  exists w' task_id create,
    CaptchaSolver_solve 120 self
      (HCaptcha "10000000-ffff" "https://example.com/signup") w =
    (Raise (TimeoutError "CAPTCHA not solved within 120 seconds"), w')
    /\ requests (trace w') =
       (repeat (TwoCaptcha_poll_request c [] task_id) 24
        ++ create :: requests (trace w))%list.
Proof.
  intros c self w.
  apply (proj2 (proj2 (proj2 X6_never_ready_poll_count)) 120%nat self c []
           (HCaptcha "10000000-ffff" "https://example.com/signup") w).
  - reflexivity.
  - reflexivity.
  - reflexivity.
  - apply TwoCaptcha_stub_accepts.
  - apply TwoCaptcha_stub_never_ready.
  - apply le_n.
Defined.

(* ================================================================== *)
(** ** Beyond the claims: what a ready poll returns *)
(* ================================================================== *)

Lemma CapSolver_poll_ready_with (self : Client) (h : list (string * string))
    (task_id : json) (d sol : dict) (w : World) :
  _session self = Some h ->
  CapSolver_ready_with (remote w) d ->
  dict_get_default d "solution" (JObj []) = JObj sol ->
  CapSolver_poll self task_id w =
  (Ok (Some (mkCaptchaSolution (CapSolver_token sol) task_id "capsolver"
               (dict_get_default d "cost" (JInt 0)))),
   record (Sent (CapSolver_poll_request self h task_id))
     (latency (remote w (trace w) (CapSolver_poll_request self h task_id)))
     w).
Proof.
  intros Hs (He & Hst & Hn) Hsol. unfold CapSolver_poll, bind.
  rewrite Hs, send_eq by reflexivity.
  fold (CapSolver_poll_request self h task_id).
  destruct (Hn (trace w) (CapSolver_poll_request self h task_id) eq_refl)
    as (resp & Hr & Hj).
  rewrite Hr. unfold resp_json. rewrite Hj.
  cbn [ret py_get]. rewrite He. cbn [negb]. rewrite Hst.
  cbn [py_eq_str String.eqb Ascii.eqb Bool.eqb].
  unfold py_get_default. rewrite Hsol.
  cbn [ret]. unfold or_else, bind. cbn [py_get ret].
  unfold CapSolver_token, py_or.
  destruct (truthy (dict_get sol "gRecaptchaResponse")); [reflexivity|].
  destruct (truthy (dict_get sol "token")); reflexivity.
Qed.

Lemma CapSolver_ready_with_run (fuel : nat) (self : Client)
    (h : list (string * string)) (task : dict) (timeout : Z) (w : World)
    (d sol : dict) :
  _session self = Some h ->
  CapSolver_accepts (remote w) ->
  CapSolver_ready_with (remote w) d ->
  dict_get_default d "solution" (JObj []) = JObj sol ->
  0 < timeout ->
  exists w' task_id,
    CapSolverClient._create_and_wait (S fuel) self task timeout w =
    (Ok (mkCaptchaSolution (CapSolver_token sol) task_id "capsolver"
           (dict_get_default d "cost" (JInt 0))), w')
    /\ requests (trace w') =
       CapSolver_poll_request self h task_id
       :: CapSolver_create_request self h task :: requests (trace w).
Proof.
  intros Hs Ha Hn Hsol Ht.
  destruct (CapSolver_create_accepted (S fuel) self h task timeout w Hs Ha)
    as (task_id & ->).
  set (w1 := record (Sent (CapSolver_create_request self h task)) _ w).
  set (w2 := record (Slept 3) (Z.max 0 3) w1).
  exists (record (Sent (CapSolver_poll_request self h task_id))
            (latency (remote w2 (trace w2)
                        (CapSolver_poll_request self h task_id))) w2),
    task_id.
  split; [|reflexivity].
  rewrite CapSolver_poll_loop_shape.
  apply poll_every_first; [exact Ht|].
  now apply CapSolver_poll_ready_with.
Qed.

(** X7: what [CapSolverClient._create_and_wait] makes of a "ready" poll.
    The token is the first truthy one of the solution's
    [gRecaptchaResponse], [token] and [text] (the last one, possibly
    [None], when none is); a missing [solution] reads as an empty one, so
    the token is [None]; the cost is the answer's [cost], and the int 0
    when the answer has none.  In every case a solution is returned, after
    the creation and this one poll. *)
Theorem X7_ready_poll_token_and_cost (fuel : nat) (self : Client)
    (h : list (string * string)) (task : dict) (timeout : Z) (w : World)
    (d sol : dict) :
  _session self = Some h ->
  CapSolver_accepts (remote w) ->
  CapSolver_ready_with (remote w) d ->
  dict_get_default d "solution" (JObj []) = JObj sol ->
  0 < timeout ->
  exists w' task_id,
    CapSolverClient._create_and_wait (S fuel) self task timeout w =
    (Ok (mkCaptchaSolution (CapSolver_token sol) task_id "capsolver"
           (dict_get_default d "cost" (JInt 0))), w')
    /\ requests (trace w') =
       CapSolver_poll_request self h task_id
       :: CapSolver_create_request self h task :: requests (trace w)
    /\ (truthy (dict_get sol "gRecaptchaResponse") = true ->
        CapSolver_token sol = dict_get sol "gRecaptchaResponse")
    /\ (truthy (dict_get sol "gRecaptchaResponse") = false ->
        truthy (dict_get sol "token") = true ->
        CapSolver_token sol = dict_get sol "token")
    /\ (truthy (dict_get sol "gRecaptchaResponse") = false ->
        truthy (dict_get sol "token") = false ->
        CapSolver_token sol = dict_get sol "text")
    /\ (dict_lookup d "solution" = None -> CapSolver_token sol = JNull)
    /\ (dict_lookup d "cost" = None ->
        dict_get_default d "cost" (JInt 0) = JInt 0).
Proof.
  intros Hs Ha Hn Hsol Ht.
  destruct (CapSolver_ready_with_run fuel self h task timeout w d sol
              Hs Ha Hn Hsol Ht) as (w' & task_id & H & Hq).
  exists w', task_id. split; [exact H|]. split; [exact Hq|].
  unfold CapSolver_token, py_or.
  split; [intros ->; reflexivity|].
  split; [intros -> ->; reflexivity|].
  split; [intros -> ->; reflexivity|].
  split.
  - intros Hl. unfold dict_get_default in Hsol. rewrite Hl in Hsol.
    inversion Hsol; subst. reflexivity.
  - intros Hl. unfold dict_get_default. now rewrite Hl.
Qed.

Lemma X7_ready_poll_witness :
  let self := mkClient "key-cs" (Some []) in
  let task := [("type", JStr "ImageToTextTask")] in
  let d := [("errorId", JInt 0); ("status", JStr "ready");
            ("solution", JObj [("text", JStr "w9h5k")])] in
  let w := fresh_world no_env (CapSolver_stub 0 d) in
  exists w' task_id,
    CapSolverClient._create_and_wait 1 self task 120 w =
    (Ok (mkCaptchaSolution (JStr "w9h5k") task_id "capsolver" (JInt 0)), w').
Proof.
  intros self task d w.
  destruct (X7_ready_poll_token_and_cost 0 self [] task 120 w d
              [("text", JStr "w9h5k")]) as (w' & task_id & H & _).
  - reflexivity.
  - apply CapSolver_stub_accepts.
  - split; [reflexivity|]. split; [reflexivity|].
    intros tr q Hq. now apply CapSolver_stub_polls.
  - reflexivity.
  - reflexivity.
  - exists w', task_id. exact H.
Defined.

(** X8: a log line can lose a solved CAPTCHA.  [solve_recaptcha_v2],
    [solve_recaptcha_v3] and [solve_hcaptcha] of [CaptchaSolver] format
    the cost of the solution as [.4f] before returning it.  When a
    [CapSolverClient] has obtained a solution whose cost is not a number
    (say the answer's [cost] is [null] or a string), they raise
    [TypeError] or [ValueError] instead of returning it, after the
    creation and the poll; [solve_turnstile], which formats nothing,
    returns the solution. *)
Theorem X8_unformattable_cost_loses_the_solution (fuel : nat)
    (self : CaptchaSolver.t) (c : Client) (h : list (string * string))
    (ch : Challenge) (w : World) (d sol : dict) :
  _session c = Some h ->
  CaptchaSolver._provider self = Some (CapSolver c) ->
  CapSolver_accepts (remote w) ->
  CapSolver_ready_with (remote w) d ->
  dict_get_default d "solution" (JObj []) = JObj sol ->
  formats_4f (dict_get_default d "cost" (JInt 0)) = false ->
  exists w' task_id create,
    requests (trace w') =
      CapSolver_poll_request c h task_id :: create :: requests (trace w)
    /\ match ch with
       | Turnstile _ _ =>
           CaptchaSolver_solve (S fuel) self ch w =
           (Ok (mkCaptchaSolution (CapSolver_token sol) task_id "capsolver"
                  (dict_get_default d "cost" (JInt 0))), w')
       | _ =>
           exists e,
             CaptchaSolver_solve (S fuel) self ch w = (Raise e, w')
             /\ (e = TypeError \/ exists msg, e = ValueError msg)
       end.
Proof.
  intros Hs Hp Ha Hn Hsol Hc.
  assert (Run : forall task,
             exists w' task_id,
               CapSolverClient._create_and_wait (S fuel) c task
                 CapSolverClient.default_timeout w =
               (Ok (mkCaptchaSolution (CapSolver_token sol) task_id
                      "capsolver" (dict_get_default d "cost" (JInt 0))), w')
               /\ requests (trace w') =
                  CapSolver_poll_request c h task_id
                  :: CapSolver_create_request c h task
                  :: requests (trace w))
    by (intros task; now apply (CapSolver_ready_with_run fuel c h task
                                  CapSolverClient.default_timeout w d sol)).
  assert (Fmt : forall w0 : World,
             exists e,
               @format_4f World (dict_get_default d "cost" (JInt 0)) w0
               = (Raise e, w0)
               /\ (e = TypeError \/ exists msg, e = ValueError msg)).
  { intros w0. destruct (dict_get_default d "cost" (JInt 0));
      try discriminate; cbn [format_4f];
      eexists; (split; [reflexivity|]); try (now left).
    right. eexists. reflexivity. }
  destruct ch as [site_key url invisible|site_key url action min_score
                 |site_key url|site_key url];
    cbn [CaptchaSolver_solve];
    unfold CaptchaSolver.solve_recaptcha_v2,
      CaptchaSolver.solve_recaptcha_v3, CaptchaSolver.solve_hcaptcha,
      CaptchaSolver.solve_turnstile;
    rewrite Hp; cbn [is_CapSolverClient negb];
    unfold CapSolverClient.solve_recaptcha_v2,
      CapSolverClient.solve_recaptcha_v3, CapSolverClient.solve_hcaptcha,
      CapSolverClient.solve_turnstile; cbv zeta;
    match goal with
    | |- context [CapSolverClient._create_and_wait _ _ ?task _] =>
        destruct (Run task) as (w' & task_id & H & Hq);
          exists w', task_id; eexists; (split; [exact Hq|]);
          try exact H;
          destruct (Fmt w') as (e & He & Hkind);
          exists e; (split; [|exact Hkind]);
          unfold bind; rewrite H; cbn [cost]; rewrite He; reflexivity
    end.
Qed.

Lemma X8_unformattable_cost_witness :
  let c := mkClient "key-cs" (Some []) in
  let self := CaptchaSolver.mk "capsolver" (Some (CapSolver c)) in
  let d := [("errorId", JInt 0); ("status", JStr "ready");
            ("solution", JObj [("gRecaptchaResponse", JStr "tok-123")]);
            ("cost", JNull)] in
  let w := fresh_world no_env (CapSolver_stub 0 d) in
  exists w' e,
    CaptchaSolver_solve 1 self
      (RecaptchaV2 "6Le-site-key" "https://example.com/signup" false) w
    = (Raise e, w')
    /\ (e = TypeError \/ exists msg, e = ValueError msg).
Proof.
  intros c self d w.
  destruct (X8_unformattable_cost_loses_the_solution 0 self c []
              (RecaptchaV2 "6Le-site-key" "https://example.com/signup" false)
              w d [("gRecaptchaResponse", JStr "tok-123")])
    as (w' & task_id & create & _ & e & H & Hk).
  - reflexivity.
  - reflexivity.
  - apply CapSolver_stub_accepts.
  - split; [reflexivity|]. split; [reflexivity|].
    intros tr q Hq. now apply CapSolver_stub_polls.
  - reflexivity.
  - reflexivity.
  - exists w', e. split; [exact H | exact Hk].
Defined.

(* ================================================================== *)
(** ** Beyond the claims: waiting for a code *)
(* ================================================================== *)

Section NeverACode.

Context {C : Type}.
Variables (poll : M World (option C)) (done cancel : M World unit).
Variables (msg : string) (timeout poll_interval : Z).
Variables (rem : list Event -> Request -> Reply) (q qc : Request).
Hypothesis Hpoll : forall w,
    remote w = rem ->
    poll w = (Ok None, record (Sent q) (latency (remote w (trace w) q)) w).
Hypothesis Hcancel : forall w,
    remote w = rem ->
    cancel w = (Ok tt, record (Sent qc) (latency (remote w (trace w) qc)) w).

(** Against a provider that never has a code the loop checks at once and
    then once per interval, until the counter reaches the timeout; then
    it cancels and raises. *)
Lemma wait_until_never (fuel : nat) :
  0 < poll_interval ->
  forall (e : Z) (w : World),
    remote w = rem ->
    (Z.to_nat (timeout - e) <= fuel)%nat ->
    exists w' n,
      wait_until poll done cancel msg timeout poll_interval fuel e w
      = (Raise (TimeoutError msg), w')
      /\ requests (trace w') = (qc :: repeat q n ++ requests (trace w))%list
      /\ slept (trace w') = poll_interval * Z.of_nat n + slept (trace w)
      /\ timed_out_after timeout poll_interval e
           (poll_interval * Z.of_nat n).
Proof.
  intros Hpi.
  assert (Past : forall fuel e w,
             remote w = rem -> timeout <= e ->
             exists w' n,
               wait_until poll done cancel msg timeout poll_interval fuel e w
               = (Raise (TimeoutError msg), w')
               /\ requests (trace w')
                  = (qc :: repeat q n ++ requests (trace w))%list
               /\ slept (trace w')
                  = poll_interval * Z.of_nat n + slept (trace w)
               /\ timed_out_after timeout poll_interval e
                    (poll_interval * Z.of_nat n)).
  { intros f e w Hr Ht.
    exists (record (Sent qc) (latency (remote w (trace w) qc)) w), 0%nat.
    rewrite wait_until_past by exact Ht.
    unfold bind. rewrite (Hcancel w Hr).
    split; [reflexivity|]. split; [reflexivity|].
    split; [cbn; lia|]. unfold timed_out_after. lia. }
  induction fuel as [|f IH]; intros e w Hr Hf;
    destruct (e <? timeout) eqn:E;
    try (apply Past; [exact Hr | now apply Z.ltb_ge]).
  - apply Z.ltb_lt in E. lia.
  - apply Z.ltb_lt in E.
    set (w0 := record (Sent q) (latency (remote w (trace w) q)) w).
    set (w1 := record (Slept poll_interval) (Z.max 0 poll_interval) w0).
    destruct (IH (e + poll_interval) w1) as (w' & n & H & Hq & Hsl & Ht).
    { exact Hr. }
    { lia. }
    exists w', (S n). split; [|split; [|split]].
    + cbn [wait_until].
      assert (E' : (e <? timeout) = true) by now apply Z.ltb_lt.
      rewrite E'. unfold bind at 1. rewrite (Hpoll w Hr). fold w0.
      unfold bind at 1. unfold sleep at 1. fold w1. exact H.
    + rewrite Hq. cbn [w1 w0 record trace requests].
      f_equal.
      change (q :: requests (trace w))
        with (([q] ++ requests (trace w))%list).
      rewrite app_assoc. f_equal.
      change [q] with (repeat q 1). rewrite <- repeat_app.
      f_equal. lia.
    + rewrite Hsl. cbn [w1 w0 record trace slept]. lia.
    + unfold timed_out_after in *. lia.
Qed.

End NeverACode.

(** [get_code] of the SMS-Activate client against a remote side that
    answers with the text [s]. *)
Lemma SMSActivate_get_code_text (self : Client) (h : list (string * string))
    (aid s : string) (w : World) :
  _session self = Some h ->
  answers_text w s ->
  SMSActivateClient.get_code self aid w =
  ((if startswith s "STATUS_OK:" then
      match split_colon s with
      | _ :: code :: _ => Ok (Some code)
      | _ => Raise IndexError
      end
    else if String.eqb s "STATUS_WAIT_CODE" then Ok None
    else if String.eqb s "STATUS_CANCEL" then
      Raise (PyException "Activation was cancelled")
    else Ok None),
   record (Sent (SMSActivate_check_request self h aid))
     (latency (remote w (trace w) (SMSActivate_check_request self h aid)))
     w).
Proof.
  intros Hs Ha. unfold SMSActivateClient.get_code, bind.
  rewrite (SMSActivate_request_eq self h) by (exact Hs || reflexivity).
  fold (SMSActivate_request self h "getStatus" [("id", JStr aid)]).
  fold (SMSActivate_check_request self h aid).
  destruct (Ha (trace w) (SMSActivate_check_request self h aid))
    as (resp & Hr & Ht).
  rewrite Hr, Ht.
  destruct (startswith s "STATUS_OK:").
  - destruct (split_colon s) as [|? [|? ?]]; reflexivity.
  - destruct (String.eqb s "STATUS_WAIT_CODE"); [reflexivity|].
    destruct (String.eqb s "STATUS_CANCEL"); reflexivity.
Qed.

Lemma answers_text_remote (w w' : World) (s : string) :
  remote w' = remote w -> answers_text w s -> answers_text w' s.
Proof.
  intros Hr Ha tr r. rewrite Hr. apply Ha.
Qed.

Lemma answers_text_response (w : World) (s : string) (tr : list Event)
    (q : Request) :
  answers_text w s -> response (remote w tr q) <> None.
Proof.
  intros Ha. destruct (Ha tr q) as (resp & -> & _). discriminate.
Qed.

(** A run of [wait_for_code] against a provider that answers every
    request with a text that is neither a code nor a cancellation. *)
Lemma SMSActivate_never_a_code (fuel : nat) (self : Client)
    (h : list (string * string)) (aid s : string)
    (timeout poll_interval : Z) (w : World) :
  _session self = Some h ->
  answers_text w s ->
  startswith s "STATUS_OK:" = false ->
  String.eqb s "STATUS_CANCEL" = false ->
  0 < poll_interval ->
  (Z.to_nat timeout <= fuel)%nat ->
  exists w' n,
    SMSActivateClient.wait_for_code fuel self aid timeout poll_interval w
    = (Raise (TimeoutError ("No code received within "
                            ++ string_of_Z timeout ++ " seconds")), w')
    /\ requests (trace w') =
       (SMSActivate_status_request self h aid 8
        :: repeat (SMSActivate_check_request self h aid) n
        ++ requests (trace w))%list
    /\ slept (trace w') = poll_interval * Z.of_nat n + slept (trace w)
    /\ timed_out_after timeout poll_interval 0 (poll_interval * Z.of_nat n).
Proof.
  intros Hs Ha Hok Hcancel Hpi Hf.
  unfold SMSActivateClient.wait_for_code.
  assert (Shape := SMSActivate_wait_loop_shape fuel self aid timeout
                     poll_interval 0 w).
  destruct (wait_until_never
              (c <- SMSActivateClient.get_code self aid ;;
               ret (SMSActivateClient.code_received c))
              (SMSActivateClient.set_status self aid "done")
              (SMSActivateClient.set_status self aid "cancel")
              ("No code received within " ++ string_of_Z timeout
               ++ " seconds") timeout poll_interval (remote w)
              (SMSActivate_check_request self h aid)
              (SMSActivate_status_request self h aid 8))
    with (fuel := fuel) (e := 0) (w := w) as (w' & n & H & Hq & Hsl & Ht).
  - intros w0 Hr. unfold bind.
    rewrite (SMSActivate_get_code_text self h aid s w0 Hs
               (answers_text_remote w w0 s Hr Ha)).
    rewrite Hok, Hcancel.
    destruct (String.eqb s "STATUS_WAIT_CODE"); reflexivity.
  - intros w0 Hr.
    apply (SMSActivate_set_status_eq self h aid "cancel" w0 Hs).
    apply (answers_text_response w0 s).
    exact (answers_text_remote w w0 s Hr Ha).
  - exact Hpi.
  - reflexivity.
  - now rewrite Z.sub_0_r.
  - exists w', n. rewrite Shape.
    split; [exact H|]. split; [exact Hq|]. split; [exact Hsl | exact Ht].
Qed.

(** X11: to the SMS-Activate client every status text other than
    [STATUS_OK:...] and [STATUS_CANCEL] means "no code yet", errors of the
    API included.  Against a provider that answers every request with such
    a text, [wait_for_code] checks [n] times, [n] being the least number
    of poll intervals that cover the timeout, then sends the one "cancel"
    notification and raises [TimeoutError]. *)
Theorem X11_unknown_status_is_waited_out (fuel : nat) (self : Client)
    (h : list (string * string)) (aid s : string)
    (timeout poll_interval : Z) (w : World) :
  _session self = Some h ->
  answers_text w s ->
  startswith s "STATUS_OK:" = false ->
  String.eqb s "STATUS_CANCEL" = false ->
  0 < poll_interval ->
  (Z.to_nat timeout <= fuel)%nat ->
  exists w' n,
    SMSActivateClient.wait_for_code fuel self aid timeout poll_interval w
    = (Raise (TimeoutError ("No code received within "
                            ++ string_of_Z timeout ++ " seconds")), w')
    /\ requests (trace w') =
       (SMSActivate_status_request self h aid 8
        :: repeat (SMSActivate_check_request self h aid) n
        ++ requests (trace w))%list
    /\ slept (trace w') = poll_interval * Z.of_nat n + slept (trace w)
    /\ timed_out_after timeout poll_interval 0 (poll_interval * Z.of_nat n).
Proof.
  exact (SMSActivate_never_a_code fuel self h aid s timeout poll_interval
           w).
Qed.

Lemma X11_unknown_status_witness :
  let self := mkClient "key-sa" (Some []) in
  let w := fresh_world no_env (text_stub "BAD_KEY") in
  exists w' n,
    SMSActivateClient.wait_for_code 20 self "77" 20 5 w
    = (Raise (TimeoutError "No code received within 20 seconds"), w')
    /\ requests (trace w') =
       (SMSActivate_status_request self [] "77" 8
        :: repeat (SMSActivate_check_request self [] "77") n
        ++ requests (trace w))%list
    /\ slept (trace w') = 5 * Z.of_nat n + slept (trace w)
    /\ timed_out_after 20 5 0 (5 * Z.of_nat n).
Proof.
  intros self w.
  apply (X11_unknown_status_is_waited_out 20 self [] "77" "BAD_KEY" 20 5 w).
  - reflexivity.
  - intros tr r. eexists. split; reflexivity.
  - reflexivity.
  - reflexivity.
  - reflexivity.
  - apply le_n.
Defined.

(* ================================================================== *)
(** ** Beyond the claims: reading the provider's text *)
(* ================================================================== *)

Lemma append_snoc (cur : string) (c : ascii) (s : string) :
  ((cur ++ String c "") ++ s = cur ++ String c s)%string.
Proof.
  induction cur as [|c' cur IH]; cbn; [reflexivity | now rewrite IH].
Qed.

Lemma append_empty_r (s : string) : (s ++ "" = s)%string.
Proof.
  induction s as [|c s IH]; cbn; [reflexivity | now rewrite IH].
Qed.

Lemma split_colon_aux_no_colon (s : string) :
  no_colon s = true -> forall cur, split_colon_aux s cur = [(cur ++ s)%string].
Proof.
  induction s as [|c s IH]; cbn; intros H cur.
  - now rewrite append_empty_r.
  - apply andb_prop in H. destruct H as [Hc Hs].
    destruct (Ascii.eqb c ":"%char); [discriminate|].
    rewrite (IH Hs). now rewrite append_snoc.
Qed.

Lemma split_colon_aux_field (a b : string) :
  no_colon a = true ->
  forall cur,
    split_colon_aux (a ++ String ":"%char b) cur
    = (cur ++ a)%string :: split_colon_aux b "".
Proof.
  induction a as [|c a IH]; cbn; intros H cur.
  - now rewrite append_empty_r.
  - apply andb_prop in H. destruct H as [Hc Ha].
    destruct (Ascii.eqb c ":"%char); [discriminate|].
    rewrite (IH Ha). now rewrite append_snoc.
Qed.

Lemma prefix_append (p s : string) : String.prefix p (p ++ s) = true.
Proof.
  induction p as [|c p IH]; cbn.
  - now destruct s.
  - destruct (ascii_dec c c) as [_|N]; [exact IH | now destruct N].
Qed.

(** X12: an activation the provider has cancelled.  When the status
    check is answered [STATUS_CANCEL], [wait_for_code] of the SMS-Activate
    client raises [Exception("Activation was cancelled")] at that check:
    the check is the only request of the call, no "done" or "cancel"
    notification is sent, and nothing is slept. *)
Theorem X12_cancelled_activation_raises (fuel : nat) (self : Client)
    (h : list (string * string)) (aid : string)
    (timeout poll_interval : Z) (w : World) :
  _session self = Some h ->
  answers_text w "STATUS_CANCEL" ->
  0 < timeout ->
  SMSActivateClient.wait_for_code (S fuel) self aid timeout poll_interval w
  = (Raise (PyException "Activation was cancelled"),
     record (Sent (SMSActivate_check_request self h aid))
       (latency (remote w (trace w) (SMSActivate_check_request self h aid)))
       w).
Proof.
  intros Hs Ha Ht.
  unfold SMSActivateClient.wait_for_code. cbn [SMSActivateClient.wait_loop].
  assert (E : (0 <? timeout) = true) by now apply Z.ltb_lt.
  rewrite E. unfold bind.
  rewrite (SMSActivate_get_code_text self h aid "STATUS_CANCEL" w Hs Ha).
  reflexivity.
Qed.

Lemma X12_cancelled_activation_witness :
  let self := mkClient "key-sa" (Some []) in
  let w := fresh_world no_env (text_stub "STATUS_CANCEL") in
  SMSActivateClient.wait_for_code 1 self "77" 120 5 w
  = (Raise (PyException "Activation was cancelled"),
     record (Sent (SMSActivate_check_request self [] "77")) 0 w).
Proof.
  intros self w.
  apply (X12_cancelled_activation_raises 0 self [] "77" 120 5 w).
  - reflexivity.
  - intros tr r. eexists. split; reflexivity.
  - reflexivity.
Defined.

(** A run of [wait_for_code] against a provider that has the code at
    the first check. *)
Lemma SMSActivate_code_at_first_check (fuel : nat) (self : Client)
    (h : list (string * string)) (aid code : string)
    (timeout poll_interval : Z) (w : World) :
  _session self = Some h ->
  answers_text w ("STATUS_OK:" ++ code) ->
  no_colon code = true ->
  code <> ""%string ->
  0 < timeout ->
  exists w',
    SMSActivateClient.wait_for_code (S fuel) self aid timeout poll_interval w
    = (Ok code, w')
    /\ requests (trace w') =
       SMSActivate_status_request self h aid 6
       :: SMSActivate_check_request self h aid :: requests (trace w)
    /\ slept (trace w') = slept (trace w).
Proof.
  intros Hs Ha Hnc Hne Ht.
  set (w1 := record (Sent (SMSActivate_check_request self h aid))
               (latency (remote w (trace w)
                           (SMSActivate_check_request self h aid))) w).
  assert (Ha1 : answers_text w1 ("STATUS_OK:" ++ code))
    by (apply (answers_text_remote w); [reflexivity | exact Ha]).
  exists (record (Sent (SMSActivate_status_request self h aid 6))
            (latency (remote w1 (trace w1)
                        (SMSActivate_status_request self h aid 6))) w1).
  split; [|split; reflexivity].
  unfold SMSActivateClient.wait_for_code. cbn [SMSActivateClient.wait_loop].
  assert (E : (0 <? timeout) = true) by now apply Z.ltb_lt.
  rewrite E. unfold bind at 1.
  rewrite (SMSActivate_get_code_text self h aid _ w Hs Ha). fold w1.
  unfold startswith. rewrite prefix_append.
  assert (Hsp : split_colon ("STATUS_OK:" ++ code) = ["STATUS_OK"; code]).
  { unfold split_colon.
    change ("STATUS_OK:" ++ code)%string
      with ("STATUS_OK" ++ String ":"%char code)%string.
    rewrite split_colon_aux_field by reflexivity.
    now rewrite split_colon_aux_no_colon by exact Hnc. }
  rewrite Hsp. cbn [SMSActivateClient.code_received].
  destruct (String.eqb code "") eqn:Ec;
    [apply String.eqb_eq in Ec; now destruct Hne|].
  unfold bind.
  rewrite (SMSActivate_set_status_eq self h aid "done" w1 Hs
             (answers_text_response w1 _ _ _ Ha1)).
  reflexivity.
Qed.

(** X13: a code that is already there.  When the first status check is
    answered [STATUS_OK:<code>], with a non-empty code free of colons,
    [wait_for_code] of the SMS-Activate client returns exactly that code
    after the check and the "done" notification, without sleeping at
    all: the first check is made at once. *)
Theorem X13_code_at_first_check (fuel : nat) (self : Client)
    (h : list (string * string)) (aid code : string)
    (timeout poll_interval : Z) (w : World) :
  _session self = Some h ->
  answers_text w ("STATUS_OK:" ++ code) ->
  no_colon code = true ->
  code <> ""%string ->
  0 < timeout ->
  exists w',
    SMSActivateClient.wait_for_code (S fuel) self aid timeout poll_interval w
    = (Ok code, w')
    /\ requests (trace w') =
       SMSActivate_status_request self h aid 6
       :: SMSActivate_check_request self h aid :: requests (trace w)
    /\ slept (trace w') = slept (trace w).
Proof.
  exact (SMSActivate_code_at_first_check fuel self h aid code timeout
           poll_interval w).
Qed.

Lemma X13_code_at_first_check_witness :
  let self := mkClient "key-sa" (Some []) in
  let w := fresh_world no_env (text_stub "STATUS_OK:482913") in
  exists w',
    SMSActivateClient.wait_for_code 1 self "77" 120 5 w = (Ok "482913", w')
    /\ requests (trace w') =
       SMSActivate_status_request self [] "77" 6
       :: SMSActivate_check_request self [] "77" :: requests (trace w)
    /\ slept (trace w') = slept (trace w).
Proof.
  intros self w.
  apply (X13_code_at_first_check 0 self [] "77" "482913" 120 5 w).
  - reflexivity.
  - intros tr r. eexists. split; reflexivity.
  - reflexivity.
  - discriminate.
  - reflexivity.
Defined.

Lemma SMSService_get_number_SMSActivate (self : SMSService.t) (c : Client)
    (service country : string) (w : World) :
  SMSService._provider self = Some (SMSActivate c) ->
  SMSService.get_number service country (self, w) =
  match SMSActivateClient.get_number c service
          (fst (SMSService.country_map_get SMSService.country_map
                  (lower country) (country, country))) w with
  | (Ok p, w') =>
      (Ok p, (SMSService.mk (SMSService.preferred_provider self)
                (SMSService._provider self) (Some p), w'))
  | (Raise e, w') => (Raise e, (self, w'))
  | (Stuck x, w') => (Stuck x, (self, w'))
  end.
Proof.
  destruct self as [pref prov phone]. cbn [SMSService._provider].
  intros ->.
  unfold SMSService.get_number, SMSService.set_current_phone, bind, get_self,
    set_self, lift, ret.
  cbn [SMSService._provider SMSService.preferred_provider
         is_SMSActivateClient].
  destruct (SMSActivateClient.get_number _ _ _ w) as [[p|e|x] w1];
    reflexivity.
Qed.

(** X10: leasing a number from SMS-Activate.  When the provider answers
    [ACCESS_NUMBER:<id>:<number>] (both fields free of colons),
    [SMSService.get_number] returns and stores the phone with that number
    and activation id, and every request of a [wait_for_code] made on the
    broker afterwards is about that id.  When the answer stops after the
    id, it raises [IndexError] and the broker is left as it was. *)
Theorem X10_access_number_is_read_back (self : SMSService.t) (c : Client)
    (h : list (string * string)) (service country id number : string)
    (w : World) :
  SMSService._provider self = Some (SMSActivate c) ->
  _session c = Some h ->
  no_colon id = true ->
  (no_colon number = true ->
   answers_text w ("ACCESS_NUMBER:" ++ id ++ ":" ++ number) ->
   exists p self' w',
     SMSService.get_number service country (self, w) = (Ok p, (self', w'))
     /\ PhoneNumber.number p = JStr number
     /\ PhoneNumber.activation_id p = id
     /\ PhoneNumber.provider p = "sms-activate"
     /\ SMSService._current_phone self' = Some p
     /\ forall fuel timeout w2 r w3,
          SMSService.wait_for_code fuel self' timeout w2 = (r, w3) ->
          exists delta,
            trace w3 = (delta ++ trace w2)%list
            /\ Forall (concerns id) (requests delta))
  /\ (answers_text w ("ACCESS_NUMBER:" ++ id) ->
      exists w',
        SMSService.get_number service country (self, w)
        = (Raise IndexError, (self, w'))).
Proof.
  intros Hp Hs Hid.
  set (cc := fst (SMSService.country_map_get SMSService.country_map
                    (lower country) (country, country))).
  split.
  - intros Hnum Ha.
    destruct (SMSActivate_get_number_text c h service cc _ w Hs Ha)
      as (w' & Hg & _).
    unfold startswith in Hg. rewrite prefix_append in Hg.
    assert (Hsp : split_colon ("ACCESS_NUMBER:" ++ id ++ ":" ++ number)
                  = ["ACCESS_NUMBER"; id; number]).
    { unfold split_colon.
      change ("ACCESS_NUMBER:" ++ id ++ ":" ++ number)%string
        with ("ACCESS_NUMBER"
              ++ String ":"%char (id ++ String ":"%char number))%string.
      rewrite split_colon_aux_field by reflexivity.
      rewrite split_colon_aux_field by exact Hid.
      now rewrite split_colon_aux_no_colon by exact Hnum. }
    rewrite Hsp in Hg.
    eexists; eexists; exists w'.
    split.
    { rewrite (SMSService_get_number_SMSActivate self c service country w Hp).
      fold cc. rewrite Hg. reflexivity. }
    split; [reflexivity|]. split; [reflexivity|]. split; [reflexivity|].
    split; [reflexivity|].
    intros fuel timeout w2 r w3 H.
    unfold SMSService.wait_for_code in H.
    cbn [SMSService._current_phone SMSService._provider
           PhoneNumber.activation_id] in H.
    rewrite Hp in H.
    destruct (bind_inv _ _ _ _ _ H)
      as [(a & w4 & H1 & H2)|[(x & H1 & ->)|(x & H1 & ->)]].
    + inversion H2; subst.
      now apply SMSActivate_wait_for_code_concerns in H1.
    + now apply SMSActivate_wait_for_code_concerns in H1.
    + now apply SMSActivate_wait_for_code_concerns in H1.
  - intros Ha.
    destruct (SMSActivate_get_number_text c h service cc _ w Hs Ha)
      as (w' & Hg & _).
    unfold startswith in Hg. rewrite prefix_append in Hg.
    assert (Hsp : split_colon ("ACCESS_NUMBER:" ++ id)
                  = ["ACCESS_NUMBER"; id]).
    { unfold split_colon.
      change ("ACCESS_NUMBER:" ++ id)%string
        with ("ACCESS_NUMBER" ++ String ":"%char id)%string.
      rewrite split_colon_aux_field by reflexivity.
      now rewrite split_colon_aux_no_colon by exact Hid. }
    rewrite Hsp in Hg.
    exists w'.
    rewrite (SMSService_get_number_SMSActivate self c service country w Hp).
    fold cc. rewrite Hg. reflexivity.
Qed.

Lemma X10_access_number_witness :
  let c := mkClient "key-sa" (Some []) in
  let self := SMSService.mk "sms-activate" (Some (SMSActivate c)) None in
  let w := fresh_world no_env always_a_number in
  exists p self' w',
    SMSService.get_number "google" "russia" (self, w) = (Ok p, (self', w'))
    /\ PhoneNumber.number p = JStr "79991234567"
    /\ PhoneNumber.activation_id p = "502".
Proof.
  intros c self w.
  destruct (proj1 (X10_access_number_is_read_back self c [] "google" "russia"
                     "502" "79991234567" w eq_refl eq_refl eq_refl))
    as (p & self' & w' & H & Hn & Hi & _).
  - reflexivity.
  - intros tr r. eexists. split; reflexivity.
  - exists p, self', w'. now repeat split.
Defined.

(* ================================================================== *)
(** ** Beyond the claims: names of services and countries *)
(* ================================================================== *)

Lemma lower_ascii_idem (c : ascii) : lower_ascii (lower_ascii c) = lower_ascii c.
Proof.
  destruct c as [[] [] [] [] [] [] [] []]; reflexivity.
Qed.

Lemma lower_idem (s : string) : lower (lower s) = lower s.
Proof.
  induction s as [|c s IH]; cbn; [reflexivity|].
  now rewrite lower_ascii_idem, IH.
Qed.

Lemma table_get_known (tbl : list (string * string)) (k d1 d2 : string) :
  In k (map fst tbl) -> table_get tbl k d1 = table_get tbl k d2.
Proof.
  induction tbl as [|[k' v] tbl IH]; cbn; intros H; [now destruct H|].
  destruct (String.eqb k' k) eqn:E; [reflexivity|].
  destruct H as [H|H]; [|now apply IH].
  subst k'. now rewrite String.eqb_refl in E.
Qed.

Lemma table_get_unknown (tbl : list (string * string)) (k d : string) :
  ~ In k (map fst tbl) -> table_get tbl k d = d.
Proof.
  induction tbl as [|[k' v] tbl IH]; cbn; intros H; [reflexivity|].
  destruct (String.eqb k' k) eqn:E.
  - apply String.eqb_eq in E. destruct H. now left.
  - apply IH. intros H'. apply H. now right.
Qed.

Lemma country_map_get_known (tbl : list (string * (string * string)))
    (k : string) (d1 d2 : string * string) :
  In k (map fst tbl) ->
  SMSService.country_map_get tbl k d1 = SMSService.country_map_get tbl k d2.
Proof.
  induction tbl as [|[k' v] tbl IH]; cbn; intros H; [now destruct H|].
  destruct (String.eqb k' k) eqn:E; [reflexivity|].
  destruct H as [H|H]; [|now apply IH].
  subst k'. now rewrite String.eqb_refl in E.
Qed.

Lemma country_map_get_unknown (tbl : list (string * (string * string)))
    (k : string) (d : string * string) :
  ~ In k (map fst tbl) -> SMSService.country_map_get tbl k d = d.
Proof.
  induction tbl as [|[k' v] tbl IH]; cbn; intros H; [reflexivity|].
  destruct (String.eqb k' k) eqn:E.
  - apply String.eqb_eq in E. destruct H. now left.
  - apply IH. intros H'. apply H. now right.
Qed.

(** X14: names are looked up in lower case and sent as written when the
    lookup fails.  A service whose lower-case spelling is in a client's
    [SERVICES] is leased exactly as that lower-case spelling would be, and
    a country whose lower-case spelling is in the broker's [country_map]
    likewise; an ASCII service name that is not in the table goes to
    SMS-Activate in the caller's own spelling, upper case included. *)
Theorem X14_names_are_matched_in_lower_case :
  (forall (self : Client) (service country : string) (w : World),
      In (lower service) (map fst SMSActivateClient.SERVICES) ->
      SMSActivateClient.get_number self service country w
      = SMSActivateClient.get_number self (lower service) country w)
  /\ (forall (self : Client) (service country operator : string) (w : World),
      In (lower service) (map fst FiveSimClient.SERVICES) ->
      FiveSimClient.get_number self service country operator w
      = FiveSimClient.get_number self (lower service) country operator w)
  /\ (forall (self : SMSService.t) (service country : string) (w : World),
      In (lower country) (map fst SMSService.country_map) ->
      SMSService.get_number service country (self, w)
      = SMSService.get_number service (lower country) (self, w))
  /\ (forall (self : Client) (h : list (string * string))
             (service country : string) (w w' : World)
             (r : outcome PhoneNumber.t),
      is_ascii service = true ->
      ~ In (lower service) (map fst SMSActivateClient.SERVICES) ->
      _session self = Some h ->
      SMSActivateClient.get_number self service country w = (r, w') ->
      requests (trace w') =
      SMSActivate_request self h "getNumber"
        [("service", JStr service); ("country", JStr country)]
      :: requests (trace w)).
Proof.
  split; [|split; [|split]].
  - intros self service country w Hin.
    unfold SMSActivateClient.get_number.
    rewrite lower_idem.
    now rewrite (table_get_known _ _ service (lower service) Hin).
  - intros self service country operator w Hin.
    unfold FiveSimClient.get_number.
    rewrite lower_idem.
    now rewrite (table_get_known _ _ service (lower service) Hin).
  - intros self service country w Hin.
    unfold SMSService.get_number.
    rewrite lower_idem.
    now rewrite (country_map_get_known _ _ (country, country)
                   (lower country, lower country) Hin).
  - intros self h service country w w' r _ Hin Hs H.
    unfold SMSActivateClient.get_number in H.
    rewrite (table_get_unknown _ _ service Hin) in H.
    destruct (bind_inv _ _ _ _ _ H)
      as [(a & w1 & H1 & H2)|[(x & H1 & ->)|(x & H1 & ->)]];
      rewrite (SMSActivate_request_eq self h) in H1
        by (exact Hs || reflexivity);
      inversion H1; subst; clear H1.
    + assert (w' = record
                (Sent (SMSActivate_request self h "getNumber"
                         [("service", JStr service);
                          ("country", JStr country)]))
                (latency (remote w (trace w)
                            (SMSActivate_request self h "getNumber"
                               [("service", JStr service);
                                ("country", JStr country)]))) w).
      { repeat match type of H2 with
               | context [if ?b then _ else _] => destruct b
               | context [match ?x with _ => _ end] => destruct x
               end; now inversion H2. }
      subst w'. reflexivity.
    + reflexivity.
    + reflexivity.
Qed.

Lemma X14_names_witness :
  let self := mkClient "key-sa" (Some []) in
  let w := fresh_world no_env always_a_number in
  SMSActivateClient.get_number self "GMail" "0" w
  = SMSActivateClient.get_number self "gmail" "0" w.
Proof.
  intros self w.
  apply (proj1 X14_names_are_matched_in_lower_case self "GMail" "0" w).
  cbn. tauto.
Defined.

(* ================================================================== *)
(** ** Beyond the claims: the 5sim client *)
(* ================================================================== *)

Lemma SMSService_get_number_FiveSim (self : SMSService.t) (c : Client)
    (service country : string) (w : World) :
  SMSService._provider self = Some (FiveSim c) ->
  SMSService.get_number service country (self, w) =
  match FiveSimClient.get_number c service (FiveSim_country country) "any" w
  with
  | (Ok p, w') =>
      (Ok p, (SMSService.mk (SMSService.preferred_provider self)
                (SMSService._provider self) (Some p), w'))
  | (Raise e, w') => (Raise e, (self, w'))
  | (Stuck x, w') => (Stuck x, (self, w'))
  end.
Proof.
  destruct self as [pref prov phone]. cbn [SMSService._provider].
  intros ->.
  unfold SMSService.get_number, SMSService.set_current_phone, bind, get_self,
    set_self, lift, ret, FiveSim_country.
  cbn [SMSService._provider SMSService.preferred_provider
         is_SMSActivateClient].
  destruct (FiveSimClient.get_number _ _ _ _ w) as [[p|e|x] w1];
    reflexivity.
Qed.

(** X17: buying a number from 5sim, for ASCII names of the service and
    the country.  [SMSService.get_number] with a [FiveSimClient] sends one
    GET to
    [/user/buy/activation/<country>/any/<service>], the country being the
    5sim name of the broker's [country_map] and the operator always
    ["any"].  An answer whose HTTP status is not 200 raises
    [Exception("Failed to get number: <body>")] without reading the body
    as JSON; a 200 answer without a [phone] raises [KeyError]; in both
    cases the broker is left as it was. *)
Theorem X17_fivesim_buy_errors (self : SMSService.t) (c : Client)
    (h : list (string * string)) (service country : string) (w : World)
    (resp : Response) :
  is_ascii service = true ->
  is_ascii country = true ->
  SMSService._provider self = Some (FiveSim c) ->
  _session c = Some h ->
  let q := FiveSim_buy_request h (FiveSim_country country) "any"
             (FiveSim_service service) in
  response (remote w (trace w) q) = Some resp ->
  (rs_status resp <> 200 ->
   SMSService.get_number service country (self, w)
   = (Raise (PyException ("Failed to get number: " ++ rs_text resp)),
      (self, record (Sent q) (latency (remote w (trace w) q)) w)))
  /\ (forall d,
        rs_status resp = 200 ->
        rs_json resp = Some (JObj d) ->
        dict_lookup d "phone" = None ->
        SMSService.get_number service country (self, w)
        = (Raise (KeyError "phone"),
           (self, record (Sent q) (latency (remote w (trace w) q)) w))).
Proof.
  intros _ _ Hp Hs q Hr.
  assert (Hsend : send (_session c) GET (rq_url q) [] None w
                  = (Ok resp, record (Sent q) (latency (remote w (trace w) q))
                                w)).
  { rewrite Hs, send_eq by reflexivity.
    change (mkRequest GET (rq_url q) h [] None) with q. now rewrite Hr. }
  split.
  - intros Hst.
    rewrite (SMSService_get_number_FiveSim self c service country w Hp).
    unfold FiveSimClient.get_number, bind.
    change (FiveSimClient.BASE_URL ++ "/user/buy/activation/"
            ++ FiveSim_country country ++ "/" ++ "any" ++ "/"
            ++ table_get FiveSimClient.SERVICES (lower service) service)
      with (rq_url q).
    rewrite Hsend.
    destruct (rs_status resp =? 200) eqn:E;
      [apply Z.eqb_eq in E; now destruct Hst|].
    reflexivity.
  - intros d Hst Hj Hl.
    rewrite (SMSService_get_number_FiveSim self c service country w Hp).
    unfold FiveSimClient.get_number, bind.
    change (FiveSimClient.BASE_URL ++ "/user/buy/activation/"
            ++ FiveSim_country country ++ "/" ++ "any" ++ "/"
            ++ table_get FiveSimClient.SERVICES (lower service) service)
      with (rq_url q).
    rewrite Hsend, Hst. cbn [Z.eqb Pos.eqb negb].
    unfold resp_json. rewrite Hj. cbn [ret py_item]. rewrite Hl.
    reflexivity.
Qed.

Lemma X17_fivesim_buy_witness :
  let c := mkClient "key-5s" (Some [("Authorization", "Bearer key-5s")]) in
  let self := SMSService.mk "5sim" (Some (FiveSim c)) None in
  let resp := mkResponse 400 "no free phones" None WrongContentType in
  let w := fresh_world no_env (fun _ _ => mkReply 1 (Some resp)) in
  SMSService.get_number "Gmail" "UK" (self, w)
  = (Raise (PyException "Failed to get number: no free phones"),
     (self,
      record (Sent (mkRequest GET
                      "https://5sim.net/v1/user/buy/activation/england/any/google"
                      [("Authorization", "Bearer key-5s")] [] None)) 1 w)).
Proof.
  intros c self resp w.
  apply (proj1 (X17_fivesim_buy_errors self c
                  [("Authorization", "Bearer key-5s")] "Gmail" "UK" w resp
                  eq_refl eq_refl eq_refl eq_refl eq_refl)).
  discriminate.
Defined.

Lemma FiveSim_get_code_json (self : Client) (h : list (string * string))
    (aid : string) (d : dict) (w : World) :
  _session self = Some h ->
  replies_json (remote w) (trace w) (FiveSim_request h "check" aid) d ->
  FiveSimClient.get_code self aid w =
  (if truthy (dict_get d "sms") then
     l <- py_item (JObj d) "sms" ;;
     sms <- py_item0 l ;;
     or_else (py_get sms "code") (py_get sms "text")
   else ret JNull)
    (record (Sent (FiveSim_request h "check" aid))
       (latency (remote w (trace w) (FiveSim_request h "check" aid))) w).
Proof.
  intros Hs (resp & Hr & Hj).
  unfold FiveSimClient.get_code, bind at 1.
  rewrite Hs, send_eq by reflexivity.
  change (mkRequest GET (FiveSimClient.BASE_URL ++ "/user/check/" ++ aid)
            h [] None) with (FiveSim_request h "check" aid).
  rewrite Hr. unfold bind at 1, resp_json. rewrite Hj.
  reflexivity.
Qed.

(** The 5sim client against a provider whose answer holds an SMS. *)
Lemma FiveSim_first_sms_run (fuel : nat) (self : Client)
    (h : list (string * string)) (aid : string) (timeout poll_interval : Z)
    (w : World) (d m : dict) (rest : list json) :
  _session self = Some h ->
  answers_json w d ->
  dict_lookup d "sms" = Some (JList (JObj m :: rest)) ->
  let c := py_or (dict_get m "code") (dict_get m "text") in
  let w1 := record (Sent (FiveSim_request h "check" aid))
              (latency (remote w (trace w) (FiveSim_request h "check" aid)))
              w in
  FiveSimClient.get_code self aid w = (Ok c, w1)
  /\ (truthy c = true ->
      0 < timeout ->
      exists w',
        FiveSimClient.wait_for_code (S fuel) self aid timeout poll_interval w
        = (Ok c, w')
        /\ requests (trace w') =
           FiveSim_request h "finish" aid
           :: FiveSim_request h "check" aid :: requests (trace w)
        /\ slept (trace w') = slept (trace w)).
Proof.
  intros Hs Ha Hl c w1.
  assert (Hg : FiveSimClient.get_code self aid w = (Ok c, w1)).
  { rewrite (FiveSim_get_code_json self h aid d w Hs (Ha _ _)).
    fold w1. unfold dict_get at 1. rewrite Hl. cbn [truthy].
    unfold bind at 1. cbn [py_item]. rewrite Hl. cbn [ret].
    unfold bind at 1. cbn [py_item0 ret].
    unfold or_else, bind, py_get, ret. subst c. unfold py_or.
    now destruct (truthy (dict_get m "code")). }
  split; [exact Hg|].
  intros Hc Ht.
  exists (record (Sent (FiveSim_request h "finish" aid))
            (latency (remote w1 (trace w1) (FiveSim_request h "finish" aid)))
            w1).
  split; [|split; reflexivity].
  unfold FiveSimClient.wait_for_code. cbn [FiveSimClient.wait_loop].
  assert (E : (0 <? timeout) = true) by now apply Z.ltb_lt.
  rewrite E. unfold bind at 1. rewrite Hg, Hc.
  unfold FiveSimClient.finish.
  change (FiveSimClient.BASE_URL ++ "/user/finish/" ++ aid)
    with (FiveSimClient.BASE_URL ++ "/user/" ++ "finish" ++ "/" ++ aid).
  unfold bind at 1.
  rewrite (FiveSim_notify_eq self h "finish" aid w1 Hs).
  - reflexivity.
  - destruct (Ha (trace w1) (FiveSim_request h "finish" aid))
      as (resp & Hr & _).
    change (remote w1) with (remote w). now rewrite Hr.
Qed.

(** X16: which SMS the 5sim client reads.  When the check is answered
    with a non-empty [sms] list whose first entry is an object, [get_code]
    yields that entry's [code], or its [text] when the code is missing or
    empty, whatever the later entries hold; when that value is truthy
    [wait_for_code] returns it after the check and the [finish]
    notification, without sleeping. *)
Theorem X16_fivesim_reads_first_sms (fuel : nat) (self : Client)
    (h : list (string * string)) (aid : string) (timeout poll_interval : Z)
    (w : World) (d m : dict) (rest : list json) :
  _session self = Some h ->
  answers_json w d ->
  dict_lookup d "sms" = Some (JList (JObj m :: rest)) ->
  let c := py_or (dict_get m "code") (dict_get m "text") in
  let w1 := record (Sent (FiveSim_request h "check" aid))
              (latency (remote w (trace w) (FiveSim_request h "check" aid)))
              w in
  FiveSimClient.get_code self aid w = (Ok c, w1)
  /\ (truthy c = true ->
      0 < timeout ->
      exists w',
        FiveSimClient.wait_for_code (S fuel) self aid timeout poll_interval w
        = (Ok c, w')
        /\ requests (trace w') =
           FiveSim_request h "finish" aid
           :: FiveSim_request h "check" aid :: requests (trace w)
        /\ slept (trace w') = slept (trace w)).
Proof.
  exact (FiveSim_first_sms_run fuel self h aid timeout poll_interval w d m
           rest).
Qed.

Lemma X16_fivesim_first_sms_witness :
  let self := mkClient "key-5s" (Some [("Authorization", "Bearer key-5s")]) in
  let first := [("code", JStr ""); ("text", JStr "Your code is 4711")] in
  let d := [("id", JInt 9);
            ("sms", JList [JObj first; JObj [("code", JStr "0815")]])] in
  let w := fresh_world no_env (json_stub d) in
  exists w',
    FiveSimClient.wait_for_code 1 self "9" 120 5 w
    = (Ok (JStr "Your code is 4711"), w')
    /\ requests (trace w') =
       FiveSim_request [("Authorization", "Bearer key-5s")] "finish" "9"
       :: FiveSim_request [("Authorization", "Bearer key-5s")] "check" "9"
       :: requests (trace w)
    /\ slept (trace w') = slept (trace w).
Proof.
  intros self first d w.
  apply (proj2 (X16_fivesim_reads_first_sms 0 self
                  [("Authorization", "Bearer key-5s")] "9" 120 5 w d first
                  [JObj [("code", JStr "0815")]]
                  eq_refl
                  (fun tr q => ex_intro _ _ (conj eq_refl eq_refl))
                  eq_refl)).
  - reflexivity.
  - reflexivity.
Defined.

(* ================================================================== *)
(** ** Beyond the claims: the bot that uses the two brokers *)
(* ================================================================== *)

Lemma SMSService_aenter_default (w : World) :
  SMSService.__aenter__ (SMSService.__init__ "sms-activate", w) =
  (match SMSService._provider (entered_sms w) with
   | Some _ => Ok tt
   | None => Raise (ValueError SMSService.no_provider_msg)
   end, (entered_sms w, w)).
Proof.
  unfold entered_sms.
  destruct (env_key w "SMS_ACTIVATE_API_KEY") as [k|] eqn:Ep.
  - now rewrite (SMSService_aenter_preferred (SMSService.__init__ "sms-activate") w k Ep).
  - destruct (env_key w "FIVESIM_API_KEY") as [k|] eqn:Ea.
    + now rewrite (SMSService_aenter_alternate (SMSService.__init__ "sms-activate") w k Ep Ea).
    + now rewrite (SMSService_aenter_none (SMSService.__init__ "sms-activate") w Ep Ea).
Qed.

Lemma CaptchaSolver_aenter_default (w : World) :
  CaptchaSolver.__aenter__ (CaptchaSolver.__init__ "capsolver", w) =
  (match CaptchaSolver._provider (entered_captcha w) with
   | Some _ => Ok tt
   | None => Raise (ValueError CaptchaSolver.no_provider_msg)
   end, (entered_captcha w, w)).
Proof.
  unfold entered_captcha.
  destruct (env_key w "CAPSOLVER_API_KEY") as [k|] eqn:Ep.
  - now rewrite (CaptchaSolver_aenter_preferred (CaptchaSolver.__init__ "capsolver") w k Ep).
  - destruct (env_key w "TWO_CAPTCHA_API_KEY") as [k|] eqn:Ea.
    + now rewrite (CaptchaSolver_aenter_alternate (CaptchaSolver.__init__ "capsolver") w k Ep Ea).
    + now rewrite (CaptchaSolver_aenter_none (CaptchaSolver.__init__ "capsolver") w Ep Ea).
Qed.

Lemma SignupBot_aenter_eq (target_url : string) (interactive : bool)
    (w : World) :
  SignupBot.__aenter__ (SignupBot.__init__ target_url interactive, w)
  = (Ok tt, (entered_bot target_url interactive w, w)).
Proof.
  unfold SignupBot.__aenter__, SignupBot.enter_sms, SignupBot.enter_captcha,
    SignupBot.__init__, entered_bot, bind, except_ValueError, ret.
  rewrite SMSService_aenter_default.
  cbn [SignupBot.target_url SignupBot.interactive SignupBot.phone
         SignupBot.sms SignupBot.captcha].
  destruct (SMSService._provider (entered_sms w));
    rewrite CaptchaSolver_aenter_default;
    destruct (CaptchaSolver._provider (entered_captcha w)); reflexivity.
Qed.

(** X18: entering the bot never fails.  Whatever the environment holds,
    [SignupBot.__aenter__] returns normally and sends nothing, and it
    leaves both [self.sms] and [self.captcha] bound to a broker: one with
    the preferred provider if its key is set, else with the alternate one,
    else -- no key at all -- a broker that has no provider. *)
Theorem X18_bot_entry_never_fails (target_url : string) (interactive : bool)
    (w : World) :
  SignupBot.__aenter__ (SignupBot.__init__ target_url interactive, w)
  = (Ok tt, (entered_bot target_url interactive w, w))
  /\ SignupBot.sms (entered_bot target_url interactive w) <> None
  /\ SignupBot.captcha (entered_bot target_url interactive w) <> None
  /\ (env_key w "SMS_ACTIVATE_API_KEY" = None ->
      env_key w "FIVESIM_API_KEY" = None ->
      SignupBot.sms (entered_bot target_url interactive w)
      = Some (SMSService.__init__ "sms-activate"))
  /\ (env_key w "CAPSOLVER_API_KEY" = None ->
      env_key w "TWO_CAPTCHA_API_KEY" = None ->
      SignupBot.captcha (entered_bot target_url interactive w)
      = Some (CaptchaSolver.__init__ "capsolver")).
Proof.
  split; [apply SignupBot_aenter_eq|].
  split; [discriminate|]. split; [discriminate|].
  split; intros Hp Ha; cbn [entered_bot SignupBot.sms SignupBot.captcha];
    unfold entered_sms, entered_captcha; now rewrite Hp, Ha.
Qed.

Lemma X18_bot_entry_witness :
  let w := fresh_world no_env silent in
  SignupBot.__aenter__ (SignupBot.__init__ "https://example.org/signup" false,
                        w)
  = (Ok tt,
     (SignupBot.mk "https://example.org/signup" false None
        (Some (SMSService.__init__ "sms-activate"))
        (Some (CaptchaSolver.__init__ "capsolver")), w)).
Proof.
  intros w.
  exact (proj1 (X18_bot_entry_never_fails "https://example.org/signup" false
                  w)).
Defined.

(** Runs the handler on a bot, one case of the brokers' answer at a
    time. *)
Ltac handler_unfold :=
  unfold SignupBot.handle_agent_message, SignupBot.on_phone,
    SignupBot.on_captcha, SignupBot.on_sms_code, SignupBot.ask,
    SignupBot.with_sms, SignupBot.set_phone, except_Exception,
    except_TimeoutError_Exception, bind, get_self, set_self, lift, ret.

Lemma SignupBot_solve_no_provider (fuel : nat) (solver : CaptchaSolver.t)
    (type site_key url : string) (w : World) :
  CaptchaSolver._provider solver = None ->
  SignupBot.solve fuel solver type site_key url w
  = (Raise (no_attribute "NoneType" (SignupBot_solve_method type)), w).
Proof.
  intros Hp.
  unfold SignupBot.solve, SignupBot_solve_method,
    CaptchaSolver.solve_hcaptcha, CaptchaSolver.solve_recaptcha_v3,
    CaptchaSolver.solve_recaptcha_v2, bind.
  rewrite Hp.
  destruct (String.eqb type "hcaptcha"); [reflexivity|].
  destruct (String.eqb type "recaptcha_v3"); reflexivity.
Qed.

(** X19: what a bot without keys answers.  A non-interactive bot entered
    in an environment with no SMS key answers [PHONE_REQUIRED] with
    ["Failed to get phone number: "] followed by the text of the
    [AttributeError] that the call of [get_number] on the broker's
    missing provider raises.  Entered with no CAPTCHA key it answers a
    [CAPTCHA_DETECTED] message that carries a site key with ["CAPTCHA
    solving failed: ... Please solve manually."] around the text of the
    [AttributeError] for the solve method of the type of CAPTCHA that the
    message names: [solve_hcaptcha], [solve_recaptcha_v3] or
    [solve_recaptcha_v2].  Neither sends a request or changes the bot. *)
Theorem X19_unconfigured_bot_replies
    (input : string -> M World string)
    (search_site_key : string -> option string) (str_exn : exn -> string)
    (fuel : nat) (target_url message : string) (w : World) :
  (env_key w "SMS_ACTIVATE_API_KEY" = None ->
   env_key w "FIVESIM_API_KEY" = None ->
   contains "CAPTCHA_DETECTED" (upper message) = false ->
   contains "PHONE_REQUIRED" (upper message) = true ->
   (SignupBot.__aenter__ ;;;
    SignupBot.handle_agent_message input search_site_key str_exn fuel message)
     (SignupBot.__init__ target_url false, w)
   = (Ok ("Failed to get phone number: "
          ++ str_exn (AttributeError
                        "'NoneType' object has no attribute 'get_number'")),
      (entered_bot target_url false w, w)))
  /\ (forall k,
        env_key w "CAPSOLVER_API_KEY" = None ->
        env_key w "TWO_CAPTCHA_API_KEY" = None ->
        is_ascii message = true ->
        contains "CAPTCHA_DETECTED" (upper message) = true ->
        search_site_key message = Some k ->
        k <> ""%string ->
        (SignupBot.__aenter__ ;;;
         SignupBot.handle_agent_message input search_site_key str_exn fuel
           message)
          (SignupBot.__init__ target_url false, w)
        = (Ok ("CAPTCHA solving failed: "
               ++ str_exn
                    (AttributeError
                       ("'NoneType' object has no attribute '"
                        ++ SignupBot_solve_method
                             (SignupBot.captcha_type (upper message))
                        ++ "'"))
               ++ ". Please solve manually."),
           (entered_bot target_url false w, w))).
Proof.
  split.
  - intros Hp Ha Hc Hph.
    unfold bind at 1. rewrite SignupBot_aenter_eq.
    unfold SignupBot.handle_agent_message. rewrite Hc, Hph.
    unfold entered_bot, entered_sms. rewrite Hp, Ha.
    reflexivity.
  - intros k Hp Ha _ Hc Hk Hne.
    unfold bind at 1. rewrite SignupBot_aenter_eq.
    unfold SignupBot.handle_agent_message. rewrite Hc.
    unfold SignupBot.on_captcha, bind at 1, get_self.
    cbn [entered_bot SignupBot.captcha SignupBot.interactive
           SignupBot.target_url].
    rewrite Hk.
    destruct (String.eqb k "") eqn:E;
      [apply String.eqb_eq in E; now destruct Hne|].
    unfold bind at 1, ret at 1, except_Exception, bind at 1, lift.
    rewrite SignupBot_solve_no_provider; [reflexivity|].
    unfold entered_captcha. now rewrite Hp, Ha.
Qed.

Lemma X19_unconfigured_bot_witness :
  let w := fresh_world no_env silent in
  let str_exn := fun e : exn =>
    match e with AttributeError m => m | _ => ""%string end in
  let key := "6Le-wvkSAAAAAPBMRTvw0Q4Muexq9bi0DJwx_mJ-"%string in
  (SignupBot.__aenter__ ;;;
   SignupBot.handle_agent_message (fun _ => ret ""%string) (fun _ => None)
     str_exn 0 "phone_required: enter a number")
    (SignupBot.__init__ "https://example.org/signup" false, w)
  = (Ok "Failed to get phone number: 'NoneType' object has no attribute 'get_number'"%string,
     (entered_bot "https://example.org/signup" false w, w))
  /\ (SignupBot.__aenter__ ;;;
      SignupBot.handle_agent_message (fun _ => ret ""%string)
        (fun _ => Some key) str_exn 0 "CAPTCHA_DETECTED: hcaptcha")
       (SignupBot.__init__ "https://example.org/signup" false, w)
     = (Ok "CAPTCHA solving failed: 'NoneType' object has no attribute 'solve_hcaptcha'. Please solve manually."%string,
        (entered_bot "https://example.org/signup" false w, w)).
Proof.
  intros w str_exn key. split.
  - apply (proj1 (X19_unconfigured_bot_replies (fun _ => ret ""%string)
                    (fun _ => None) str_exn 0 "https://example.org/signup"
                    "phone_required: enter a number" w));
      reflexivity.
  - apply (proj2 (X19_unconfigured_bot_replies (fun _ => ret ""%string)
                    (fun _ => Some key) str_exn 0
                    "https://example.org/signup"
                    "CAPTCHA_DETECTED: hcaptcha" w) key);
      (reflexivity || discriminate).
Defined.

(** X20: the bot never says that a service is not configured.  After
    [__aenter__] both brokers are bound, so for a non-interactive bot the
    guards [if not self.sms] of [PHONE_REQUIRED] and [if not self.captcha]
    of [CAPTCHA_DETECTED] never fire: in no environment and against no
    remote side is such a message answered ["SMS service not configured."]
    or ["Please solve the CAPTCHA manually."]. *)
Theorem X20_not_configured_is_never_said
    (input : string -> M World string)
    (search_site_key : string -> option string) (str_exn : exn -> string)
    (fuel : nat) (target_url message : string) (w : World)
    (r : outcome string) (st : SignupBot.t * World) :
  (contains "CAPTCHA_DETECTED" (upper message)
   || contains "PHONE_REQUIRED" (upper message))%bool = true ->
  (SignupBot.__aenter__ ;;;
   SignupBot.handle_agent_message input search_site_key str_exn fuel message)
    (SignupBot.__init__ target_url false, w) = (r, st) ->
  ~ says_not_configured r.
Proof.
  intros Hm. unfold bind at 1. rewrite SignupBot_aenter_eq.
  unfold SignupBot.handle_agent_message.
  destruct (contains "CAPTCHA_DETECTED" (upper message)) eqn:Hc.
  - clear Hm. unfold SignupBot.on_captcha, bind at 1, get_self.
    cbn [entered_bot SignupBot.captcha SignupBot.interactive
           SignupBot.target_url].
    set (key := match search_site_key message with
                | Some k => if String.eqb k "" then None else Some k
                | None => None
                end).
    destruct key as [k|]; unfold bind at 1, ret at 1.
    + unfold except_Exception, bind at 1, lift.
      destruct (SignupBot.solve fuel (entered_captcha w)
                  (SignupBot.captcha_type (upper message)) k target_url w)
        as [[sol|e|x] w1].
      * unfold bind, slice_30, fmt, ret.
        destruct (token sol) as [| | | |s|l|d]; cbn;
          intros H [Hn|Hn]; subst r; cbn in H; inversion H.
      * unfold ret. intros H [Hn|Hn]; subst r; cbn in H; inversion H.
      * intros H [Hn|Hn]; subst r; inversion H.
    + unfold ret. intros H [Hn|Hn]; subst r; inversion H.
  - cbn [orb] in Hm. rewrite Hm.
    unfold SignupBot.on_phone, bind at 1, get_self.
    cbn [entered_bot SignupBot.sms].
    unfold except_Exception, bind at 1, SignupBot.with_sms.
    cbn [entered_bot SignupBot.sms SignupBot.target_url
           SignupBot.interactive SignupBot.phone SignupBot.captcha].
    destruct (SMSService.get_number "google" "russia" (entered_sms w, w))
      as [[p|e|x] [s1 w1]].
    + unfold SignupBot.set_phone, bind, get_self, set_self, fmt, ret.
      destruct (py_str (PhoneNumber.number p));
        intros H [Hn|Hn]; subst r; cbn in H; inversion H.
    + unfold SignupBot.ask, bind, get_self, ret.
      cbn [SignupBot.interactive].
      intros H [Hn|Hn]; subst r; cbn in H; inversion H.
    + intros H [Hn|Hn]; subst r; inversion H.
Qed.

Lemma X20_not_configured_witness :
  let w := fresh_world no_env silent in
  ~ says_not_configured (Ok "Could not determine CAPTCHA site key."%string).
Proof.
  intros w.
  apply (X20_not_configured_is_never_said (fun _ => ret ""%string)
           (fun _ => None) (fun _ => ""%string) 0
           "https://example.org/signup" "reCAPTCHA_detected on the page" w
           (Ok "Could not determine CAPTCHA site key."%string)
           (entered_bot "https://example.org/signup" false w, w)).
  - reflexivity.
  - reflexivity.
Defined.

(** X21: the bot and the SMS code, for an ASCII message that asks for
    the code and for nothing else.  A non-interactive bot that has not
    obtained a number answers [SMS_CODE_REQUIRED] with ["SMS service not
    configured."] and sends nothing, whatever keys are configured.  Once
    it holds a number of SMS-Activate, and the provider never has a code
    for it, the bot waits the fixed 120 seconds -- 24 checks, five
    seconds apart -- cancels the activation and answers ["SMS code not
    received within timeout."]; the [TimeoutError] does not reach the
    caller. *)
Theorem X21_bot_sms_code_replies
    (input : string -> M World string)
    (search_site_key : string -> option string) (str_exn : exn -> string)
    (fuel : nat) (message : string) :
  is_ascii message = true ->
  contains "CAPTCHA_DETECTED" (upper message) = false ->
  contains "PHONE_REQUIRED" (upper message) = false ->
  contains "SMS_CODE_REQUIRED" (upper message) = true ->
  (forall (target_url : string) (w : World),
      (SignupBot.__aenter__ ;;;
       SignupBot.handle_agent_message input search_site_key str_exn fuel
         message)
        (SignupBot.__init__ target_url false, w)
      = (Ok "SMS service not configured."%string,
         (entered_bot target_url false w, w)))
  /\ (forall (bot : SignupBot.t) (s : SMSService.t) (c : Client)
             (h : list (string * string)) (p p0 : PhoneNumber.t)
             (txt : string) (w : World),
        SignupBot.interactive bot = false ->
        SignupBot.sms bot = Some s ->
        SignupBot.phone bot = Some p0 ->
        SMSService._provider s = Some (SMSActivate c) ->
        SMSService._current_phone s = Some p ->
        _session c = Some h ->
        answers_text w txt ->
        startswith txt "STATUS_OK:" = false ->
        String.eqb txt "STATUS_CANCEL" = false ->
        (120 <= fuel)%nat ->
        exists w',
          SignupBot.handle_agent_message input search_site_key str_exn fuel
            message (bot, w)
          = (Ok "SMS code not received within timeout."%string, (bot, w'))
          /\ requests (trace w') =
             (SMSActivate_status_request c h (PhoneNumber.activation_id p) 8
              :: repeat (SMSActivate_check_request c h
                           (PhoneNumber.activation_id p)) 24
              ++ requests (trace w))%list
          /\ slept (trace w') = 120 + slept (trace w)).
Proof.
  intros _ Hc Hph Hsm. split.
  - intros target_url w.
    unfold bind at 1. rewrite SignupBot_aenter_eq.
    unfold SignupBot.handle_agent_message. rewrite Hc, Hph, Hsm.
    reflexivity.
  - intros bot s c h p p0 txt w Hi Hs Hp0 Hprov Hcur Hsess Ha Hok Hcan Hf.
    destruct (SMSActivate_never_a_code fuel c h (PhoneNumber.activation_id p)
                txt 120 5 w Hsess Ha Hok Hcan)
      as (w' & n & H & Hq & Hsl & Ht); [lia | exact Hf |].
    assert (Hn : n = 24%nat) by (unfold timed_out_after in Ht; lia).
    subst n. exists w'.
    split; [|split; [exact Hq | rewrite Hsl; reflexivity]].
    unfold SignupBot.handle_agent_message. rewrite Hc, Hph, Hsm.
    destruct bot as [url i ph sm cap]. cbn in Hi, Hs, Hp0. subst i sm ph.
    unfold SignupBot.on_sms_code, bind at 1, get_self.
    cbn [SignupBot.sms SignupBot.phone].
    unfold except_TimeoutError_Exception, bind at 1, lift,
      SMSService.wait_for_code.
    rewrite Hcur, Hprov. unfold bind at 1.
    unfold SMSService.default_poll_interval. rewrite H.
    reflexivity.
Qed.

Lemma X21_bot_sms_code_witness :
  let c := mkClient "key-sa" (Some []) in
  let p := PhoneNumber.mk (JStr "79001234567") (JStr "0") "77"
             "sms-activate" None in
  let s := SMSService.mk "sms-activate" (Some (SMSActivate c)) (Some p) in
  let bot := SignupBot.mk "https://example.org/signup" false (Some p)
               (Some s) (Some (CaptchaSolver.__init__ "capsolver")) in
  let w := fresh_world no_env (text_stub "STATUS_WAIT_CODE") in
  exists w',
    SignupBot.handle_agent_message (fun _ => ret ""%string) (fun _ => None)
      (fun _ => ""%string) 120 "sms_code_required" (bot, w)
    = (Ok "SMS code not received within timeout."%string, (bot, w'))
    /\ requests (trace w') =
       (SMSActivate_status_request c [] "77" 8
        :: repeat (SMSActivate_check_request c [] "77") 24
        ++ requests (trace w))%list
    /\ slept (trace w') = 120 + slept (trace w).
Proof.
  intros c p s bot w.
  apply (proj2 (X21_bot_sms_code_replies (fun _ => ret ""%string)
                  (fun _ => None) (fun _ => ""%string) 120
                  "sms_code_required" eq_refl eq_refl eq_refl eq_refl)
           bot s c [] p p "STATUS_WAIT_CODE" w).
  - reflexivity.
  - reflexivity.
  - reflexivity.
  - reflexivity.
  - reflexivity.
  - reflexivity.
  - intros tr r. eexists. split; reflexivity.
  - reflexivity.
  - reflexivity.
  - apply le_n.
Defined.

Lemma SignupBot_solve_CapSolver (fuel : nat) (solver : CaptchaSolver.t)
    (c : Client) (type site_key url : string) (w : World) :
  CaptchaSolver._provider solver = Some (CapSolver c) ->
  SignupBot.solve fuel solver type site_key url w =
  (solution <- CapSolverClient._create_and_wait fuel c
                 (SignupBot_task type site_key url)
                 CapSolverClient.default_timeout ;;
   format_4f (cost solution) ;;;
   ret solution) w.
Proof.
  intros Hp.
  unfold SignupBot.solve, SignupBot_task, CaptchaSolver.solve_hcaptcha,
    CaptchaSolver.solve_recaptcha_v3, CaptchaSolver.solve_recaptcha_v2.
  rewrite Hp.
  destruct (String.eqb type "hcaptcha"); [reflexivity|].
  destruct (String.eqb type "recaptcha_v3"); reflexivity.
Qed.

Lemma format_4f_ok (v : json) (w : World) :
  renders_4f v = true -> @format_4f World v w = (Ok tt, w).
Proof.
  destruct v; cbn [renders_4f format_4f]; try (discriminate || reflexivity).
  now intros ->.
Qed.

(** X22: the bot and a CAPTCHA.  With a [CapSolverClient] behind the
    broker and a site key in an ASCII message, the bot has the provider
    create one task -- of the type the message names, hCaptcha before
    reCAPTCHA v3 before the default reCAPTCHA v2, with the bot's target
    URL -- and polls it.  When the provider is ready at that poll with a
    cost that the log line can render, and the token is a string, the
    answer is ["CAPTCHA_TOKEN: <token>"]; when the solution carries no
    token, the [None] cannot be sliced for the log line, and the answer is
    ["CAPTCHA solving failed: ... Please solve manually."] although the
    task was solved. *)
Theorem X22_bot_solves_a_captcha
    (input : string -> M World string)
    (search_site_key : string -> option string) (str_exn : exn -> string)
    (fuel : nat) (message k : string) (bot : SignupBot.t)
    (solver : CaptchaSolver.t) (c : Client) (h : list (string * string))
    (w : World) (d sol : dict) :
  is_ascii message = true ->
  contains "CAPTCHA_DETECTED" (upper message) = true ->
  search_site_key message = Some k ->
  k <> ""%string ->
  SignupBot.captcha bot = Some solver ->
  CaptchaSolver._provider solver = Some (CapSolver c) ->
  _session c = Some h ->
  CapSolver_accepts (remote w) ->
  CapSolver_ready_with (remote w) d ->
  dict_get_default d "solution" (JObj []) = JObj sol ->
  renders_4f (dict_get_default d "cost" (JInt 0)) = true ->
  exists w' task_id,
    requests (trace w') =
      CapSolver_poll_request c h task_id
      :: CapSolver_create_request c h
           (SignupBot_task (SignupBot.captcha_type (upper message)) k
              (SignupBot.target_url bot))
      :: requests (trace w)
    /\ (forall tok,
          CapSolver_token sol = JStr tok ->
          SignupBot.handle_agent_message input search_site_key str_exn
            (S fuel) message (bot, w)
          = (Ok ("CAPTCHA_TOKEN: " ++ tok), (bot, w')))
    /\ (CapSolver_token sol = JNull ->
        SignupBot.handle_agent_message input search_site_key str_exn
          (S fuel) message (bot, w)
        = (Ok ("CAPTCHA solving failed: " ++ str_exn TypeError
               ++ ". Please solve manually."), (bot, w'))).
Proof.
  intros _ Hc Hk Hne Hcap Hp Hs Ha Hn Hsol Hcost.
  destruct (CapSolver_ready_with_run fuel c h
              (SignupBot_task (SignupBot.captcha_type (upper message)) k
                 (SignupBot.target_url bot))
              CapSolverClient.default_timeout w d sol Hs Ha Hn Hsol
              eq_refl) as (w' & task_id & H & Hq).
  exists w', task_id. split; [exact Hq|].
  assert (Run : SignupBot.solve (S fuel) solver
                  (SignupBot.captcha_type (upper message)) k
                  (SignupBot.target_url bot) w
                = (Ok (mkCaptchaSolution (CapSolver_token sol) task_id
                         "capsolver" (dict_get_default d "cost" (JInt 0))),
                   w')).
  { rewrite (SignupBot_solve_CapSolver (S fuel) solver c _ _ _ w Hp).
    unfold bind. rewrite H. cbn [cost].
    now rewrite (format_4f_ok _ w' Hcost). }
  assert (E : String.eqb k "" = false).
  { destruct (String.eqb k "") eqn:E; [|reflexivity].
    apply String.eqb_eq in E. now destruct Hne. }
  split; [intros tok Htok | intros Htok];
    unfold SignupBot.handle_agent_message; rewrite Hc;
    unfold SignupBot.on_captcha, bind at 1, get_self;
    rewrite Hcap, Hk, E;
    unfold bind at 1, ret at 1, except_Exception, bind at 1, lift;
    rewrite Run; cbn [token]; rewrite Htok; reflexivity.
Qed.

Lemma X22_bot_solves_a_captcha_witness :
  let c := mkClient "key-cs" (Some []) in
  let solver := CaptchaSolver.mk "capsolver" (Some (CapSolver c)) in
  let bot := SignupBot.mk "https://example.org/signup" false None
               (Some (SMSService.__init__ "sms-activate")) (Some solver) in
  let d := [("errorId", JInt 0); ("status", JStr "ready");
            ("solution", JObj [("gRecaptchaResponse", JStr "tok-123")]);
            ("cost", JFloat "0.0008")] in
  let w := fresh_world no_env (CapSolver_stub 0 d) in
  let key := "6Le-wvkSAAAAAPBMRTvw0Q4Muexq9bi0DJwx_mJ-"%string in
  exists w' task_id,
    requests (trace w') =
      [CapSolver_poll_request c [] task_id;
       CapSolver_create_request c []
         [("type", JStr "HCaptchaTurboTaskProxyLess");
          ("websiteURL", JStr "https://example.org/signup");
          ("websiteKey", JStr key)]]
    /\ SignupBot.handle_agent_message (fun _ => ret ""%string)
         (fun _ => Some key) (fun _ => ""%string) 1
         "captcha_detected: hCaptcha (not reCAPTCHA v3)" (bot, w)
       = (Ok "CAPTCHA_TOKEN: tok-123"%string, (bot, w')).
Proof.
  intros c solver bot d w key.
  destruct (X22_bot_solves_a_captcha (fun _ => ret ""%string)
              (fun _ => Some key) (fun _ => ""%string) 0
              "captcha_detected: hCaptcha (not reCAPTCHA v3)" key bot solver
              c [] w d [("gRecaptchaResponse", JStr "tok-123")])
    as (w' & task_id & Hq & Hok & _).
  - reflexivity.
  - reflexivity.
  - reflexivity.
  - discriminate.
  - reflexivity.
  - reflexivity.
  - reflexivity.
  - apply CapSolver_stub_accepts.
  - split; [reflexivity|]. split; [reflexivity|].
    intros tr q Hu. now apply CapSolver_stub_polls.
  - reflexivity.
  - reflexivity.
  - exists w', task_id. split; [exact Hq|].
    exact (Hok "tok-123"%string eq_refl).
Defined.

(** X23: a non-interactive bot never prompts.  With [interactive] false,
    [handle_agent_message] does not depend on [input] at all: whatever
    the message, the environment, the brokers and the remote side, the
    answer, the requests and the bot afterwards are the same for any two
    behaviours of [input]. *)
Theorem X23_headless_bot_never_prompts
    (input1 input2 : string -> M World string)
    (search_site_key : string -> option string) (str_exn : exn -> string)
    (fuel : nat) (message : string) (bot : SignupBot.t) (w : World) :
  SignupBot.interactive bot = false ->
  SignupBot.handle_agent_message input1 search_site_key str_exn fuel message
    (bot, w)
  = SignupBot.handle_agent_message input2 search_site_key str_exn fuel
      message (bot, w).
Proof.
  destruct bot as [url i ph sm cap]. cbn [SignupBot.interactive].
  intros ->. unfold SignupBot.handle_agent_message.
  destruct (contains "CAPTCHA_DETECTED" (upper message)).
  { unfold SignupBot.on_captcha, SignupBot.ask, bind, get_self.
    cbn [SignupBot.captcha SignupBot.interactive].
    destruct cap as [solver|]; [|reflexivity].
    destruct (search_site_key message) as [k|]; [|reflexivity].
    destruct (String.eqb k ""); reflexivity. }
  destruct (contains "PHONE_REQUIRED" (upper message)).
  { unfold SignupBot.on_phone, SignupBot.ask, SignupBot.with_sms,
      SignupBot.set_phone, except_Exception, bind, get_self, set_self, fmt,
      ret.
    destruct sm as [s|]; [|reflexivity].
    cbn [SignupBot.sms SignupBot.target_url SignupBot.interactive
           SignupBot.phone SignupBot.captcha].
    destruct (SMSService.get_number "google" "russia" (s, w))
      as [[p|e|x] [s1 w1]]; [|reflexivity|reflexivity].
    destruct (py_str (PhoneNumber.number p)); reflexivity. }
  destruct (contains "SMS_CODE_REQUIRED" (upper message)).
  { unfold SignupBot.on_sms_code, SignupBot.ask,
      except_TimeoutError_Exception, bind, get_self, lift, fmt, ret.
    destruct sm as [s|]; [|reflexivity].
    destruct ph as [p|]; [|reflexivity].
    cbn [SignupBot.sms SignupBot.phone SignupBot.interactive].
    destruct (SMSService.wait_for_code fuel s 120 w) as [[c|e|x] w1];
      [|destruct e; reflexivity|reflexivity].
    destruct (py_str c); reflexivity. }
  reflexivity.
Qed.

Lemma X23_headless_bot_witness :
  let bot := SignupBot.mk "https://example.org/signup" false None None None in
  let w := fresh_world no_env silent in
  SignupBot.handle_agent_message (fun _ => ret "typed"%string)
    (fun _ => None) (fun _ => ""%string) 0 "What is your name?" (bot, w)
  = SignupBot.handle_agent_message (fun _ => raise ClientError)
      (fun _ => None) (fun _ => ""%string) 0 "What is your name?" (bot, w).
Proof.
  intros bot w.
  apply (X23_headless_bot_never_prompts (fun _ => ret "typed"%string)
           (fun _ => raise ClientError) (fun _ => None) (fun _ => ""%string)
           0 "What is your name?" bot w).
  reflexivity.
Defined.

(** Whatever the provider answers, leasing a number is one request. *)
Lemma SMSActivate_get_number_trace (c : Client) (h : list (string * string))
    (service country : string) (w w' : World) (r : outcome PhoneNumber.t) :
  _session c = Some h ->
  SMSActivateClient.get_number c service country w = (r, w') ->
  requests (trace w') =
  SMSActivate_request c h "getNumber"
    [("service", JStr (table_get SMSActivateClient.SERVICES (lower service)
                         service));
     ("country", JStr country)]
  :: requests (trace w).
Proof.
  intros Hs H. unfold SMSActivateClient.get_number in H.
  destruct (bind_inv _ _ _ _ _ H)
    as [(a & w1 & H1 & H2)|[(x & H1 & ->)|(x & H1 & ->)]];
    rewrite (SMSActivate_request_eq c h) in H1 by (exact Hs || reflexivity);
    inversion H1; subst; clear H1; [|reflexivity|reflexivity].
  match type of H2 with
  | _ ?w1 = _ => assert (E : w' = w1)
  end.
  { repeat match type of H2 with
           | context [if ?b then _ else _] => destruct b
           | context [match ?x with _ => _ end] => destruct x
           end; now inversion H2. }
  subst w'. reflexivity.
Qed.

Lemma behaves_nothing {A} (m : M World A) (w w' : World) (r : outcome A) :
  behaves (fun _ => False) m -> m w = (r, w') -> trace w' = trace w.
Proof.
  intros B H. destruct (B _ _ _ H) as [[_ _ (delta & Ht & Hf) _] _].
  destruct delta as [|e delta]; [exact Ht|].
  inversion Hf; contradiction.
Qed.

Lemma FiveSim_get_number_trace (c : Client) (h : list (string * string))
    (service country operator : string) (w w' : World)
    (r : outcome PhoneNumber.t) :
  _session c = Some h ->
  FiveSimClient.get_number c service country operator w = (r, w') ->
  requests (trace w') =
  FiveSim_buy_request h country operator (FiveSim_service service)
  :: requests (trace w).
Proof.
  intros Hs H. unfold FiveSimClient.get_number in H.
  destruct (bind_inv _ _ _ _ _ H)
    as [(a & w1 & H1 & H2)|[(x & H1 & ->)|(x & H1 & ->)]];
    rewrite Hs, send_eq in H1 by reflexivity;
    match type of H1 with
    | context [response ?rep] => destruct (response rep)
    end;
    inversion H1; subst; clear H1; try reflexivity.
  apply behaves_nothing in H2; [now rewrite H2|].
  destruct (negb (rs_status a =? 200)); [apply behaves_raise; exact I|].
  repeat first [ apply behaves_resp_json | apply behaves_py_item
               | apply behaves_fmt | behaves_step ].
Qed.

(** What [SMSService.get_number] leaves in the broker. *)
Lemma SMSService_get_number_self (self self' : SMSService.t)
    (service country : string) (w w' : World) (r : outcome PhoneNumber.t) :
  SMSService.get_number service country (self, w) = (r, (self', w')) ->
  match r with
  | Ok p => self' = SMSService.mk (SMSService.preferred_provider self)
                      (SMSService._provider self) (Some p)
  | _ => self' = self
  end.
Proof.
  destruct (SMSService._provider self) as [[c|c]|] eqn:Hp.
  - rewrite (SMSService_get_number_SMSActivate self c service country w Hp).
    destruct (SMSActivateClient.get_number _ _ _ w) as [[p|e|x] w1];
      intros H; inversion H; subst; now rewrite ?Hp.
  - rewrite (SMSService_get_number_FiveSim self c service country w Hp).
    destruct (FiveSimClient.get_number _ _ _ _ w) as [[p|e|x] w1];
      intros H; inversion H; subst; now rewrite ?Hp.
  - destruct self as [pref prov ph]. cbn in Hp. subst prov.
    unfold SMSService.get_number, bind, get_self, raise.
    cbn. intros H. now inversion H.
Qed.

(** X24: the bot and the phone number.  For [PHONE_REQUIRED] a
    non-interactive bot sends exactly one request, and it is always the
    lease of a number for Google in Russia, whatever the target URL:
    [getNumber] with service ["go"] and country ["0"] to SMS-Activate, or
    the purchase [russia/any/google] from 5sim.  No exception reaches the
    caller: the answer is either ["PHONE_NUMBER: +<number>"], and then
    the bot and its broker both hold that phone, or ["Failed to get phone
    number: ..."] with the bot unchanged. *)
Theorem X24_bot_leases_a_number
    (input : string -> M World string)
    (search_site_key : string -> option string) (str_exn : exn -> string)
    (fuel : nat) (message : string) (bot bot' : SignupBot.t)
    (s : SMSService.t) (w w' : World) (r : outcome string) :
  contains "CAPTCHA_DETECTED" (upper message) = false ->
  contains "PHONE_REQUIRED" (upper message) = true ->
  SignupBot.interactive bot = false ->
  SignupBot.sms bot = Some s ->
  SignupBot.handle_agent_message input search_site_key str_exn fuel message
    (bot, w) = (r, (bot', w')) ->
  (forall c h,
      SMSService._provider s = Some (SMSActivate c) ->
      _session c = Some h ->
      requests (trace w') =
      SMSActivate_request c h "getNumber"
        [("service", JStr "go"); ("country", JStr "0")]
      :: requests (trace w))
  /\ (forall c h,
        SMSService._provider s = Some (FiveSim c) ->
        _session c = Some h ->
        requests (trace w') =
        FiveSim_buy_request h "russia" "any" "google" :: requests (trace w))
  /\ (forall x,
        r = Ok x ->
        (exists p n s',
            x = ("PHONE_NUMBER: +" ++ n)%string
            /\ py_str (PhoneNumber.number p) = Some n
            /\ SignupBot.phone bot' = Some p
            /\ SignupBot.sms bot' = Some s'
            /\ SMSService._current_phone s' = Some p)
        \/ (exists e,
               x = ("Failed to get phone number: " ++ str_exn e)%string
               /\ bot' = bot))
  /\ (forall e, r <> Raise e).
Proof.
  intros Hc Hph Hi Hs.
  destruct bot as [url i ph sm cap]. cbn in Hi, Hs. subst i sm.
  unfold SignupBot.handle_agent_message. rewrite Hc, Hph.
  unfold SignupBot.on_phone, SignupBot.ask, SignupBot.with_sms,
    SignupBot.set_phone, except_Exception, bind, get_self, set_self, fmt,
    ret.
  cbn [SignupBot.sms SignupBot.target_url SignupBot.interactive
         SignupBot.phone SignupBot.captcha].
  destruct (SMSService.get_number "google" "russia" (s, w))
    as [r0 [s1 w1]] eqn:Hg.
  assert (Hself := SMSService_get_number_self _ _ _ _ _ _ _ Hg).
  assert (T1 : forall c h,
             SMSService._provider s = Some (SMSActivate c) ->
             _session c = Some h ->
             requests (trace w1) =
             SMSActivate_request c h "getNumber"
               [("service", JStr "go"); ("country", JStr "0")]
             :: requests (trace w)).
  { intros c h Hp Hh.
    rewrite (SMSService_get_number_SMSActivate s c _ _ w Hp) in Hg.
    destruct (SMSActivateClient.get_number c "google" _ w)
      as [r1 w2] eqn:Hn.
    apply (SMSActivate_get_number_trace c h) in Hn; [|exact Hh].
    destruct r1; inversion Hg; subst; exact Hn. }
  assert (T2 : forall c h,
             SMSService._provider s = Some (FiveSim c) ->
             _session c = Some h ->
             requests (trace w1) =
             FiveSim_buy_request h "russia" "any" "google"
             :: requests (trace w)).
  { intros c h Hp Hh.
    rewrite (SMSService_get_number_FiveSim s c _ _ w Hp) in Hg.
    destruct (FiveSimClient.get_number c "google" _ "any" w)
      as [r1 w2] eqn:Hn.
    apply (FiveSim_get_number_trace c h) in Hn; [|exact Hh].
    destruct r1; inversion Hg; subst; exact Hn. }
  clear Hg.
  destruct r0 as [p|e|x].
  - destruct (py_str (PhoneNumber.number p)) as [n|] eqn:En;
      intros H; inversion H; subst; clear H;
      (split; [exact T1|]); (split; [exact T2|]);
      (split; [|discriminate]); intros y Hy; inversion Hy; subst.
    left. exists p, n. eexists.
    split; [reflexivity|]. split; [exact En|].
    split; [reflexivity|]. split; reflexivity.
  - intros H; inversion H; subst; clear H.
    split; [exact T1|]. split; [exact T2|]. split; [|discriminate].
    intros y Hy. inversion Hy; subst. right. exists e. now split.
  - intros H; inversion H; subst; clear H.
    split; [exact T1|]. split; [exact T2|]. split; discriminate.
Qed.

Lemma X24_bot_leases_a_number_witness :
  let c := mkClient "key-sa" (Some []) in
  let s := SMSService.mk "sms-activate" (Some (SMSActivate c)) None in
  let bot := SignupBot.mk "https://example.org/signup" false None (Some s)
               None in
  let w := fresh_world no_env always_a_number in
  let run := SignupBot.handle_agent_message (fun _ => ret ""%string)
               (fun _ => None) (fun _ => ""%string) 0
               "PHONE_REQUIRED" (bot, w) in
  requests (trace (snd (snd run))) =
  [SMSActivate_request c [] "getNumber"
     [("service", JStr "go"); ("country", JStr "0")]].
Proof.
  intros c s bot w run.
  apply (proj1 (X24_bot_leases_a_number (fun _ => ret ""%string)
                  (fun _ => None) (fun _ => ""%string) 0 "PHONE_REQUIRED"
                  bot (fst (snd run)) s w (snd (snd run)) (fst run)
                  eq_refl eq_refl eq_refl eq_refl eq_refl) c []);
    reflexivity.
Defined.

(* ================================================================== *)
(** ** Notifying the provider: done or cancel, exactly once *)
(* ================================================================== *)

Lemma never_stuck_ret {A} (a : A) : never_stuck (ret a).
Proof. intros w r w' H x. inversion H; subst. discriminate. Qed.

Lemma never_stuck_raise {A} (e : exn) : never_stuck (@raise World A e).
Proof. intros w r w' H x. inversion H; subst. discriminate. Qed.

Lemma never_stuck_bind {A B} (m : M World A) (k : A -> M World B) :
  never_stuck m -> (forall a, never_stuck (k a)) -> never_stuck (bind m k).
Proof.
  intros Hm Hk w r w' H x.
  destruct (bind_inv _ _ _ _ _ H)
    as [(a & w1 & H1 & H2)|[(e & H1 & ->)|(y & H1 & ->)]].
  - exact (Hk a _ _ _ H2 x).
  - discriminate.
  - destruct (Hm _ _ _ H1 y eq_refl).
Qed.

Lemma never_stuck_sleep (d : Z) : never_stuck (sleep d).
Proof. intros w r w' H x. inversion H; subst. discriminate. Qed.

(** A request whose parameters are valid is sent, or fails in Python's
    own ways. *)
Lemma never_stuck_send (s : session) (v : verb) (url : string)
    (params : dict) (body : option json) :
  forallb (fun kv => valid_param (snd kv)) params = true ->
  never_stuck (send s v url params body).
Proof.
  intros Hv. unfold send. destruct s as [h|]; [|apply never_stuck_raise].
  rewrite Hv. intros w r w' H x.
  destruct (response _) in H; inversion H; subst; discriminate.
Qed.

Ltac never_stuck_step :=
  match goal with
  | |- never_stuck (bind _ _) => apply never_stuck_bind; [|intros]
  | |- never_stuck (ret _) => apply never_stuck_ret
  | |- never_stuck (raise _) => apply never_stuck_raise
  | |- never_stuck (sleep _) => apply never_stuck_sleep
  | |- never_stuck (send _ _ _ _ _) => apply never_stuck_send; reflexivity
  | |- never_stuck (if ?b then _ else _) => destruct b
  | |- never_stuck (match ?x with _ => _ end) => destruct x
  end.

Lemma SMSActivate_get_code_never_stuck (self : Client) (aid : string) :
  never_stuck (SMSActivateClient.get_code self aid).
Proof.
  unfold SMSActivateClient.get_code, SMSActivateClient._request.
  repeat never_stuck_step.
Qed.

Lemma SMSActivate_set_status_never_stuck (self : Client)
    (aid status : string) :
  never_stuck (SMSActivateClient.set_status self aid status).
Proof.
  unfold SMSActivateClient.set_status, SMSActivateClient._request.
  repeat never_stuck_step.
Qed.

Lemma FiveSim_get_code_never_stuck (self : Client) (aid : string) :
  never_stuck (FiveSimClient.get_code self aid).
Proof.
  unfold FiveSimClient.get_code, resp_json, py_get, py_item, py_item0,
    or_else.
  repeat never_stuck_step.
Qed.

Lemma FiveSim_notify_never_stuck (self : Client) (aid : string) :
  never_stuck (FiveSimClient.finish self aid)
  /\ never_stuck (FiveSimClient.cancel self aid).
Proof.
  unfold FiveSimClient.finish, FiveSimClient.cancel.
  split; repeat never_stuck_step.
Qed.

Section WaitUntilEnds.

Context {C : Type}.
Variables (poll : M World (option C)) (done cancel : M World unit).
Variables (msg : string) (timeout poll_interval : Z).

(** A code that the loop returns is one that a check has produced. *)
Lemma wait_until_ok (fuel : nat) :
  forall (e : Z) (w w' : World) (c : C),
    wait_until poll done cancel msg timeout poll_interval fuel e w
    = (Ok c, w') ->
    exists w1 w2, poll w1 = (Ok (Some c), w2).
Proof.
  induction fuel as [|f IH]; intros e w w' c; cbn [wait_until];
    destruct (e <? timeout).
  - discriminate.
  - unfold bind. destruct (cancel w) as [[[]|x|x] w1]; discriminate.
  - unfold bind at 1.
    destruct (poll w) as [[[c0|]|x|x] w1] eqn:Hp; try discriminate.
    + unfold bind. destruct (done w1) as [[[]|x|x] w2]; try discriminate.
      intros H. inversion H; subst. now exists w, w1.
    + unfold bind at 1, sleep at 1. apply IH.
  - unfold bind. destruct (cancel w) as [[[]|x|x] w1]; discriminate.
Qed.

Hypothesis Hpoll : never_stuck poll.
Hypothesis Hdone : never_stuck done.
Hypothesis Hcancel : never_stuck cancel.

(** With fuel for the rounds that the timeout allows, the loop ends as
    the Python loop does: with a code or with an exception. *)
Lemma wait_until_never_stuck (fuel : nat) :
  0 < poll_interval ->
  forall (e : Z) (w w' : World) (r : outcome C),
    (Z.to_nat (timeout - e) <= fuel)%nat ->
    wait_until poll done cancel msg timeout poll_interval fuel e w = (r, w') ->
    forall x, r <> Stuck x.
Proof.
  intros Hpi.
  assert (Past : forall fuel e w w' r,
             (e <? timeout) = false ->
             wait_until poll done cancel msg timeout poll_interval fuel e w
             = (r, w') ->
             forall x, r <> Stuck x).
  { intros f e w w' r E H x.
    destruct f; cbn [wait_until] in H; rewrite E in H;
      (destruct (bind_inv _ _ _ _ _ H)
         as [(a & w1 & H1 & H2)|[(y & H1 & ->)|(y & H1 & ->)]];
       [inversion H2; subst; discriminate
       | discriminate
       | destruct (Hcancel _ _ _ H1 y eq_refl)]). }
  induction fuel as [|f IH]; intros e w w' r Hf H x;
    destruct (e <? timeout) eqn:E;
    try exact (Past _ _ _ _ _ E H x).
  - apply Z.ltb_lt in E. lia.
  - cbn [wait_until] in H. rewrite E in H. apply Z.ltb_lt in E.
    destruct (bind_inv _ _ _ _ _ H)
      as [(a & w1 & H1 & H2)|[(y & H1 & ->)|(y & H1 & ->)]];
      [|discriminate|destruct (Hpoll _ _ _ H1 y eq_refl)].
    destruct a as [c|].
    + destruct (bind_inv _ _ _ _ _ H2)
        as [(a & w2 & H3 & H4)|[(y & H3 & ->)|(y & H3 & ->)]];
        [inversion H4; subst; discriminate
        | discriminate
        | destruct (Hdone _ _ _ H3 y eq_refl)].
    + unfold bind at 1, sleep at 1 in H2.
      refine (IH (e + poll_interval) _ w' r _ H2 x). lia.
Qed.

End WaitUntilEnds.

(** A run of [wait_for_code] of the 5sim client against a provider whose
    answers hold no SMS. *)
Lemma FiveSim_never_a_code (fuel : nat) (self : Client)
    (h : list (string * string)) (aid : string) (timeout poll_interval : Z)
    (w : World) (d : dict) :
  _session self = Some h ->
  answers_json w d ->
  truthy (dict_get d "sms") = false ->
  0 < poll_interval ->
  (Z.to_nat timeout <= fuel)%nat ->
  exists w' n,
    FiveSimClient.wait_for_code fuel self aid timeout poll_interval w
    = (Raise (TimeoutError ("No code received within "
                            ++ string_of_Z timeout ++ " seconds")), w')
    /\ requests (trace w') =
       (FiveSim_request h "cancel" aid
        :: repeat (FiveSim_request h "check" aid) n
        ++ requests (trace w))%list
    /\ slept (trace w') = poll_interval * Z.of_nat n + slept (trace w)
    /\ timed_out_after timeout poll_interval 0 (poll_interval * Z.of_nat n).
Proof.
  intros Hs Ha Hsms Hpi Hf.
  unfold FiveSimClient.wait_for_code.
  assert (Shape := FiveSim_wait_loop_shape fuel self aid timeout
                     poll_interval 0 w).
  destruct (wait_until_never
              (c <- FiveSimClient.get_code self aid ;;
               ret (if truthy c then Some c else None))
              (FiveSimClient.finish self aid)
              (FiveSimClient.cancel self aid)
              ("No code received within " ++ string_of_Z timeout
               ++ " seconds") timeout poll_interval (remote w)
              (FiveSim_request h "check" aid)
              (FiveSim_request h "cancel" aid))
    with (fuel := fuel) (e := 0) (w := w) as (w' & n & H & Hq & Hsl & Ht).
  - intros w0 Hr. unfold bind.
    rewrite (FiveSim_get_code_json self h aid d w0 Hs).
    + rewrite Hsms. reflexivity.
    + rewrite Hr. apply Ha.
  - intros w0 Hr. unfold FiveSimClient.cancel.
    change (FiveSimClient.BASE_URL ++ "/user/cancel/" ++ aid)
      with (FiveSimClient.BASE_URL ++ "/user/" ++ "cancel" ++ "/" ++ aid).
    apply (FiveSim_notify_eq self h "cancel" aid w0 Hs).
    rewrite Hr.
    destruct (Ha (trace w0) (FiveSim_request h "cancel" aid))
      as (resp & -> & _).
    discriminate.
  - exact Hpi.
  - reflexivity.
  - now rewrite Z.sub_0_r.
  - exists w', n. rewrite Shape.
    split; [exact H|]. split; [exact Hq|]. split; [exact Hsl | exact Ht].
Qed.


